(** * slidev-addon-react: the attribute sanitizer, the component registry,
      the embedding bridge and the build-time transform hook.

    The development follows the TypeScript sources:
    - [src/utils/filter-props.ts]   ([filterProps]),
    - [src/components/React.vue]    ([loadRegistry], [renderReact], the
      [onUnmounted] hook and the two watchers),
    - the Vite plugin setup         ([transform]).

    [React.vue] is kept in two versions; the bridge below is the one that
    scans [react-components/] (lines 1-98).  Of the other version, the
    loop over the attributes (lines 161-169) and the loading of the
    registry (lines 117-132) are given beside it.

    JavaScript objects live in a heap of cells and are denoted by their
    address, so that "the same object" is an equality of addresses. *)

From Stdlib Require Import ZArith String Ascii List Bool Lia.
From stdpp Require Import base option list gmap strings.
Import ListNotations.

Local Open Scope string_scope.

(** ** JavaScript strings *)

Module JsString.

(** [s.startsWith(p)] *)
Definition startsWith (s p : string) : bool := String.prefix p s.

(** [s.includes(p)]: [p] occurs at some position of [s]. *)
Fixpoint includes (s p : string) : bool :=
  String.prefix p s ||
  match s with
  | EmptyString => false
  | String _ s' => includes s' p
  end.

(** [s.endsWith(p)] *)
Definition endsWith (s p : string) : bool :=
  (String.length p <=? String.length s)%nat &&
  String.eqb (String.substring (String.length s - String.length p)
                               (String.length p) s) p.

(** [s.split('/')]: never the empty array. *)
Fixpoint split_slash (s : string) : list string :=
  match s with
  | EmptyString => [EmptyString]
  | String c s' =>
      if Ascii.eqb c "/" then EmptyString :: split_slash s'
      else match split_slash s' with
           | seg :: segs => String c seg :: segs
           | [] => [String c EmptyString]
           end
  end.

(** [a.pop()]: the last element, [undefined] ([None]) on the empty array. *)
Definition pop (a : list string) : option string := last a.

(** [/\.[jt]sx$/] at the current position: a dot, [j] or [t], [s], [x]
    and the end of the input. *)
Definition jtsx_here (s : string) : bool :=
  match s with
  | String c0 (String c1 (String c2 (String c3 EmptyString))) =>
      Ascii.eqb c0 "." && (Ascii.eqb c1 "j" || Ascii.eqb c1 "t") &&
      Ascii.eqb c2 "s" && Ascii.eqb c3 "x"
  | _ => false
  end.

(** [/\.[jt]sx$/.test(s)]: a match at some position. *)
Fixpoint test_jtsx (s : string) : bool :=
  jtsx_here s ||
  match s with
  | EmptyString => false
  | String _ s' => test_jtsx s'
  end.

(** [/\.(jsx|tsx)$/] at the current position. *)
Definition ext_here (s : string) : bool :=
  String.eqb s ".jsx" || String.eqb s ".tsx".

(** [s.replace(/\.(jsx|tsx)$/, '')]: the leftmost match is cut out. *)
Fixpoint replace_ext (s : string) : string :=
  if ext_here s then EmptyString
  else match s with
       | EmptyString => EmptyString
       | String c s' => String c (replace_ext s')
       end.

(** [keys.join(sep)] *)
Definition join (sep : string) (l : list string) : string :=
  String.concat sep l.

End JsString.

(** ** Values and the heap *)

Definition loc := nat.

(** A JavaScript value.  Numbers are carried by the integer they denote;
    the sanitizer never computes with them, it only tests truthiness. *)
Inductive value : Type :=
| VUndefined
| VNull
| VBool (b : bool)
| VNum (n : Z)
| VStr (s : string)
| VBigInt (n : Z)
| VSymbol (id : nat)
| VObject (l : loc).

Inductive jsclass : Type :=
| ClsPlain | ClsArray | ClsFunction | ClsDate | ClsRegExp | ClsMap | ClsSet.

(** The handler of a Vue proxy. *)
Inductive proxy_kind : Type :=
| Reactive            (* reactive(target) *)
| Readonly.           (* readonly(target) *)

(** A heap cell.
    - [CObject cls props]: an ordinary object, array, function, ...;
      [props] lists the properties that member access and [in] find on
      it, in enumeration order, the marker fields of Vue among them when
      it carries any.
    - [CRef current]: a ref object of Vue ([ref], [shallowRef],
      [computed]) whose [.value] presently reads [current].
    - [CProxy kind raw]: a proxy with the handlers of [reactive()] or of
      [readonly()] over the object at [raw]; [readonly(reactive(o))] is a
      [Readonly] proxy over the [Reactive] proxy of [o]. *)
Inductive cell : Type :=
| CObject (cls : jsclass) (props : list (string * value))
| CRef (current : value)
| CProxy (kind : proxy_kind) (raw : loc).

Abbreviation heap := (gmap loc cell).

(** A JavaScript object used as a string-keyed record: its enumerable
    properties in [for ... in] order. *)
Definition bag := list (string * value).

Module Js.

Definition value_eqb (a b : value) : bool :=
  match a, b with
  | VUndefined, VUndefined => true
  | VNull, VNull => true
  | VBool x, VBool y => Bool.eqb x y
  | VNum x, VNum y => Z.eqb x y
  | VStr x, VStr y => String.eqb x y
  | VBigInt x, VBigInt y => Z.eqb x y
  | VSymbol x, VSymbol y => Nat.eqb x y
  | VObject x, VObject y => Nat.eqb x y
  | _, _ => false
  end.

(** ToBoolean *)
Definition truthy (v : value) : bool :=
  match v with
  | VUndefined | VNull => false
  | VBool b => b
  | VNum n => negb (Z.eqb n 0)
  | VStr s => negb (String.eqb s "")
  | VBigInt n => negb (Z.eqb n 0)
  | VSymbol _ => true
  | VObject _ => true
  end.

(** [o[key]] as an option: [None] when [key] is not a property. *)
Fixpoint lookup (o : bag) (key : string) : option value :=
  match o with
  | [] => None
  | (k, v) :: o' => if String.eqb k key then Some v else lookup o' key
  end.

(** [o[key]]: [undefined] when [key] is not a property. *)
Definition get (o : bag) (key : string) : value :=
  default VUndefined (lookup o key).

(** [key in o] *)
Definition has (o : bag) (key : string) : bool :=
  match lookup o key with Some _ => true | None => false end.

(** [o[key] = v]: overwrite in place, or append a new property. *)
Fixpoint set (o : bag) (key : string) (v : value) : bag :=
  match o with
  | [] => [(key, v)]
  | (k, w) :: o' =>
      if String.eqb k key then (k, v) :: o' else (k, w) :: set o' key v
  end.

(** The keys visited by [for (const key in o)] / [Object.keys(o)]. *)
Definition keys (o : bag) : list string := map fst o.

(** [typeof v === 'object'] ([null] included, functions excluded). *)
Definition typeof_object (h : heap) (v : value) : bool :=
  match v with
  | VNull => true
  | VObject l =>
      match h !! l with
      | Some (CObject ClsFunction _) => false
      | _ => true
      end
  | _ => false
  end.

(** The properties a ref object shows to the reads made here. *)
Definition ref_props (current : value) : bag :=
  [("__v_isRef", VBool true); ("value", current)].

(** The ordinary object or ref behind the proxies at [l], through [n]
    proxies at most. *)
Fixpoint behind (n : nat) (h : heap) (l : loc) : option cell :=
  match h !! l with
  | Some (CProxy _ raw) =>
      match n with
      | O => None
      | S n' => behind n' h raw
      end
  | c => c
  end.

(** The properties visible on the object at [l]; a proxy shows those of
    its target ([has] is forwarded to the target). *)
Definition visible (h : heap) (l : loc) : bag :=
  match behind (size h) h l with
  | Some (CObject _ props) => props
  | Some (CRef current) => ref_props current
  | _ => []
  end.

(** [key in v] for an object [v]. *)
Definition has_prop (h : heap) (v : value) (key : string) : bool :=
  match v with
  | VObject l => has (visible h l) key
  | _ => false
  end.

(** A canonical array index: [0], or digits without a leading zero, below
    [2^32 - 1]. *)
Definition digit (c : ascii) : option N :=
  let n := N_of_ascii c in
  if (48 <=? n)%N && (n <=? 57)%N then Some (n - 48)%N else None.

Fixpoint digits (s : string) (acc : N) : option N :=
  match s with
  | EmptyString => Some acc
  | String c s' =>
      match digit c with
      | Some d => digits s' (10 * acc + d)%N
      | None => None
      end
  end.

Definition array_index (s : string) : option N :=
  match s with
  | EmptyString => None
  | String c s' =>
      if Ascii.eqb c "0" && negb (String.eqb s' "") then None
      else
        match digits s 0%N with
        | Some n => if (n <? 4294967295)%N then Some n else None
        | None => None
        end
  end.

(** [Object.keys(o)] for an object [o] whose properties were written in
    the order of the bag: the array indices first, in ascending order,
    then the other names in the order they were written. *)
Fixpoint insert_index (k : N * string) (l : list (N * string))
    : list (N * string) :=
  match l with
  | [] => [k]
  | k' :: l' =>
      if (k.1 <=? k'.1)%N then k :: k' :: l' else k' :: insert_index k l'
  end.

Definition own_keys (o : bag) : list string :=
  (map snd
       (fold_right insert_index []
          (omap (fun k => match array_index k with
                          | Some n => Some (n, k)
                          | None => None
                          end) (keys o))) ++
   List.filter (fun k => match array_index k with
                         | Some _ => false
                         | None => true
                         end) (keys o))%list.

(** The keys that the [get] trap of [reactive()] and [readonly()] hands
    on as the target has them. *)
Definition untracked (key : string) : bool :=
  String.eqb key "__v_skip" || String.eqb key "__proto__" ||
  String.eqb key "__v_isRef" || String.eqb key "__isVue".

(** Is the object behind [l] a [Map] or [Set] (whose proxies have the
    handlers of collections), an array? *)
Definition collection_behind (n : nat) (h : heap) (l : loc) : bool :=
  match behind n h l with
  | Some (CObject ClsMap _) | Some (CObject ClsSet _) => true
  | _ => false
  end.

Definition array_behind (n : nat) (h : heap) (l : loc) : bool :=
  match behind n h l with
  | Some (CObject ClsArray _) => true
  | _ => false
  end.

(** [v[key]], through [n] proxies at most.  The [get] trap of a Vue proxy
    answers the flags itself; another key it reads from the target, and
    what it finds there it unwraps when it is a ref (not for a
    collection, nor for an index of an array).  An object found there
    comes back behind a proxy of its own, made on the spot when there is
    none: the object stands for that proxy here. *)
Fixpoint get_upto (n : nat) (h : heap) (v : value) (key : string) : value :=
  match v with
  | VObject l =>
      match h !! l with
      | Some (CObject _ props) => get props key
      | Some (CRef current) => get (ref_props current) key
      | Some (CProxy kind raw) =>
          if String.eqb key "__v_isReactive" then
            VBool match kind with Reactive => true | Readonly => false end
          else if String.eqb key "__v_isReadonly" then
            VBool match kind with Reactive => false | Readonly => true end
          else if String.eqb key "__v_raw" then VObject raw
          else
            match n with
            | O => VUndefined
            | S n' =>
                let res := get_upto n' h (VObject raw) key in
                if collection_behind n' h raw then res
                else if String.eqb key "__v_isShallow" then VBool false
                else if untracked key then res
                else if value_eqb (get_upto n' h res "__v_isRef") (VBool true)
                then
                  if array_behind n' h raw &&
                     match array_index key with
                     | Some _ => true
                     | None => false
                     end
                  then res
                  else get_upto n' h res "value"
                else res
            end
      | None => VUndefined
      end
  | _ => VUndefined
  end.

(** [v[key]].  Every read that ends goes through fewer than [3 * size h]
    objects. *)
Definition get_prop (h : heap) (v : value) (key : string) : value :=
  get_upto (3 * size h) h v key.

End Js.

(** ** Vue's reactivity API, as [filter-props.ts] imports it

    Vue knows its refs and proxies by marker fields ([__v_isRef],
    [__v_isReadonly], [__v_isReactive], [__v_raw]), which it reads on
    whatever value it is given: an ordinary object that carries such a
    field is a ref, or reactive, to these functions. *)

Module Vue.

(** [isRef(r)]: [r ? r.__v_isRef === true : false]. *)
Definition isRef (h : heap) (r : value) : bool :=
  Js.truthy r && Js.value_eqb (Js.get_prop h r "__v_isRef") (VBool true).

(** [unref(r)]: [isRef(r) ? r.value : r]. *)
Definition unref (h : heap) (r : value) : value :=
  if isRef h r then Js.get_prop h r "value" else r.

(** [isReadonly(v)]: [!!(v && v.__v_isReadonly)]. *)
Definition isReadonly (h : heap) (v : value) : bool :=
  Js.truthy v && Js.truthy (Js.get_prop h v "__v_isReadonly").

(** [isReactive(v)]:
    [isReadonly(v) ? isReactive(v.__v_raw) : !!(v && v.__v_isReactive)].
    A chain of [__v_raw] that ends has fewer than [size h] links; one that
    runs in a circle makes Vue recurse until the stack overflows, and
    counts as reactive here. *)
Fixpoint isReactive_upto (n : nat) (h : heap) (v : value) : bool :=
  if isReadonly h v then
    match n with
    | O => true
    | S n' => isReactive_upto n' h (Js.get_prop h v "__v_raw")
    end
  else Js.truthy v && Js.truthy (Js.get_prop h v "__v_isReactive").

Definition isReactive (h : heap) (v : value) : bool :=
  isReactive_upto (size h) h v.

(** [toRaw(observed)]:
    [raw = observed && observed.__v_raw; raw ? toRaw(raw) : observed]. *)
Fixpoint toRaw_upto (n : nat) (h : heap) (observed : value) : value :=
  let raw :=
    if Js.truthy observed then Js.get_prop h observed "__v_raw"
    else observed in
  if Js.truthy raw then
    match n with
    | O => observed
    | S n' => toRaw_upto n' h raw
    end
  else observed.

Definition toRaw (h : heap) (v : value) : value := toRaw_upto (size h) h v.

(** Allocation at the first free address. *)
Definition alloc (h : heap) (c : cell) : heap * loc :=
  let l := fresh (dom h) in (<[l := c]> h, l).

(** Can a proxy be made of the object at [l]?  Plain objects and class
    instances (a ref object is one), arrays and collections, unless
    marked [__v_skip]; objects are extensible here. *)
Definition observable (h : heap) (l : loc) : bool :=
  match h !! l with
  | Some (CObject cls props) =>
      match cls with
      | ClsPlain | ClsArray | ClsMap | ClsSet =>
          negb (Js.truthy (Js.get props "__v_skip"))
      | _ => false
      end
  | Some (CRef _) => true
  | _ => false
  end.

(** [reactive(v)]: [v] itself when it is no object, is readonly, is a
    proxy already ([v.__v_raw]) or cannot be observed; the proxy of [v]
    otherwise, which is a new cell here. *)
Definition reactive (h : heap) (v : value) : heap * value :=
  match v with
  | VObject l =>
      if isReadonly h v then (h, v)
      else if Js.truthy (Js.get_prop h v "__v_raw") then (h, v)
      else if observable h l then
        let '(h', p) := alloc h (CProxy Reactive l) in (h', VObject p)
      else (h, v)
  | _ => (h, v)
  end.

(** [shallowRef(v)]: [.value] is [v] itself. *)
Definition shallowRef (h : heap) (v : value) : heap * value :=
  if isRef h v then (h, v)
  else let '(h', r) := alloc h (CRef v) in (h', VObject r).

(** [ref(v)]: [.value] is [v], made reactive when it is an object. *)
Definition ref (h : heap) (v : value) : heap * value :=
  if isRef h v then (h, v)
  else
    let '(h1, inner) := reactive h v in
    let '(h2, r) := alloc h1 (CRef inner) in (h2, VObject r).

End Vue.

(** ** [src/utils/filter-props.ts] *)

(** The test of line 19: [__*], [on*], [class], [style]. *)
Definition skipped_key (key : string) : bool :=
  JsString.startsWith key "__" || JsString.startsWith key "on" ||
  String.eqb key "class" || String.eqb key "style".

(** Line 26: [typeof val === 'object' && val !== null &&
    '__v_isVNode' in val && val.__v_isVNode]. *)
Definition isVNode (h : heap) (val : value) : bool :=
  Js.typeof_object h val &&
  negb (Js.value_eqb val VNull) &&
  Js.has_prop h val "__v_isVNode" &&
  Js.truthy (Js.get_prop h val "__v_isVNode").

(** One turn of the loop on [key], [cleanProps] being threaded. *)
Definition filterProps_step (h : heap) (attrs : bag)
    (cleanProps : bag) (key : string) : bag :=
  if skipped_key key then cleanProps
  else
    let val := Js.get attrs key in
    if isVNode h val then cleanProps
    else
      let val := if Vue.isRef h val then Vue.unref h val else val in
      let val := if Vue.isReactive h val then Vue.toRaw h val else val in
      Js.set cleanProps key val.

Definition filterProps (h : heap) (attrs : bag) : bag :=
  fold_left (filterProps_step h attrs) (Js.keys attrs) [].

(** Lines 31-39 on one value. *)
Definition unwrap (h : heap) (val : value) : value :=
  let val := if Vue.isRef h val then Vue.unref h val else val in
  if Vue.isReactive h val then Vue.toRaw h val else val.

(** What [cleanProps[key]] holds when the loop is over, [None] for an
    absent key. *)
Definition sanitized (h : heap) (attrs : bag) (key : string) : option value :=
  if skipped_key key then None
  else
    match Js.lookup attrs key with
    | None => None
    | Some val => if isVNode h val then None else Some (unwrap h val)
    end.

(** An object carries none of the fields by which Vue knows its refs
    and proxies. *)
Definition unmarked (props : bag) : bool :=
  negb (Js.value_eqb (Js.get props "__v_isRef") (VBool true)) &&
  negb (Js.truthy (Js.get props "__v_isReadonly")) &&
  negb (Js.truthy (Js.get props "__v_isReactive")) &&
  negb (Js.truthy (Js.get props "__v_raw")).

(** A primitive, [null], or an ordinary object (array, function, ...)
    that is neither a ref nor a proxy of Vue and carries none of their
    marker fields. *)
Definition is_plain (h : heap) (v : value) : bool :=
  match v with
  | VObject l =>
      match h !! l with
      | Some (CObject _ props) => unmarked props
      | _ => false
      end
  | _ => true
  end.

(** The bag and the heap of the scenario: [fn] at 1, [{theme:"dark"}] at 2,
    [[1,2,3]] at 3. *)
Definition scenario_heap : heap :=
  {[ 1%nat := CObject ClsFunction [];
     2%nat := CObject ClsPlain [("theme", VStr "dark")];
     3%nat := CObject ClsArray
                [("0", VNum 1); ("1", VNum 2); ("2", VNum 3); ("length", VNum 3)] ]}.

Definition scenario_attrs : bag :=
  [("title", VStr "Hello"); ("count", VNum 42); ("class", VStr "x");
   ("onClick", VObject 1); ("config", VObject 2); ("items", VObject 3)].

(** A heap with [{theme:"dark"}] at 2 and [reactive] of it at 4. *)
Definition reactive_heap : heap :=
  {[ 2%nat := CObject ClsPlain [("theme", VStr "dark")];
     4%nat := CProxy Reactive 2 ]}.

(** A heap with a mock VNode at 1, an object [{ slot: <the VNode> }] at 2
    and a callback at 3. *)
Definition vnode_heap : heap :=
  {[ 1%nat := CObject ClsPlain [("__v_isVNode", VBool true); ("type", VStr "div")];
     2%nat := CObject ClsPlain [("slot", VObject 1)];
     3%nat := CObject ClsFunction [] ]}.

(** ** [src/components/React.vue]: the registry *)

(** What [registry[name]] can evaluate to: a value of the heap, or a
    built-in inherited from [Object.prototype] ([registry] is made by the
    literal [{}]). *)
Inductive component : Type :=
| Exported (v : value)
| Builtin (name : string).

(** The object held by the variable [registry]: its own properties and
    its prototype, [None] standing for [Object.prototype]. *)
Record registry : Type := Registry {
  reg_own : bag;
  reg_proto : option loc;
}.

Module Reg.

(** [{}] *)
Definition empty : registry := Registry [] None.

(** The property names of [Object.prototype]. *)
Definition object_prototype_names : list string :=
  ["constructor"; "hasOwnProperty"; "isPrototypeOf"; "propertyIsEnumerable";
   "toLocaleString"; "toString"; "valueOf"; "__proto__";
   "__defineGetter__"; "__defineSetter__";
   "__lookupGetter__"; "__lookupSetter__"].

(** [registry[name] = v].  [__proto__] is the accessor of
    [Object.prototype]: its setter replaces the prototype when [v] is an
    object and does nothing otherwise; every other name becomes an own
    property. *)
Definition set (r : registry) (name : string) (v : value) : registry :=
  if String.eqb name "__proto__" then
    match v with
    | VObject l => Registry (reg_own r) (Some l)
    | _ => r
    end
  else Registry (Js.set (reg_own r) name v) (reg_proto r).

(** [registry[name]]: own properties first, then the prototype,
    [Object.prototype] or the object that a file named [__proto__] put in
    its place; of that object the properties its cell lists are found,
    and behind them those of [Object.prototype]. *)
Definition get (h : heap) (r : registry) (name : string) : component :=
  match Js.lookup (reg_own r) name with
  | Some v => Exported v
  | None =>
      match reg_proto r with
      | None =>
          if existsb (String.eqb name) object_prototype_names
          then Builtin name else Exported VUndefined
      | Some p =>
          if String.eqb name "__proto__" then Exported (VObject p)
          else if Js.has_prop h (VObject p) name
          then Exported (Js.get_prop h (VObject p) name)
          else if existsb (String.eqb name) object_prototype_names
          then Builtin name else Exported VUndefined
      end
  end.

(** [Object.keys(registry)] *)
Definition keys (r : registry) : list string := Js.own_keys (reg_own r).

(** ToBoolean of a looked-up component. *)
Definition found (c : component) : bool :=
  match c with
  | Exported v => Js.truthy v
  | Builtin _ => true
  end.

End Reg.

(** [path.split('/').pop()?.replace(/\.(jsx|tsx)$/, '') || ''] *)
Definition component_name (path : string) : string :=
  match JsString.pop (JsString.split_slash path) with
  | Some seg =>
      let name := JsString.replace_ext seg in
      if String.eqb name "" then "" else name
  | None => ""
  end.

(** The modules found by [import.meta.glob]: path to module namespace,
    a namespace being the bag of its exports. *)
Definition modules := list (string * bag).

(** [modules[path]] *)
Fixpoint module_at (ms : modules) (path : string) : bag :=
  match ms with
  | [] => []
  | (p, m) :: ms' => if String.eqb p path then m else module_at ms' path
  end.

(** One turn of the loop of [loadRegistry] (lines 28-35). *)
Definition loadRegistry_step (ms : modules) (reg : registry) (path : string)
    : registry :=
  let mod_default := Js.get (module_at ms path) "default" in
  let name := component_name path in
  if negb (String.eqb name "") && Js.truthy mod_default
  then Reg.set reg name mod_default
  else reg.

Definition scan (ms : modules) : registry :=
  fold_left (loadRegistry_step ms) (map fst ms) Reg.empty.

(** What holds of every own property of the registry under construction. *)
Definition from_default_export (ms : modules) (reg : registry) : Prop :=
  forall (name : string) (v : value),
    Js.lookup (reg_own reg) name = Some v ->
    name <> "" /\ Js.truthy v = true /\
    exists path : string,
      In path (map fst ms) /\ component_name path = name /\
      Js.lookup (module_at ms path) "default" = Some v.

(** ** [src/components/React.vue]: the bridge *)

Definition handle := nat.   (* a DOM element *)
Definition root_id := nat.  (* a React root *)

(** What the bridge does to the outside, in order. *)
Inductive effect : Type :=
| ELoad (b : nat)                                   (* loadRegistry runs *)
| EConsoleError (msg : string)
| EConsoleWarn (msg : string)
| ECreateRoot (b : nat) (container : handle) (r : root_id)
| ERender (b : nat) (r : root_id) (c : component) (props : bag)
| EUnmount (r : root_id)
| EThrow (b : nat) (msg : string).          (* renderReact's promise rejects *)

(** The world around the bridges: the heap, what the glob found ([None]
    when it throws), and whether the modules that the dynamic imports
    resolve to expose [createRoot] and [createElement]. *)
Record env : Type := Env {
  env_heap : heap;
  env_glob : option modules;
  env_createRoot : bool;
  env_createElement : bool;
}.

(** The variables of one component instance. *)
Record bridge : Type := Bridge {
  b_is : string;                   (* props.is *)
  b_attrs : bag;                   (* instance.attrs *)
  b_container : option handle;     (* container.value *)
  b_root : option root_id;         (* root *)
  b_registry : option registry;    (* registry *)
}.

(** Where an activation of [renderReact] is suspended, with the locals it
    still needs. *)
Inductive pc : Type :=
| AfterLoad                                  (* await loadRegistry() *)
| AfterImportDom (ReactComp : component)     (* await import('react-dom/client') *)
| AfterImportReact (ReactComp : component).  (* await import('react') *)

Record world : Type := World {
  w_bridges : list bridge;
  w_tasks : list (nat * pc);       (* suspended activations, by bridge *)
  w_log : list effect;             (* oldest first *)
  w_next_root : root_id;
}.

(** What the host and the scheduler do: the four operations of the bridge
    ([onMount], [onAttributesChanged], [onComponentNameChanged],
    [onDestroy]) and the resumption of a suspended activation.
    [AttrsChanged] is the callback of the watcher of line 92 being run;
    when Vue runs it is Vue's matter ([instance.attrs] is no reactive
    object, and a change of an attribute alone need not run it), so that
    a run may hold more of these events than a deck ever shows. *)
Inductive event : Type :=
| Mount (b : nat) (el : handle)      (* the template ref is set; onMounted *)
| AttrsChanged (b : nat) (attrs : bag)   (* the watcher of line 92 runs *)
| NameChanged (b : nat) (name : string)  (* watch(() => props.is) *)
| Destroy (b : nat)                  (* the template ref is unset; onUnmounted *)
| Resume (i : nat).                  (* the awaited promise of task [i] settles *)

Module ReactVue.

Definition dquote : string := String (Ascii.ascii_of_nat 34) EmptyString.

(** The outcome of running [renderReact] up to its next suspension. *)
Record outcome : Type := Outcome {
  o_bridge : bridge;
  o_effects : list effect;
  o_next : option pc;          (* [None]: the activation is over *)
  o_roots : nat;               (* roots created *)
}.

Definition set_registry (br : bridge) (r : registry) : bridge :=
  Bridge (b_is br) (b_attrs br) (b_container br) (b_root br) (Some r).
Definition set_root (br : bridge) (r : option root_id) : bridge :=
  Bridge (b_is br) (b_attrs br) (b_container br) r (b_registry br).
Definition set_container (br : bridge) (c : option handle) : bridge :=
  Bridge (b_is br) (b_attrs br) c (b_root br) (b_registry br).
Definition set_attrs (br : bridge) (a : bag) : bridge :=
  Bridge (b_is br) a (b_container br) (b_root br) (b_registry br).
Definition set_is (br : bridge) (name : string) : bridge :=
  Bridge name (b_attrs br) (b_container br) (b_root br) (b_registry br).

(** [loadRegistry] (lines 22-40).  It has no [await]: the variable
    [registry] is assigned before the call returns. *)
Definition loadRegistry (e : env) (b : nat) (br : bridge)
    : bridge * list effect :=
  match env_glob e with
  | Some ms => (set_registry br (scan ms), [ELoad b])
  | None =>
      (set_registry br Reg.empty,
       [ELoad b;
        EConsoleError "[slidev-addon-react] Failed to load react-components:"])
  end.

Definition not_found_message (br : bridge) : string :=
  let available :=
    match b_registry br with
    | Some r => JsString.join ", " (Reg.keys r)
    | None => "none"
    end in
  "[slidev-addon-react] Component " ++ dquote ++ b_is br ++ dquote ++
  " not found. Available: " ++ available.

(** [renderReact], lines 49-58, up to the next [await]. *)
Definition renderReact_resolve (e : env) (b : nat) (br : bridge) : outcome :=
  let ReactComp :=
    match b_registry br with
    | Some r => Reg.get (env_heap e) r (b_is br)
    | None => Exported VUndefined
    end in
  if negb (Reg.found ReactComp) then
    Outcome br [EConsoleWarn (not_found_message br)] None 0
  else
    match b_root br with
    | None => Outcome br [] (Some (AfterImportDom ReactComp)) 0
    | Some _ => Outcome br [] (Some (AfterImportReact ReactComp)) 0
    end.

(** [renderReact] from its call to its first suspension (lines 43-47). *)
Definition renderReact (e : env) (b : nat) (br : bridge) : outcome :=
  match b_container br with
  | None => Outcome br [] None 0
  | Some _ =>
      match b_registry br with
      | None =>
          let '(br', effs) := loadRegistry e b br in
          Outcome br' effs (Some AfterLoad) 0
      | Some _ => renderReact_resolve e b br
      end
  end.

(** Lines 74-80: the props handed to React. *)
Definition cleanProps_step (attrs : bag) (cleanProps : bag) (key : string)
    : bag :=
  if skipped_key key then cleanProps
  else Js.set cleanProps key (Js.get attrs key).

Definition cleanProps (attrs : bag) : bag :=
  fold_left (cleanProps_step attrs) (Js.keys attrs) [].

(** Lines 161-169, the loop of the other version: a value is handed over
    only when [typeof val !== 'object' || val === null]. *)
Definition cleanProps_primitives_step (h : heap) (attrs : bag)
    (cleanProps : bag) (key : string) : bag :=
  if skipped_key key then cleanProps
  else
    let val := Js.get attrs key in
    if negb (Js.typeof_object h val) || Js.value_eqb val VNull
    then Js.set cleanProps key val
    else cleanProps.

Definition cleanProps_primitives (h : heap) (attrs : bag) : bag :=
  fold_left (cleanProps_primitives_step h attrs) (Js.keys attrs) [].

(** [renderReact] from a suspension point on, [fresh] being the next
    root React would make. *)
Definition renderReact_resume (e : env) (b : nat) (br : bridge) (fresh : root_id)
    (at_ : pc) : outcome :=
  match at_ with
  | AfterLoad => renderReact_resolve e b br
  | AfterImportDom ReactComp =>
      (* lines 59-64 *)
      if negb (env_createRoot e) then
        Outcome br [EConsoleError "[slidev-addon-react] createRoot not found"]
                None 0
      else
        match b_container br with
        | None =>
            (* createRoot(null) *)
            Outcome br [EThrow b "Target container is not a DOM element."]
                    None 0
        | Some el =>
            Outcome (set_root br (Some fresh)) [ECreateRoot b el fresh]
                    (Some (AfterImportReact ReactComp)) 1
        end
  | AfterImportReact ReactComp =>
      (* lines 68-82; [root.render] is read before its argument is built *)
      match b_root br with
      | None =>
          Outcome br [EThrow b "Cannot read properties of null (reading 'render')"]
                  None 0
      | Some r =>
          if negb (env_createElement e) then
            Outcome br [EThrow b "createElement is not a function"] None 0
          else
            Outcome br [ERender b r ReactComp (cleanProps (b_attrs br))] None 0
      end
  end.

(** The [onUnmounted] hook (lines 87-90): [root?.unmount(); root = null]. *)
Definition onUnmounted (br : bridge) : bridge * list effect :=
  (set_root br None,
   match b_root br with
   | Some r => [EUnmount r]
   | None => []
   end).

(** An outcome is written back to the world. *)
Definition commit (w : world) (b : nat) (tasks : list (nat * pc))
    (o : outcome) : world :=
  World (<[b := o_bridge o]> (w_bridges w))
        (tasks ++ match o_next o with
                  | Some at_ => [(b, at_)]
                  | None => []
                  end)
        (w_log w ++ o_effects o)
        (w_next_root w + o_roots o).

(** The host calls [renderReact] on bridge [b], after updating it by [f]. *)
Definition call (e : env) (w : world) (b : nat) (f : bridge -> bridge)
    : world :=
  match w_bridges w !! b with
  | Some br => commit w b (w_tasks w) (renderReact e b (f br))
  | None => w
  end.

(** One event.  When Vue unmounts the node it unsets the template ref
    ([container.value] becomes [null]) and then runs the [onUnmounted]
    hooks; nothing in the bridge keeps [renderReact] from being called
    afterwards. *)
Definition step (e : env) (w : world) (ev : event) : world :=
  match ev with
  | Mount b el => call e w b (fun br => set_container br (Some el))
  | AttrsChanged b attrs => call e w b (fun br => set_attrs br attrs)
  | NameChanged b name => call e w b (fun br => set_is br name)
  | Destroy b =>
      match w_bridges w !! b with
      | Some br =>
          let '(br', effs) := onUnmounted (set_container br None) in
          World (<[b := br']> (w_bridges w)) (w_tasks w)
                (w_log w ++ effs) (w_next_root w)
      | None => w
      end
  | Resume i =>
      match w_tasks w !! i with
      | Some (b, at_) =>
          match w_bridges w !! b with
          | Some br =>
              commit w b (delete i (w_tasks w))
                     (renderReact_resume e b br (w_next_root w) at_)
          | None => w
          end
      | None => w
      end
  end.

Definition run (e : env) (w : world) (evs : list event) : world :=
  fold_left (step e) evs w.

(** A world in which nothing has happened yet. *)
Definition boot (bridges : list bridge) : world := World bridges [] [] 0.

(** A bridge as [setup] leaves it. *)
Definition fresh_bridge (name : string) (attrs : bag) : bridge :=
  Bridge name attrs None None None.

(** The loads started by bridge [b]. *)
Definition loads_of (b : nat) (log : list effect) : nat :=
  length (List.filter (fun ef => match ef with
                                 | ELoad b' => Nat.eqb b' b
                                 | _ => false
                                 end) log).

End ReactVue.

(** The calls bridge [b] has made into React: roots made, renders asked. *)
Definition guest_calls (b : nat) (log : list effect) : list effect :=
  List.filter (fun ef => match ef with
                         | ECreateRoot b' _ _ | ERender b' _ _ _ => Nat.eqb b' b
                         | _ => false
                         end) log.

(** [ev] asks bridge [b] to render again. *)
Definition render_request (b : nat) (ev : event) : bool :=
  match ev with
  | AttrsChanged b' _ | NameChanged b' _ => Nat.eqb b' b
  | _ => false
  end.

(** [ev] mounts bridge [b]. *)
Definition mounts (b : nat) (ev : event) : bool :=
  match ev with
  | Mount b' _ => Nat.eqb b' b
  | _ => false
  end.

(** What every reachable world satisfies: a bridge loads at most once, it
    has not loaded while its [registry] is [null], and an activation that
    waits for its load has a registry already. *)
Definition load_inv (w : world) : Prop :=
  (forall b : nat, ReactVue.loads_of b (w_log w) <= 1) /\
  (forall (b : nat) (br : bridge),
      w_bridges w !! b = Some br -> b_registry br = None ->
      ReactVue.loads_of b (w_log w) = 0) /\
  (forall b : nat,
      (b, AfterLoad) ∈ w_tasks w ->
      exists (br : bridge) (r : registry),
        w_bridges w !! b = Some br /\ b_registry br = Some r).

(** Bridge [b] after [onUnmounted]: no container, no root. *)
Definition torn_down (b : nat) (w : world) : Prop :=
  exists br : bridge,
    w_bridges w !! b = Some br /\ b_container br = None /\ b_root br = None.

(** A project with [Counter.jsx] and [ui/Card.tsx], which export a
    component by default, and [Broken.jsx], which does not; no heap object
    matters. *)
Definition scenario_env : env :=
  Env ∅
      (Some [("/react-components/Counter.jsx", [("default", VObject 7)]);
             ("/react-components/ui/Card.tsx", [("default", VObject 8)]);
             ("/react-components/Broken.jsx", [("helper", VObject 9)])])
      true true.

(** Two [<React>] nodes of one deck. *)
Definition two_bridges : list bridge :=
  [ReactVue.fresh_bridge "Counter" [("initial", VNum 0)];
   ReactVue.fresh_bridge "Card" [("title", VStr "Hello")]].

(** One [<React is="Counter">] mounted on element 10 and rendered. *)
Definition counter_rendered : world :=
  ReactVue.run scenario_env
    (ReactVue.boot [ReactVue.fresh_bridge "Counter" [("initial", VNum 0)]])
    [Mount 0 10; Resume 0; Resume 0; Resume 0].

(** ** The other [loadRegistry] of [React.vue] (lines 117-132)

    There the registry is the default export of [react-components/index.ts],
    and [registry] is assigned only after [await import(...)]. *)

Module ExplicitMap.

(** The variable [registry], the calls of [loadRegistry] whose import is
    still awaited, and the calls made so far. *)
Record state : Type := State {
  em_registry : option bag;
  em_awaited : nat;
  em_started : nat;
}.

Inductive event : Type :=
| Request                        (* renderReact is called, the container set *)
| Settle (exports : option bag). (* an awaited import settles, or fails *)

Definition step (s : state) (ev : event) : state :=
  match ev with
  | Request =>
      (* if (!registry) await loadRegistry() *)
      match em_registry s with
      | None => State None (S (em_awaited s)) (S (em_started s))
      | Some _ => s
      end
  | Settle exports =>
      (* registry = mod.default || mod; in the catch: registry = {} *)
      match em_awaited s with
      | O => s
      | S n => State (Some (default [] exports)) n (em_started s)
      end
  end.

Definition run (s : state) (evs : list event) : state := fold_left step evs s.

End ExplicitMap.

(** ** The Vite plugin: the [transform] hook *)

Module Transform.

Inductive loader : Type := LoaderTsx | LoaderJsx.

(** The options handed to [esbuild.transform]. *)
Record options : Type := Options {
  opt_loader : loader;
  opt_jsx : string;
  opt_jsxImportSource : string;
}.

(** What [esbuild.transform] resolves to. *)
Record esbuild_result : Type := EsbuildResult {
  res_code : string;
  res_map : string;
}.

(** What the hook returns: [null], an object [{ code, map }], or the
    rejection of esbuild. *)
Inductive hook_result : Type :=
| Skip
| Emit (code : string) (map : string)
| Reject (err : string).

Section Hook.

(** esbuild, which either resolves or rejects. *)
Variable esbuild_transform : string -> options -> esbuild_result + string.

Definition transform (code id : string) : hook_result :=
  if negb (JsString.includes id "react-components") ||
     negb (JsString.test_jtsx id)
  then Skip
  else
    match esbuild_transform code
            (Options (if JsString.endsWith id ".tsx"
                      then LoaderTsx else LoaderJsx)
                     "automatic" "react") with
    | inl result => Emit (res_code result) (res_map result)
    | inr err => Reject err
    end.

End Hook.

(** The string [seg] occurs somewhere in [path], as [path.includes(seg)]
    tests it. *)
Definition contains (path seg : string) : Prop :=
  exists before after : string, path = before ++ seg ++ after.

(** [path] ends in [ext]. *)
Definition has_extension (path ext : string) : Prop :=
  exists stem : string, path = stem ++ ext.

(** The files the hook transforms: [react-components] occurs in the path,
    which ends in [.jsx] or [.tsx]. *)
Definition guest_source (path : string) : Prop :=
  contains path "react-components" /\
  (has_extension path ".jsx" \/ has_extension path ".tsx").

(** [seg] is a segment of [path]: one of the pieces between its
    slashes. *)
Definition has_segment (path seg : string) : Prop :=
  In seg (JsString.split_slash path).

(** The files of the component directory, which the comment of the hook
    names ("in react-components folder"): [react-components] is a
    segment of the path, which ends in [.jsx] or [.tsx]. *)
Definition component_file (path : string) : Prop :=
  has_segment path "react-components" /\
  (has_extension path ".jsx" \/ has_extension path ".tsx").

End Transform.

(** ** The sanitizer as a map over the bag *)

(** The entries that survive, each with its value unwrapped, in the order
    of the bag. *)
Fixpoint kept (h : heap) (attrs : bag) : bag :=
  match attrs with
  | [] => []
  | (key, val) :: rest =>
      if skipped_key key || isVNode h val then kept h rest
      else (key, unwrap h val) :: kept h rest
  end.

(** The entries whose key line 19 lets through. *)
Definition unskipped (attrs : bag) : bag :=
  List.filter (fun kv => negb (skipped_key kv.1)) attrs.

(** A ref at 5 whose value is the mock VNode at 1; [readonly(..)] of the
    plain object at 2 at 6; [reactive(..)] of the VNode at 7. *)
Definition wrapped_heap : heap :=
  {[ 1%nat := CObject ClsPlain [("__v_isVNode", VBool true); ("type", VStr "div")];
     2%nat := CObject ClsPlain [("theme", VStr "dark")];
     5%nat := CRef (VObject 1);
     6%nat := CProxy Readonly 2;
     7%nat := CProxy Reactive 1 ]}.

(** Ordinary objects that carry marker fields of Vue:
    [{__v_isRef: true, value: 1}] at 1, [{theme: "dark"}] at 2,
    [{__v_isReactive: true, __v_raw: <2>}] at 3, a function with
    [__v_isRef = true] at 4, [readonly(<1>)] at 5,
    [{__v_isRef: true, value: <1>}] at 6. *)
Definition marked_heap : heap :=
  {[ 1%nat := CObject ClsPlain [("__v_isRef", VBool true); ("value", VNum 1)];
     2%nat := CObject ClsPlain [("theme", VStr "dark")];
     3%nat := CObject ClsPlain [("__v_isReactive", VBool true);
                                ("__v_raw", VObject 2)];
     4%nat := CObject ClsFunction [("__v_isRef", VBool true)];
     5%nat := CProxy Readonly 1;
     6%nat := CObject ClsPlain [("__v_isRef", VBool true);
                                ("value", VObject 1)] ]}.

(** ** The copies of the loop that the tests keep *)

Module PropFilteringTest.

(** [filterProps] as the prop-filtering test declares it for itself:
    VNodes are left out, nothing is unwrapped. *)
Definition filterProps_step (h : heap) (attrs : bag)
    (cleanProps : bag) (key : string) : bag :=
  if skipped_key key then cleanProps
  else
    let val := Js.get attrs key in
    let isVNode := isVNode h val in
    if negb isVNode then Js.set cleanProps key val else cleanProps.

Definition filterProps (h : heap) (attrs : bag) : bag :=
  fold_left (filterProps_step h attrs) (Js.keys attrs) [].

(** [filterPropsOld], the logic "before the fix": only primitives and
    [null]. *)
Definition filterPropsOld_step (h : heap) (attrs : bag)
    (cleanProps : bag) (key : string) : bag :=
  if skipped_key key then cleanProps
  else
    let val := Js.get attrs key in
    if negb (Js.typeof_object h val) || Js.value_eqb val VNull
    then Js.set cleanProps key val
    else cleanProps.

Definition filterPropsOld (h : heap) (attrs : bag) : bag :=
  fold_left (filterPropsOld_step h attrs) (Js.keys attrs) [].

End PropFilteringTest.

(** ** The scan, name by name *)

(** Does the file at [path] register [name]? *)
Definition registers (ms : modules) (name path : string) : bool :=
  String.eqb (component_name path) name &&
  negb (String.eqb name "") &&
  Js.truthy (Js.get (module_at ms path) "default").

(** The default export of the last file that registers [name]. *)
Definition winner (ms : modules) (name : string) : option value :=
  match last (List.filter (registers ms name) (map fst ms)) with
  | Some path => Some (Js.get (module_at ms path) "default")
  | None => None
  end.

(** ** The log of a run *)

(** The bridge an event acts on. *)
Definition target (w : world) (ev : event) : option nat :=
  match ev with
  | Mount b _ | AttrsChanged b _ | NameChanged b _ | Destroy b => Some b
  | Resume i => fst <$> w_tasks w !! i
  end.

(** Before position [i] of the log, bridge [b] made the root [r]. *)
Definition created_before (log : list effect) (i : nat) (b : nat)
    (r : root_id) : Prop :=
  exists (j : nat) (el : handle),
    j < i /\ log !! j = Some (ECreateRoot b el r).

(** Every render and every unmount in the log is on a root made before. *)
Definition roots_ordered (log : list effect) : Prop :=
  forall (i : nat) (ef : effect),
    log !! i = Some ef ->
    match ef with
    | ERender b r _ _ => created_before log i b r
    | EUnmount r => exists b : nat, created_before log i b r
    | _ => True
    end.

(** ** Rejections *)

(** The rejections of [renderReact] in a log. *)
Definition rejections (log : list effect) : list effect :=
  List.filter (fun ef => match ef with EThrow _ _ => true | _ => false end)
              log.

(** [ev] is the unmounting of a bridge. *)
Definition is_destroy (ev : event) : bool :=
  match ev with
  | Destroy _ => true
  | _ => false
  end.

(** What a suspended activation needs to find when it resumes: the
    container for [createRoot], and past [createRoot] the root. *)
Definition resumable (br : bridge) (at_ : pc) : Prop :=
  b_container br <> None /\
  match at_ with
  | AfterImportReact _ => b_root br <> None
  | _ => True
  end.

Definition tasks_resumable (bridges : list bridge) (tasks : list (nat * pc))
    : Prop :=
  forall (i b : nat) (at_ : pc) (br : bridge),
    tasks !! i = Some (b, at_) -> bridges !! b = Some br -> resumable br at_.

(** * Properties *)

(** ** Strings *)

Section StringFacts.

Lemma append_cons (c : ascii) (p r : string) :
  String c p ++ r = String c (p ++ r).
Proof. reflexivity. Qed.

Lemma append_nil (r : string) : "" ++ r = r.
Proof. reflexivity. Qed.

Lemma length_append (s1 s2 : string) :
  String.length (s1 ++ s2) = String.length s1 + String.length s2.
Proof.
  induction s1 as [|c s1 IH]; [reflexivity|].
  rewrite append_cons. simpl. now rewrite IH.
Qed.

Lemma prefix_app (p s : string) :
  String.prefix p s = true <-> exists r, s = p ++ r.
Proof.
  revert s; induction p as [|c p IH]; intros [|d s]; simpl.
  - split; [intros _; exists "" | intros _]; reflexivity.
  - split; [intros _; exists (String d s) | intros _]; reflexivity.
  - split; [discriminate | intros [r Hr]; discriminate].
  - destruct (Ascii.ascii_dec c d) as [->|Hcd].
    + rewrite IH. split; intros [r Hr]; exists r.
      * rewrite append_cons. now rewrite Hr.
      * rewrite append_cons in Hr. now inversion Hr.
    + split; [discriminate | intros [r Hr]].
      rewrite append_cons in Hr. injection Hr as Hd _. congruence.
Qed.

Lemma startsWith_app (s p : string) :
  JsString.startsWith s p = true <-> exists r, s = p ++ r.
Proof. apply prefix_app. Qed.

Lemma includes_spec (s p : string) :
  JsString.includes s p = true <->
  exists before after, s = before ++ p ++ after.
Proof.
  induction s as [|c s IH]; cbn [JsString.includes].
  - rewrite orb_false_r, prefix_app. split.
    + intros [r Hr]. exists "", r. exact Hr.
    + intros (b & a & H). destruct b as [|d b].
      * exists a. exact H.
      * rewrite append_cons in H. discriminate.
  - rewrite orb_true_iff, prefix_app, IH. split.
    + intros [[r Hr] | (b & a & H)].
      * exists "", r. exact Hr.
      * exists (String c b), a. rewrite append_cons. now rewrite H.
    + intros (b & a & H). destruct b as [|d b].
      * left. exists a. exact H.
      * right. exists b, a. rewrite append_cons in H. now inversion H.
Qed.

Lemma jtsx_here_spec (s : string) :
  JsString.jtsx_here s = true <-> s = ".jsx" \/ s = ".tsx".
Proof.
  split.
  - destruct s as [|c0 [|c1 [|c2 [|c3 [|c4 s]]]]]; simpl; try discriminate.
    rewrite !andb_true_iff, orb_true_iff.
    intros [[[H0 H1] H2] H3].
    apply Ascii.eqb_eq in H0, H2, H3. subst.
    destruct H1 as [H1|H1]; apply Ascii.eqb_eq in H1; subst; auto.
  - intros [->| ->]; reflexivity.
Qed.

Lemma test_jtsx_spec (s : string) :
  JsString.test_jtsx s = true <->
  exists stem, s = stem ++ ".jsx" \/ s = stem ++ ".tsx".
Proof.
  induction s as [|c s IH].
  - simpl. split; [discriminate|].
    intros [[|d stem] [H|H]]; discriminate.
  - cbn [JsString.test_jtsx]. rewrite orb_true_iff, jtsx_here_spec, IH. split.
    + intros [[H|H] | [stem [H|H]]].
      * exists "". left. exact H.
      * exists "". right. exact H.
      * exists (String c stem). left. rewrite append_cons. now rewrite H.
      * exists (String c stem). right. rewrite append_cons. now rewrite H.
    + intros [[|d stem] [H|H]]; rewrite ?append_cons, ?append_nil in H; auto.
      * right. exists stem. left. now inversion H.
      * right. exists stem. right. now inversion H.
Qed.

Lemma substring_all (p : string) : String.substring 0 (String.length p) p = p.
Proof. induction p as [|c p IH]; simpl; [reflexivity | now rewrite IH]. Qed.

Lemma substring_skip (a b : string) (m : nat) :
  String.substring (String.length a) m (a ++ b) = String.substring 0 m b.
Proof. induction a as [|c a IH]; [reflexivity | exact IH]. Qed.

Lemma substring_split (s : string) :
  forall n m : nat,
    n + m = String.length s ->
    s = String.substring 0 n s ++ String.substring n m s.
Proof.
  induction s as [|c s IH]; intros n m Hlen; simpl in Hlen.
  - destruct n, m; try discriminate. reflexivity.
  - destruct n as [|n]; simpl.
    + destruct m as [|m]; [discriminate|]. injection Hlen as Hlen.
      rewrite append_nil. subst m. now rewrite substring_all.
    + injection Hlen as Hlen. rewrite append_cons. f_equal. now apply IH.
Qed.

Lemma endsWith_spec (s p : string) :
  JsString.endsWith s p = true <-> exists stem, s = stem ++ p.
Proof.
  unfold JsString.endsWith. rewrite andb_true_iff, Nat.leb_le, String.eqb_eq.
  split.
  - intros [Hle Hsub].
    exists (String.substring 0 (String.length s - String.length p) s).
    pose proof (substring_split s (String.length s - String.length p)
                  (String.length p)) as Hsplit.
    rewrite Hsub in Hsplit. apply Hsplit. lia.
  - intros [stem ->]. rewrite length_append. split; [lia|].
    replace (String.length stem + String.length p - String.length p)
      with (String.length stem) by lia.
    rewrite substring_skip. apply substring_all.
Qed.

Lemma split_slash_file (file : string) :
  JsString.includes file "/" = false -> JsString.split_slash file = [file].
Proof.
  induction file as [|c file IH]; [reflexivity|].
  cbn [JsString.includes JsString.split_slash].
  rewrite orb_false_iff. intros [Hc Hrest].
  assert (Hne : Ascii.eqb c "/" = false).
  { apply Ascii.eqb_neq. intros ->. now destruct file. }
  now rewrite Hne, (IH Hrest).
Qed.

Lemma split_slash_dir (dir file : string) :
  exists (seg : string) (segs : list string),
    JsString.split_slash (dir ++ "/" ++ file) = seg :: segs /\
    segs <> [] /\
    last segs = last (JsString.split_slash file).
Proof.
  assert (Hfile : JsString.split_slash file <> []).
  { destruct file as [|c file]; [discriminate|]. simpl.
    destruct (Ascii.eqb c "/"); [discriminate|].
    now destruct (JsString.split_slash file). }
  induction dir as [|c dir (seg & segs & Heq & Hne & Hlast)].
  - exists "", (JsString.split_slash file). now split.
  - rewrite append_cons. cbn [JsString.split_slash]. rewrite Heq.
    destruct (Ascii.eqb c "/").
    + exists "", (seg :: segs). split; [reflexivity|]. split; [discriminate|].
      rewrite <- Hlast. destruct segs; [contradiction | apply last_cons_cons].
    + exists (String c seg), segs. now split.
Qed.

End StringFacts.

(** ** Bags *)

Section BagFacts.

Lemma lookup_set (o : bag) (k k' : string) (v : value) :
  Js.lookup (Js.set o k v) k' =
  if String.eqb k k' then Some v else Js.lookup o k'.
Proof.
  induction o as [|[k0 w] o IH]; simpl.
  - reflexivity.
  - destruct (String.eqb k0 k) eqn:E0; simpl.
    + apply String.eqb_eq in E0. subst k0.
      destruct (String.eqb k k'); reflexivity.
    + rewrite IH. destruct (String.eqb k k') eqn:E1; [|reflexivity].
      apply String.eqb_eq in E1. subst k'. now rewrite E0.
Qed.

Lemma lookup_Some_keys (o : bag) (k : string) (v : value) :
  Js.lookup o k = Some v -> In k (Js.keys o).
Proof.
  induction o as [|[k0 w] o IH]; simpl; [discriminate|].
  destruct (String.eqb k0 k) eqn:E.
  - apply String.eqb_eq in E. auto.
  - auto.
Qed.

Lemma keys_lookup (o : bag) (k : string) :
  In k (Js.keys o) -> exists v, Js.lookup o k = Some v.
Proof.
  induction o as [|[k0 w] o IH]; simpl; [tauto|].
  intros [->|H].
  - rewrite String.eqb_refl. eauto.
  - destruct (String.eqb k0 k); eauto.
Qed.

Lemma lookup_None_keys (o : bag) (k : string) :
  Js.lookup o k = None <-> ~ In k (Js.keys o).
Proof.
  split.
  - intros HN Hin. apply keys_lookup in Hin as [v Hv]. congruence.
  - intros Hn. destruct (Js.lookup o k) eqn:E; [|reflexivity].
    apply lookup_Some_keys in E. contradiction.
Qed.

Lemma get_lookup (o : bag) (k : string) (v : value) :
  Js.lookup o k = Some v -> Js.get o k = v.
Proof. unfold Js.get. now intros ->. Qed.

Lemma keys_set (o : bag) (k : string) (v : value) :
  forall k', In k' (Js.keys (Js.set o k v)) <-> k' = k \/ In k' (Js.keys o).
Proof.
  intros k'. induction o as [|[k0 w] o IH]; simpl.
  - intuition.
  - destruct (String.eqb k0 k) eqn:E; simpl.
    + apply String.eqb_eq in E. subst. intuition.
    + rewrite IH. intuition.
Qed.

End BagFacts.

(** ** The sanitizer *)

Section Sanitizer.

Variable h : heap.

Lemma filterProps_step_lookup (attrs acc : bag) (key k : string) :
  In key (Js.keys attrs) ->
  Js.lookup (filterProps_step h attrs acc key) k =
  if String.eqb key k
  then match sanitized h attrs key with
       | Some v => Some v
       | None => Js.lookup acc k
       end
  else Js.lookup acc k.
Proof.
  intros Hin. apply keys_lookup in Hin as [v Hv].
  unfold filterProps_step, sanitized. rewrite Hv, (get_lookup _ _ _ Hv).
  destruct (skipped_key key); [now destruct (String.eqb key k)|].
  destruct (isVNode h v); [now destruct (String.eqb key k)|].
  rewrite lookup_set. reflexivity.
Qed.

Lemma fold_lookup (attrs : bag) (k : string) :
  forall (ks : list string) (acc : bag),
    incl ks (Js.keys attrs) ->
    Js.lookup (fold_left (filterProps_step h attrs) ks acc) k =
    if existsb (String.eqb k) ks
    then match sanitized h attrs k with
         | Some v => Some v
         | None => Js.lookup acc k
         end
    else Js.lookup acc k.
Proof.
  induction ks as [|key ks IH]; intros acc Hincl; simpl; [reflexivity|].
  assert (Hkey : In key (Js.keys attrs)) by (apply Hincl; now left).
  assert (Hks : incl ks (Js.keys attrs))
    by (intros x Hx; apply Hincl; now right).
  rewrite (IH _ Hks), (filterProps_step_lookup _ _ _ _ Hkey).
  rewrite (String.eqb_sym k key).
  destruct (String.eqb key k) eqn:E.
  - apply String.eqb_eq in E. subst key. simpl.
    destruct (existsb (String.eqb k) ks); now destruct (sanitized h attrs k).
  - simpl. reflexivity.
Qed.

(** The output, key by key. *)
Lemma filterProps_lookup (attrs : bag) (k : string) :
  Js.lookup (filterProps h attrs) k = sanitized h attrs k.
Proof.
  unfold filterProps. rewrite fold_lookup by apply incl_refl. simpl.
  destruct (existsb (String.eqb k) (Js.keys attrs)) eqn:E.
  - now destruct (sanitized h attrs k).
  - unfold sanitized. destruct (skipped_key k); [reflexivity|].
    destruct (Js.lookup attrs k) eqn:L; [|reflexivity].
    apply lookup_Some_keys in L.
    assert (existsb (String.eqb k) (Js.keys attrs) = true).
    { apply existsb_exists. exists k. split; [exact L|apply String.eqb_refl]. }
    congruence.
Qed.

Lemma filterProps_keys (attrs : bag) (k : string) :
  In k (Js.keys (filterProps h attrs)) <-> exists v, sanitized h attrs k = Some v.
Proof.
  rewrite <- filterProps_lookup. split.
  - apply keys_lookup.
  - intros [v Hv]. eapply lookup_Some_keys, Hv.
Qed.

End Sanitizer.

(** ** The heap under allocation *)

Section HeapFacts.

Lemma fresh_free (h : heap) : h !! fresh (dom h) = None.
Proof. apply not_elem_of_dom, is_fresh. Qed.

Lemma alloc_lookup (h : heap) (c : cell) :
  (Vue.alloc h c).1 !! (Vue.alloc h c).2 = Some c.
Proof. unfold Vue.alloc. simpl. apply lookup_insert_eq. Qed.

Lemma alloc_old (h : heap) (c c' : cell) (l : loc) :
  h !! l = Some c' -> (Vue.alloc h c).1 !! l = Some c'.
Proof.
  intros Hl. unfold Vue.alloc. simpl. rewrite lookup_insert_ne; [exact Hl|].
  intros E. rewrite <- E, fresh_free in Hl. discriminate.
Qed.

Lemma size_pos (h : heap) (l : loc) (c : cell) :
  h !! l = Some c -> exists k, size h = S k.
Proof.
  intros Hl. destruct (size h) as [|k] eqn:E; [|now exists k].
  apply map_size_empty_inv in E. subst h. now rewrite lookup_empty in Hl.
Qed.

Lemma fuel_pos (h : heap) (l : loc) (c : cell) :
  h !! l = Some c -> exists k, 3 * size h = S k.
Proof.
  intros Hl. destruct (size_pos _ _ _ Hl) as [k Hk].
  exists (2 + 3 * k). lia.
Qed.

(** Reads of an ordinary object, of a ref, of a primitive. *)
Lemma behind_object (n : nat) (h : heap) (l : loc) (cls : jsclass)
    (props : bag) :
  h !! l = Some (CObject cls props) ->
  Js.behind n h l = Some (CObject cls props).
Proof. intros Hl. destruct n; simpl; now rewrite Hl. Qed.

Lemma behind_ref (n : nat) (h : heap) (l : loc) (current : value) :
  h !! l = Some (CRef current) -> Js.behind n h l = Some (CRef current).
Proof. intros Hl. destruct n; simpl; now rewrite Hl. Qed.

Lemma visible_object (h : heap) (l : loc) (cls : jsclass) (props : bag) :
  h !! l = Some (CObject cls props) -> Js.visible h l = props.
Proof.
  intros Hl. unfold Js.visible. now rewrite (behind_object _ _ _ _ _ Hl).
Qed.

Lemma visible_ref (h : heap) (l : loc) (current : value) :
  h !! l = Some (CRef current) -> Js.visible h l = Js.ref_props current.
Proof.
  intros Hl. unfold Js.visible. now rewrite (behind_ref _ _ _ _ Hl).
Qed.

Lemma visible_proxy (h : heap) (p raw : loc) (kind : proxy_kind)
    (cls : jsclass) (props : bag) :
  h !! p = Some (CProxy kind raw) ->
  h !! raw = Some (CObject cls props) ->
  Js.visible h p = props.
Proof.
  intros Hp Hraw. unfold Js.visible.
  destruct (size_pos _ _ _ Hp) as [k ->]. simpl. rewrite Hp.
  now rewrite (behind_object _ _ _ _ _ Hraw).
Qed.

Lemma get_upto_object (n : nat) (h : heap) (l : loc) (cls : jsclass)
    (props : bag) (key : string) :
  h !! l = Some (CObject cls props) ->
  Js.get_upto n h (VObject l) key = Js.get props key.
Proof. intros Hl. destruct n; simpl; now rewrite Hl. Qed.

Lemma get_upto_primitive (n : nat) (h : heap) (v : value) (key : string) :
  (forall l, v <> VObject l) -> Js.get_upto n h v key = VUndefined.
Proof.
  intros Hv. destruct v; try (now destruct n). now destruct (Hv l).
Qed.

Lemma get_prop_object (h : heap) (l : loc) (cls : jsclass) (props : bag)
    (key : string) :
  h !! l = Some (CObject cls props) ->
  Js.get_prop h (VObject l) key = Js.get props key.
Proof. apply get_upto_object. Qed.

Lemma get_prop_ref (h : heap) (l : loc) (current : value) (key : string) :
  h !! l = Some (CRef current) ->
  Js.get_prop h (VObject l) key = Js.get (Js.ref_props current) key.
Proof.
  intros Hl. unfold Js.get_prop. destruct (3 * size h); simpl; now rewrite Hl.
Qed.

Lemma get_prop_primitive (h : heap) (v : value) (key : string) :
  (forall l, v <> VObject l) -> Js.get_prop h v key = VUndefined.
Proof. apply get_upto_primitive. Qed.

(** A proxy answers the flags itself. *)
Lemma get_prop_flags (h : heap) (p raw : loc) (kind : proxy_kind) :
  h !! p = Some (CProxy kind raw) ->
  Js.get_prop h (VObject p) "__v_isReactive"
    = VBool match kind with Reactive => true | Readonly => false end /\
  Js.get_prop h (VObject p) "__v_isReadonly"
    = VBool match kind with Reactive => false | Readonly => true end /\
  Js.get_prop h (VObject p) "__v_raw" = VObject raw.
Proof.
  intros Hp. unfold Js.get_prop.
  destruct (3 * size h); simpl; rewrite Hp; now repeat split.
Qed.

(** Through a proxy of an ordinary object [__v_isRef] reads as the
    object has it. *)
Lemma get_prop_proxy_isRef (h : heap) (p raw : loc) (kind : proxy_kind)
    (cls : jsclass) (props : bag) :
  h !! p = Some (CProxy kind raw) ->
  h !! raw = Some (CObject cls props) ->
  Js.get_prop h (VObject p) "__v_isRef" =
  match cls with
  | ClsMap | ClsSet => Js.get props "__v_isRef"
  | _ => Js.get props "__v_isRef"
  end.
Proof.
  intros Hp Hraw. unfold Js.get_prop.
  destruct (fuel_pos _ _ _ Hp) as [k ->]. cbn [Js.get_upto]. rewrite Hp.
  cbn [String.eqb Ascii.eqb Bool.eqb].
  rewrite (get_upto_object _ _ _ _ _ _ Hraw).
  unfold Js.collection_behind. rewrite (behind_object _ _ _ _ _ Hraw).
  now destruct cls.
Qed.

(** What Vue's tests answer on a primitive and on an ordinary object. *)
Lemma isRef_primitive (h : heap) (v : value) :
  (forall l, v <> VObject l) -> Vue.isRef h v = false.
Proof.
  intros Hv. unfold Vue.isRef. rewrite get_prop_primitive by exact Hv.
  apply andb_false_r.
Qed.

Lemma isReadonly_primitive (h : heap) (v : value) :
  (forall l, v <> VObject l) -> Vue.isReadonly h v = false.
Proof.
  intros Hv. unfold Vue.isReadonly. rewrite get_prop_primitive by exact Hv.
  apply andb_false_r.
Qed.

Lemma isReactive_not_readonly (h : heap) (v : value) :
  Vue.isReadonly h v = false ->
  Vue.isReactive h v
  = Js.truthy v && Js.truthy (Js.get_prop h v "__v_isReactive").
Proof.
  intros Hro. unfold Vue.isReactive.
  destruct (size h); simpl; now rewrite Hro.
Qed.

Lemma isReactive_primitive (h : heap) (v : value) :
  (forall l, v <> VObject l) -> Vue.isReactive h v = false.
Proof.
  intros Hv. rewrite isReactive_not_readonly
    by (now apply isReadonly_primitive).
  rewrite get_prop_primitive by exact Hv. apply andb_false_r.
Qed.

Lemma toRaw_upto_no_raw (n : nat) (h : heap) (v : value) :
  Js.truthy (Js.get_prop h v "__v_raw") = false ->
  Vue.toRaw_upto n h v = v.
Proof.
  intros Hraw. destruct n; simpl; destruct (Js.truthy v) eqn:Hv;
    rewrite ?Hraw, ?Hv; reflexivity.
Qed.

Lemma toRaw_no_raw (h : heap) (v : value) :
  Js.truthy (Js.get_prop h v "__v_raw") = false -> Vue.toRaw h v = v.
Proof. apply toRaw_upto_no_raw. Qed.

(** A plain value is no ref, not readonly, not reactive, and its own raw
    value. *)
Lemma plain_fields (h : heap) (l : loc) :
  is_plain h (VObject l) = true ->
  exists cls props,
    h !! l = Some (CObject cls props) /\
    Js.value_eqb (Js.get props "__v_isRef") (VBool true) = false /\
    Js.truthy (Js.get props "__v_isReadonly") = false /\
    Js.truthy (Js.get props "__v_isReactive") = false /\
    Js.truthy (Js.get props "__v_raw") = false.
Proof.
  unfold is_plain, unmarked.
  destruct (h !! l) as [[cls props|cur|k raw]|]; try discriminate.
  rewrite !andb_true_iff, !negb_true_iff.
  intros [[[H1 H2] H3] H4]. now exists cls, props.
Qed.

Lemma plain_not_ref (h : heap) (v : value) :
  is_plain h v = true -> Vue.isRef h v = false.
Proof.
  destruct v as [| | | | | | |l];
    try (intros _; apply isRef_primitive; discriminate).
  intros Hp. destruct (plain_fields _ _ Hp) as (cls & props & Hl & H1 & _).
  unfold Vue.isRef. rewrite (get_prop_object _ _ _ _ _ Hl). now rewrite H1.
Qed.

Lemma plain_not_readonly (h : heap) (v : value) :
  is_plain h v = true -> Vue.isReadonly h v = false.
Proof.
  destruct v as [| | | | | | |l];
    try (intros _; apply isReadonly_primitive; discriminate).
  intros Hp.
  destruct (plain_fields _ _ Hp) as (cls & props & Hl & _ & H2 & _).
  unfold Vue.isReadonly. rewrite (get_prop_object _ _ _ _ _ Hl).
  now rewrite H2.
Qed.

Lemma plain_not_reactive (h : heap) (v : value) :
  is_plain h v = true -> Vue.isReactive h v = false.
Proof.
  intros Hp. rewrite isReactive_not_readonly by (now apply plain_not_readonly).
  destruct v as [| | | | | | |l];
    try (rewrite get_prop_primitive by discriminate; apply andb_false_r).
  destruct (plain_fields _ _ Hp) as (cls & props & Hl & _ & _ & H3 & _).
  rewrite (get_prop_object _ _ _ _ _ Hl). now rewrite H3.
Qed.

Lemma plain_no_raw (h : heap) (v : value) :
  is_plain h v = true -> Js.truthy (Js.get_prop h v "__v_raw") = false.
Proof.
  destruct v as [| | | | | | |l];
    try (intros _; rewrite get_prop_primitive by discriminate; reflexivity).
  intros Hp.
  destruct (plain_fields _ _ Hp) as (cls & props & Hl & _ & _ & _ & H4).
  now rewrite (get_prop_object _ _ _ _ _ Hl).
Qed.

(** The two tests of lines 32 and 37 failing, the value is written as it
    is. *)
Lemma unwrap_untouched (h : heap) (v : value) :
  Vue.isRef h v = false -> Vue.isReactive h v = false -> unwrap h v = v.
Proof. intros Href Hre. unfold unwrap. now rewrite Href, Hre. Qed.

Lemma unwrap_plain (h : heap) (v : value) :
  is_plain h v = true -> unwrap h v = v.
Proof.
  intros Hp. apply unwrap_untouched;
    [now apply plain_not_ref | now apply plain_not_reactive].
Qed.

Lemma isVNode_ref (h : heap) (r : loc) (current : value) :
  h !! r = Some (CRef current) -> isVNode h (VObject r) = false.
Proof.
  intros Hr. unfold isVNode, Js.has_prop. rewrite (visible_ref _ _ _ Hr).
  simpl. now rewrite andb_false_r.
Qed.

Lemma isVNode_function (h : heap) (f : loc) (props : bag) :
  h !! f = Some (CObject ClsFunction props) -> isVNode h (VObject f) = false.
Proof. intros Hf. unfold isVNode. simpl. now rewrite Hf. Qed.

Lemma isVNode_primitive (h : heap) (v : value) :
  (forall l, v <> VObject l) -> isVNode h v = false.
Proof. intros Hv. destruct v; try reflexivity. now destruct (Hv l). Qed.

(** An ordinary object is a VNode by its own [__v_isVNode]. *)
Lemma isVNode_object (h : heap) (l : loc) (cls : jsclass) (props : bag) :
  h !! l = Some (CObject cls props) ->
  isVNode h (VObject l) =
  match cls with ClsFunction => false | _ => true end &&
  Js.has props "__v_isVNode" && Js.truthy (Js.get props "__v_isVNode").
Proof.
  intros Hl. unfold isVNode, Js.has_prop.
  rewrite (visible_object _ _ _ _ Hl), (get_prop_object _ _ _ _ _ Hl).
  simpl. rewrite Hl. now destruct cls.
Qed.

End HeapFacts.

(** ** The sanitizer: what reaches the guest *)

Lemma skipped_key_on (rest : string) : skipped_key ("on" ++ rest) = true.
Proof.
  unfold skipped_key.
  assert (H : JsString.startsWith ("on" ++ rest) "on" = true)
    by (apply startsWith_app; now exists rest).
  rewrite H. now rewrite orb_true_r.
Qed.

Lemma skipped_key_false (key : string) :
  skipped_key key = false ->
  JsString.startsWith key "__" = false /\
  JsString.startsWith key "on" = false /\
  key <> "class" /\ key <> "style".
Proof.
  unfold skipped_key. rewrite !orb_false_iff.
  intros [[[H1 H2] H3] H4]. repeat split; try assumption.
  - now apply String.eqb_neq.
  - now apply String.eqb_neq.
Qed.

(** C4.  Whatever the attribute bag, no key of the sanitized output begins
    with the reserved prefix [__], none begins with [on] (so none has the
    shape of an event handler), and none is [class] or [style]. *)
Theorem filterProps_no_reserved_key (h : heap) (attrs : bag) :
  Forall (fun key =>
            JsString.startsWith key "__" = false /\
            JsString.startsWith key "on" = false /\
            key <> "class" /\ key <> "style")
         (Js.keys (filterProps h attrs)).
Proof.
  apply List.Forall_forall. intros key Hin.
  apply filterProps_keys in Hin as [v Hv].
  apply skipped_key_false.
  unfold sanitized in Hv. now destruct (skipped_key key).
Qed.

(** C9.  Every key that begins with the two characters [on] is dropped,
    event handler or not ([once] and [online] go too), while a key the
    test of line 19 lets through and whose value is a function (such as
    [handleClick]) is handed over, the same function; the function is an
    ordinary one, which carries none of Vue's marker fields. *)
Theorem filterProps_on_prefix (h : heap) (attrs : bag) :
  (forall rest : string,
      Js.lookup (filterProps h attrs) ("on" ++ rest) = None /\
      ~ In ("on" ++ rest) (Js.keys (filterProps h attrs))) /\
  (forall (key : string) (f : loc) (props : bag),
      skipped_key key = false ->
      Js.lookup attrs key = Some (VObject f) ->
      h !! f = Some (CObject ClsFunction props) ->
      unmarked props = true ->
      Js.lookup (filterProps h attrs) key = Some (VObject f)).
Proof.
  split.
  - intros rest.
    assert (HN : Js.lookup (filterProps h attrs) ("on" ++ rest) = None).
    { rewrite filterProps_lookup. unfold sanitized.
      now rewrite skipped_key_on. }
    split; [exact HN | now apply lookup_None_keys].
  - intros key f props Hkey Hattr Hf Hplain.
    rewrite filterProps_lookup. unfold sanitized.
    rewrite Hkey, Hattr, (isVNode_function _ _ _ Hf).
    rewrite unwrap_plain; [reflexivity|].
    unfold is_plain. now rewrite Hf.
Qed.

Lemma filterProps_on_prefix_witness :
  let attrs := [("once", VBool true); ("online", VBool true);
                ("onClick", VObject 3); ("handleClick", VObject 3)] in
  filterProps vnode_heap attrs = [("handleClick", VObject 3)] /\
  Js.lookup (filterProps vnode_heap attrs) "once" = None /\
  Js.lookup (filterProps vnode_heap attrs) "online" = None /\
  Js.lookup (filterProps vnode_heap attrs) "handleClick" = Some (VObject 3).
Proof.
  intros attrs.
  destruct (filterProps_on_prefix vnode_heap attrs) as [Hon Hcb].
  split; [reflexivity|].
  split; [exact (proj1 (Hon "ce"))|].
  split; [exact (proj1 (Hon "line"))|].
  exact (Hcb "handleClick" 3 [] eq_refl eq_refl eq_refl eq_refl).
Defined.

(** C5.  A top-level value that is an object with a truthy [__v_isVNode]
    field is left out (its key is absent from the output); a plain object
    (one without Vue's marker fields) that merely holds such a value in
    one of its fields is handed over as it is, the same object, the
    marked one still inside. *)
Theorem filterProps_vnode_top_level_only (h : heap) (attrs : bag) :
  (forall (key : string) (n : loc) (cls : jsclass) (props : bag)
          (marker : value),
      Js.lookup attrs key = Some (VObject n) ->
      h !! n = Some (CObject cls props) ->
      cls <> ClsFunction ->
      Js.lookup props "__v_isVNode" = Some marker ->
      Js.truthy marker = true ->
      Js.lookup (filterProps h attrs) key = None /\
      ~ In key (Js.keys (filterProps h attrs))) /\
  (forall (key field : string) (o n : loc) (fields : bag),
      skipped_key key = false ->
      Js.lookup attrs key = Some (VObject o) ->
      h !! o = Some (CObject ClsPlain fields) ->
      unmarked fields = true ->
      Js.lookup fields "__v_isVNode" = None ->
      Js.lookup fields field = Some (VObject n) ->
      isVNode h (VObject n) = true ->
      Js.lookup (filterProps h attrs) key = Some (VObject o) /\
      Js.get_prop h (VObject o) field = VObject n).
Proof.
  split.
  - intros key n cls props marker Hattr Hn Hcls Hmark Htruthy.
    assert (Hv : isVNode h (VObject n) = true).
    { rewrite (isVNode_object _ _ _ _ Hn). unfold Js.has, Js.get.
      rewrite Hmark. simpl. rewrite Htruthy.
      destruct cls; try reflexivity. now destruct Hcls. }
    assert (HN : Js.lookup (filterProps h attrs) key = None).
    { rewrite filterProps_lookup. unfold sanitized.
      destruct (skipped_key key); [reflexivity|]. now rewrite Hattr, Hv. }
    split; [exact HN | now apply lookup_None_keys].
  - intros key field o n fields Hok Hoattr Ho Hplain Hnomark Hfield _. split.
    + rewrite filterProps_lookup. unfold sanitized. rewrite Hok, Hoattr.
      assert (Hvo : isVNode h (VObject o) = false).
      { rewrite (isVNode_object _ _ _ _ Ho). unfold Js.has.
        now rewrite Hnomark. }
      rewrite Hvo, unwrap_plain; [reflexivity|].
      unfold is_plain. now rewrite Ho.
    + rewrite (get_prop_object _ _ _ _ _ Ho). unfold Js.get.
      now rewrite Hfield.
Qed.

Lemma filterProps_vnode_top_level_only_witness :
  let attrs := [("title", VStr "Hello"); ("vnode", VObject 1);
                ("wrapper", VObject 2)] in
  filterProps vnode_heap attrs =
    [("title", VStr "Hello"); ("wrapper", VObject 2)] /\
  Js.lookup (filterProps vnode_heap attrs) "vnode" = None /\
  Js.lookup (filterProps vnode_heap attrs) "wrapper" = Some (VObject 2).
Proof.
  intros attrs.
  destruct (filterProps_vnode_top_level_only vnode_heap attrs) as [Htop Hnested].
  split; [reflexivity|]. split.
  - refine (proj1 (Htop "vnode" 1 ClsPlain
                     [("__v_isVNode", VBool true); ("type", VStr "div")]
                     (VBool true) eq_refl eq_refl _ eq_refl eq_refl)).
    discriminate.
  - exact (proj1 (Hnested "wrapper" "slot" 2 1 [("slot", VObject 1)]
                    eq_refl eq_refl eq_refl eq_refl eq_refl eq_refl eq_refl)).
Defined.

(** C1.  The bag of the scenario is sanitized to exactly
    [{title, count, config, items}], [config] and [items] being the very
    objects of the input.  In general a plain object or array (an
    ordinary object that carries neither the VNode marker nor a marker
    field of Vue's refs and proxies), under a key that line 19 lets
    through, is found in the output under its key at the same address;
    and so is, unchanged, every value that is neither a VNode nor a ref
    nor reactive to Vue (a primitive, a function, a date, ...). *)
Theorem filterProps_passes_plain_values :
  filterProps scenario_heap scenario_attrs =
    [("title", VStr "Hello"); ("count", VNum 42);
     ("config", VObject 2); ("items", VObject 3)] /\
  (forall (h : heap) (attrs : bag) (key : string) (l : loc)
          (cls : jsclass) (props : bag),
      Js.lookup attrs key = Some (VObject l) ->
      skipped_key key = false ->
      h !! l = Some (CObject cls props) ->
      unmarked props = true ->
      Js.lookup props "__v_isVNode" = None ->
      Js.lookup (filterProps h attrs) key = Some (VObject l)) /\
  (forall (h : heap) (attrs : bag) (key : string) (v : value),
      Js.lookup attrs key = Some v ->
      skipped_key key = false ->
      isVNode h v = false ->
      Vue.isRef h v = false ->
      Vue.isReactive h v = false ->
      Js.lookup (filterProps h attrs) key = Some v).
Proof.
  split; [reflexivity|]. split.
  - intros h attrs key l cls props Hattr Hkey Hl Hplain Hmark.
    rewrite filterProps_lookup. unfold sanitized. rewrite Hkey, Hattr.
    assert (Hv : isVNode h (VObject l) = false).
    { rewrite (isVNode_object _ _ _ _ Hl). unfold Js.has.
      rewrite Hmark. now rewrite andb_false_r. }
    rewrite Hv, unwrap_plain; [reflexivity|].
    unfold is_plain. now rewrite Hl.
  - intros h attrs key v Hattr Hkey Hvnode Href Hreactive.
    rewrite filterProps_lookup. unfold sanitized, unwrap.
    now rewrite Hkey, Hattr, Hvnode, Href, Hreactive.
Qed.

Lemma filterProps_passes_plain_values_witness :
  Js.lookup (filterProps scenario_heap scenario_attrs) "config"
    = Some (VObject 2) /\
  Js.lookup (filterProps scenario_heap scenario_attrs) "items"
    = Some (VObject 3) /\
  Js.lookup (filterProps scenario_heap scenario_attrs) "count"
    = Some (VNum 42).
Proof.
  destruct filterProps_passes_plain_values as (_ & Hobject & Hvalue).
  split; [|split].
  - exact (Hobject scenario_heap scenario_attrs "config" 2 ClsPlain
             [("theme", VStr "dark")] eq_refl eq_refl eq_refl eq_refl eq_refl).
  - exact (Hobject scenario_heap scenario_attrs "items" 3 ClsArray
             [("0", VNum 1); ("1", VNum 2); ("2", VNum 3); ("length", VNum 3)]
             eq_refl eq_refl eq_refl eq_refl eq_refl).
  - exact (Hvalue scenario_heap scenario_attrs "count" (VNum 42)
             eq_refl eq_refl eq_refl eq_refl eq_refl).
Defined.

(** The loops that the two versions of [React.vue] carry in place of a
    call of [filterProps]: on the scenario the one of lines 74-80 agrees
    with [filterProps], the one of lines 161-169 loses [config] and
    [items]; and the one of lines 74-80 hands a ref over as it is. *)
Lemma inline_loops_on_scenario :
  ReactVue.cleanProps scenario_attrs
    = filterProps scenario_heap scenario_attrs /\
  ReactVue.cleanProps_primitives scenario_heap scenario_attrs
    = [("title", VStr "Hello"); ("count", VNum 42)] /\
  forall r : value, ReactVue.cleanProps [("count", r)] = [("count", r)].
Proof. repeat split. Qed.

(** Vue goes by the marker fields: an ordinary object with
    [__v_isRef: true] is unwrapped to its [value] (a function too, whose
    [value] is [undefined]; and through a readonly proxy), one with
    [__v_isReactive] and [__v_raw] to what [__v_raw] holds; and an object
    whose [value] is such an object again is unwrapped once by each
    pass. *)
Lemma marked_objects_are_unwrapped :
  filterProps marked_heap
    [("a", VObject 1); ("b", VObject 3); ("handle", VObject 4);
     ("d", VObject 5); ("e", VObject 6)]
  = [("a", VNum 1); ("b", VObject 2); ("handle", VUndefined);
     ("d", VNum 1); ("e", VObject 1)] /\
  filterProps marked_heap (filterProps marked_heap [("e", VObject 6)])
  = [("e", VNum 1)].
Proof. split; reflexivity. Qed.

(** A cell written at a free address leaves the plain values plain. *)
Lemma is_plain_insert (h : heap) (l : loc) (c : cell) (v : value) :
  h !! l = None -> is_plain h v = true -> is_plain (<[l := c]> h) v = true.
Proof.
  intros Hfree. destruct v as [| | | | | | |l']; try reflexivity.
  unfold is_plain. destruct (h !! l') as [c'|] eqn:Hl'; [|discriminate].
  rewrite lookup_insert_ne by congruence. now rewrite Hl'.
Qed.

(** What lines 31-39 make of a ref object and of a reactive proxy. *)
Lemma unwrap_ref (h : heap) (r : loc) (current : value) :
  h !! r = Some (CRef current) ->
  unwrap h (VObject r)
  = if Vue.isReactive h current then Vue.toRaw h current else current.
Proof.
  intros Hr.
  assert (Href : Vue.isRef h (VObject r) = true)
    by (unfold Vue.isRef; now rewrite (get_prop_ref _ _ _ _ Hr)).
  unfold unwrap, Vue.unref. rewrite Href.
  now rewrite (get_prop_ref _ _ _ _ Hr).
Qed.

Lemma isRef_proxy (h : heap) (p raw : loc) (kind : proxy_kind) :
  h !! p = Some (CProxy kind raw) ->
  is_plain h (VObject raw) = true ->
  Vue.isRef h (VObject p) = false.
Proof.
  intros Hp Hplain.
  destruct (plain_fields _ _ Hplain) as (cls & props & Hraw & H1 & _).
  unfold Vue.isRef. rewrite (get_prop_proxy_isRef _ _ _ _ _ _ Hp Hraw).
  simpl. now destruct cls.
Qed.

Lemma isReactive_proxy (h : heap) (p raw : loc) :
  h !! p = Some (CProxy Reactive raw) -> Vue.isReactive h (VObject p) = true.
Proof.
  intros Hp. destruct (get_prop_flags _ _ _ _ Hp) as (Hre & Hro & _).
  rewrite isReactive_not_readonly; [now rewrite Hre|].
  unfold Vue.isReadonly. now rewrite Hro.
Qed.

Lemma toRaw_proxy (h : heap) (p raw : loc) (kind : proxy_kind) :
  h !! p = Some (CProxy kind raw) ->
  is_plain h (VObject raw) = true ->
  Vue.toRaw h (VObject p) = VObject raw.
Proof.
  intros Hp Hplain. destruct (get_prop_flags _ _ _ _ Hp) as (_ & _ & Hraw).
  unfold Vue.toRaw. destruct (size_pos _ _ _ Hp) as [k ->].
  simpl. rewrite Hraw. simpl.
  apply toRaw_upto_no_raw. now apply plain_no_raw.
Qed.

Lemma unwrap_proxy (h : heap) (p raw : loc) :
  h !! p = Some (CProxy Reactive raw) ->
  is_plain h (VObject raw) = true ->
  unwrap h (VObject p) = VObject raw.
Proof.
  intros Hp Hplain. unfold unwrap.
  rewrite (isRef_proxy _ _ _ _ Hp Hplain), (isReactive_proxy _ _ _ Hp).
  now apply (toRaw_proxy _ _ _ Reactive).
Qed.

(** The heap and the ref that [ref(v)] returns, for a plain [v]. *)
Lemma ref_plain (h : heap) (v : value) :
  is_plain h v = true ->
  exists (h' : heap) (r : loc) (inner : value),
    Vue.ref h v = (h', VObject r) /\
    h' !! r = Some (CRef inner) /\
    unwrap h' (VObject r) = v.
Proof.
  intros Hplain. unfold Vue.ref. rewrite (plain_not_ref _ _ Hplain).
  assert (Hsame : forall h0 : heap,
             is_plain h0 v = true ->
             exists r : loc,
               (let '(h2, r) := Vue.alloc h0 (CRef v) in (h2, VObject r))
               = (<[r := CRef v]> h0, VObject r) /\
               (<[r := CRef v]> h0) !! r = Some (CRef v) /\
               unwrap (<[r := CRef v]> h0) (VObject r) = v).
  { intros h0 Hp0. exists (fresh (dom h0)).
    split; [reflexivity|]. split; [apply lookup_insert_eq|].
    rewrite (unwrap_ref _ _ v) by apply lookup_insert_eq.
    assert (Hp' : is_plain (<[fresh (dom h0) := CRef v]> h0) v = true)
      by (apply is_plain_insert; [apply fresh_free|exact Hp0]).
    now rewrite (plain_not_reactive _ _ Hp'). }
  destruct v as [| | | | | | |l];
    try (destruct (Hsame h Hplain) as (r & E & Hr & Hu);
         eexists _, r, _; split; [exact E|]; split; [exact Hr|exact Hu]).
  unfold Vue.reactive.
  rewrite (plain_not_readonly _ _ Hplain), (plain_no_raw _ _ Hplain).
  destruct (Vue.observable h l).
  - (* [.value] is a reactive proxy of the object *)
    set (p := fresh (dom h)).
    set (h1 := <[p := CProxy Reactive l]> h).
    set (r := fresh (dom h1)).
    assert (Hpr : r <> p).
    { intros E. pose proof (fresh_free h1) as F. fold r in F.
      rewrite E in F. unfold h1 in F. rewrite lookup_insert_eq in F.
      discriminate. }
    assert (Hp : (<[r := CRef (VObject p)]> h1) !! p
                 = Some (CProxy Reactive l)).
    { rewrite lookup_insert_ne by exact Hpr. apply lookup_insert_eq. }
    assert (Hl : is_plain (<[r := CRef (VObject p)]> h1) (VObject l) = true).
    { apply is_plain_insert; [apply fresh_free|].
      apply is_plain_insert; [apply fresh_free|exact Hplain]. }
    exists (<[r := CRef (VObject p)]> h1), r, (VObject p).
    split; [reflexivity|]. split; [apply lookup_insert_eq|].
    rewrite (unwrap_ref _ _ (VObject p)) by apply lookup_insert_eq.
    rewrite (isReactive_proxy _ _ _ Hp).
    now apply (toRaw_proxy _ _ _ Reactive).
  - (* [.value] is the object itself *)
    destruct (Hsame h Hplain) as (r & E & Hr & Hu).
    exists (<[r := CRef (VObject l)]> h), r, (VObject l).
    split; [exact E|]. split; [exact Hr|exact Hu].
Qed.

(** The same for [shallowRef(v)]. *)
Lemma shallowRef_plain (h : heap) (v : value) :
  is_plain h v = true ->
  exists (h' : heap) (r : loc),
    Vue.shallowRef h v = (h', VObject r) /\
    h' !! r = Some (CRef v) /\
    unwrap h' (VObject r) = v.
Proof.
  intros Hplain. unfold Vue.shallowRef. rewrite (plain_not_ref _ _ Hplain).
  set (r := fresh (dom h)).
  exists (<[r := CRef v]> h), r.
  split; [reflexivity|]. split; [apply lookup_insert_eq|].
  rewrite (unwrap_ref _ _ v) by apply lookup_insert_eq.
  assert (Hp' : is_plain (<[r := CRef v]> h) v = true)
    by (apply is_plain_insert; [apply fresh_free|exact Hplain]).
  now rewrite (plain_not_reactive _ _ Hp').
Qed.

(** C2.  For a plain [v] (a primitive, [null], or an ordinary object or
    array without Vue's marker fields), the sanitizer puts [v] itself in
    the output where the bag holds [ref(v)] or [shallowRef(v)]; where it
    holds any ref whose [.value] presently is a value that is not
    reactive (a [computed], say), the output holds that value; and where
    it holds a reactive proxy of a plain object (one that is not dropped
    as a VNode) the output holds the raw object behind the proxy. *)
Theorem filterProps_unwraps_reactivity (h : heap) (key : string) :
  skipped_key key = false ->
  (forall (v : value) (attrs : bag),
      is_plain h v = true ->
      Js.lookup attrs key = Some (Vue.ref h v).2 ->
      Js.lookup (filterProps (Vue.ref h v).1 attrs) key = Some v) /\
  (forall (v : value) (attrs : bag),
      is_plain h v = true ->
      Js.lookup attrs key = Some (Vue.shallowRef h v).2 ->
      Js.lookup (filterProps (Vue.shallowRef h v).1 attrs) key = Some v) /\
  (forall (r : loc) (current : value) (attrs : bag),
      Js.lookup attrs key = Some (VObject r) ->
      h !! r = Some (CRef current) ->
      Vue.isReactive h current = false ->
      Js.lookup (filterProps h attrs) key = Some current) /\
  (forall (p raw : loc) (attrs : bag),
      Js.lookup attrs key = Some (VObject p) ->
      h !! p = Some (CProxy Reactive raw) ->
      is_plain h (VObject raw) = true ->
      isVNode h (VObject p) = false ->
      Js.lookup (filterProps h attrs) key = Some (VObject raw)).
Proof.
  intros Hkey. split; [|split; [|split]].
  - intros v attrs Hplain.
    destruct (ref_plain h v Hplain) as (h' & r & inner & -> & Hr & Hu).
    simpl. intros Hattr.
    rewrite filterProps_lookup. unfold sanitized.
    now rewrite Hkey, Hattr, (isVNode_ref _ _ _ Hr), Hu.
  - intros v attrs Hplain.
    destruct (shallowRef_plain h v Hplain) as (h' & r & -> & Hr & Hu).
    simpl. intros Hattr.
    rewrite filterProps_lookup. unfold sanitized.
    now rewrite Hkey, Hattr, (isVNode_ref _ _ _ Hr), Hu.
  - intros r current attrs Hattr Hr Hnot.
    rewrite filterProps_lookup. unfold sanitized.
    rewrite Hkey, Hattr, (isVNode_ref _ _ _ Hr), (unwrap_ref _ _ _ Hr).
    now rewrite Hnot.
  - intros p raw attrs Hattr Hp Hplain Hvnode.
    rewrite filterProps_lookup. unfold sanitized.
    now rewrite Hkey, Hattr, Hvnode, (unwrap_proxy _ _ _ Hp Hplain).
Qed.

Lemma filterProps_unwraps_reactivity_witness :
  let h := reactive_heap in
  let config := VObject 2 in
  Js.lookup (filterProps (Vue.ref h config).1
                         [("title", VStr "Hello"); ("config", (Vue.ref h config).2)])
            "config" = Some config /\
  Js.lookup (filterProps (Vue.ref h (VNum 42)).1
                         [("config", (Vue.ref h (VNum 42)).2)])
            "config" = Some (VNum 42) /\
  Js.lookup (filterProps (Vue.shallowRef h VNull).1
                         [("config", (Vue.shallowRef h VNull).2)])
            "config" = Some VNull /\
  Js.lookup (filterProps h [("config", VObject 4)]) "config" = Some config.
Proof.
  intros h config.
  destruct (filterProps_unwraps_reactivity h "config" eq_refl)
    as (Href & Hshallow & _ & Hproxy).
  split; [apply Href; reflexivity|].
  split; [apply Href; reflexivity|].
  split; [apply Hshallow; reflexivity|].
  apply (Hproxy 4 2); reflexivity.
Defined.

(** ** The registry *)

Section RegistryFacts.

Variable ms : modules.

Lemma get_truthy_lookup (o : bag) (k : string) :
  Js.truthy (Js.get o k) = true -> Js.lookup o k = Some (Js.get o k).
Proof. unfold Js.get. now destruct (Js.lookup o k). Qed.

Lemma loadRegistry_step_invariant (reg : registry) (path : string) :
  In path (map fst ms) ->
  from_default_export ms reg ->
  from_default_export ms (loadRegistry_step ms reg path).
Proof.
  intros Hpath Hreg. unfold loadRegistry_step.
  destruct (negb (String.eqb (component_name path) "")) eqn:Hname;
    [|exact Hreg].
  destruct (Js.truthy (Js.get (module_at ms path) "default")) eqn:Hdef;
    [|exact Hreg].
  simpl. unfold Reg.set.
  destruct (String.eqb (component_name path) "__proto__").
  - now destruct (Js.get (module_at ms path) "default").
  - intros name v. simpl. rewrite lookup_set.
    destruct (String.eqb (component_name path) name) eqn:E.
    + apply String.eqb_eq in E. subst name. intros [= <-].
      apply negb_true_iff, String.eqb_neq in Hname.
      split; [exact Hname|]. split; [exact Hdef|].
      exists path. split; [exact Hpath|]. split; [reflexivity|].
      now apply get_truthy_lookup.
    + apply Hreg.
Qed.

Lemma scan_fold_invariant (paths : list string) :
  forall reg : registry,
    incl paths (map fst ms) ->
    from_default_export ms reg ->
    from_default_export ms (fold_left (loadRegistry_step ms) paths reg).
Proof.
  induction paths as [|path paths IH]; intros reg Hincl Hreg; simpl.
  - exact Hreg.
  - apply IH.
    + intros x Hx. apply Hincl. now right.
    + apply loadRegistry_step_invariant; [|exact Hreg].
      apply Hincl. now left.
Qed.

Lemma scan_invariant : from_default_export ms (scan ms).
Proof.
  apply scan_fold_invariant; [apply incl_refl|].
  intros name v. discriminate.
Qed.

Lemma loadRegistry_step_no_default (reg : registry) (path : string) :
  Js.lookup (module_at ms path) "default" = None ->
  loadRegistry_step ms reg path = reg.
Proof.
  intros Hnone. unfold loadRegistry_step, Js.get. rewrite Hnone. simpl.
  now rewrite andb_false_r.
Qed.

End RegistryFacts.

Lemma replace_ext_stem (stem ext : string) :
  ext = ".jsx" \/ ext = ".tsx" ->
  JsString.replace_ext (stem ++ ext) = stem.
Proof.
  intros Hext. induction stem as [|c stem IH].
  - destruct Hext as [-> | ->]; reflexivity.
  - rewrite append_cons. cbn [JsString.replace_ext].
    assert (Hno : JsString.ext_here (String c (stem ++ ext)) = false).
    { unfold JsString.ext_here. apply orb_false_iff.
      split; apply String.eqb_neq; intros E;
        apply (f_equal String.length) in E;
        cbn [String.length] in E; rewrite length_append in E;
        destruct Hext as [-> | ->]; simpl in E; lia. }
    rewrite Hno. now rewrite IH.
Qed.

(** The derived name of a file in a directory is the file name without its
    extension: [/react-components/Counter.jsx] is [Counter]. *)
Lemma component_name_file (dir stem ext : string) :
  ext = ".jsx" \/ ext = ".tsx" ->
  JsString.includes (stem ++ ext) "/" = false ->
  component_name (dir ++ "/" ++ stem ++ ext) = stem.
Proof.
  intros Hext Hfile. unfold component_name, JsString.pop.
  destruct (split_slash_dir dir (stem ++ ext)) as (seg & segs & -> & Hne & Hlast).
  assert (Hpop : last (seg :: segs) = Some (stem ++ ext)).
  { destruct segs as [|seg' segs]; [contradiction|].
    rewrite last_cons_cons, Hlast, (split_slash_file _ Hfile). reflexivity. }
  rewrite Hpop, (replace_ext_stem stem ext Hext).
  destruct (String.eqb stem "") eqn:E; [|reflexivity].
  apply String.eqb_eq in E. now subst.
Qed.

(** C10.  When the glob succeeds, [loadRegistry] makes the registry by
    scanning and prints nothing.  A name is registered only for a file
    whose derived name it is, that name being non-empty, and whose module
    has a default export (a truthy one), which is the registered value;
    a module without a default export leaves the registry as it was. *)
Theorem loadRegistry_registers_default_exports (ms : modules) :
  (forall (e : env) (b : nat) (br : bridge),
      env_glob e = Some ms ->
      b_registry (ReactVue.loadRegistry e b br).1 = Some (scan ms) /\
      (ReactVue.loadRegistry e b br).2 = [ELoad b]) /\
  (forall (name : string) (v : value),
      Js.lookup (reg_own (scan ms)) name = Some v ->
      name <> "" /\ Js.truthy v = true /\
      exists path : string,
        In path (map fst ms) /\ component_name path = name /\
        Js.lookup (module_at ms path) "default" = Some v) /\
  (forall (path : string) (reg : registry),
      Js.lookup (module_at ms path) "default" = None ->
      loadRegistry_step ms reg path = reg).
Proof.
  split; [|split].
  - intros e b br Hglob. unfold ReactVue.loadRegistry. rewrite Hglob.
    now split.
  - apply scan_invariant.
  - intros path reg. apply loadRegistry_step_no_default.
Qed.

Lemma loadRegistry_registers_default_exports_witness :
  let ms := default [] (env_glob scenario_env) in
  scan ms = Registry [("Counter", VObject 7); ("Card", VObject 8)] None /\
  (ReactVue.loadRegistry scenario_env 0 (ReactVue.fresh_bridge "Counter" [])).2
    = [ELoad 0] /\
  (exists path : string,
      In path (map fst ms) /\ component_name path = "Counter" /\
      Js.lookup (module_at ms path) "default" = Some (VObject 7)) /\
  loadRegistry_step ms Reg.empty "/react-components/Broken.jsx" = Reg.empty.
Proof.
  intros ms.
  destruct (loadRegistry_registers_default_exports ms)
    as (Hload & Honly & Hnone).
  split; [reflexivity|].
  split; [exact (proj2 (Hload scenario_env 0 (ReactVue.fresh_bridge "Counter" [])
                          eq_refl))|].
  split; [exact (proj2 (proj2 (Honly "Counter" (VObject 7) eq_refl)))|].
  exact (Hnone "/react-components/Broken.jsx" Reg.empty eq_refl).
Defined.

(** ** The transform hook *)

(** The hook hands a file to esbuild, and returns what esbuild gives,
    exactly when the string [react-components] occurs in the path and the
    path ends in [.jsx] or [.tsx]; for every other file it returns
    [null], which is not an object with empty code. *)
Theorem transform_guest_sources_only
    (esbuild_transform : string -> Transform.options ->
                         Transform.esbuild_result + string)
    (code id : string) :
  (Transform.guest_source id <->
   Transform.transform esbuild_transform code id =
     match esbuild_transform code
             (Transform.Options
                (if JsString.endsWith id ".tsx"
                 then Transform.LoaderTsx else Transform.LoaderJsx)
                "automatic" "react") with
     | inl result =>
         Transform.Emit (Transform.res_code result) (Transform.res_map result)
     | inr err => Transform.Reject err
     end) /\
  (~ Transform.guest_source id <->
   Transform.transform esbuild_transform code id = Transform.Skip) /\
  (forall map : string, Transform.Skip <> Transform.Emit "" map).
Proof.
  assert (Hdec : Transform.guest_source id <->
                 JsString.includes id "react-components" = true /\
                 JsString.test_jtsx id = true).
  { unfold Transform.guest_source, Transform.contains, Transform.has_extension.
    rewrite includes_spec, test_jtsx_spec. split.
    - intros [Hc [[stem H]|[stem H]]]; (split; [exact Hc|]); exists stem; auto.
    - intros [Hc [stem [H|H]]]; (split; [exact Hc|]);
        [left|right]; exists stem; exact H. }
  assert (Hnever : forall r : Transform.esbuild_result + string,
             Transform.Skip <>
             match r with
             | inl result =>
                 Transform.Emit (Transform.res_code result)
                                (Transform.res_map result)
             | inr err => Transform.Reject err
             end)
    by (intros [r|err]; discriminate).
  unfold Transform.transform.
  destruct (JsString.includes id "react-components") eqn:Hinc;
    destruct (JsString.test_jtsx id) eqn:Htest; simpl;
    (split; [|split; [|discriminate]]); rewrite Hdec.
  - split; [reflexivity | now split].
  - split.
    + intros Hn. exfalso. apply Hn. now split.
    + intros E. symmetry in E. now apply Hnever in E.
  - split; [intros [_ ?]; discriminate | intros E; now apply Hnever in E].
  - split; [reflexivity | intros _ [_ ?]; discriminate].
  - split; [intros [? _]; discriminate | intros E; now apply Hnever in E].
  - split; [reflexivity | intros _ [? _]; discriminate].
  - split; [intros [? _]; discriminate | intros E; now apply Hnever in E].
  - split; [reflexivity | intros _ [? _]; discriminate].
Qed.

(** The first segment of a path is a prefix of it, and every segment
    occurs in it. *)
Lemma split_slash_head (s seg : string) (segs : list string) :
  JsString.split_slash s = seg :: segs -> exists after, s = seg ++ after.
Proof.
  revert seg segs. induction s as [|c s IH]; intros seg segs Hs.
  - injection Hs as <- _. now exists "".
  - cbn [JsString.split_slash] in Hs. destruct (Ascii.eqb c "/").
    + injection Hs as <- _. now exists (String c s).
    + destruct (JsString.split_slash s) as [|seg0 segs0] eqn:E.
      * injection Hs as <- _. now exists s.
      * injection Hs as <- _. destruct (IH seg0 segs0 eq_refl) as [after ->].
        now exists after.
Qed.

Lemma segment_occurs (s seg : string) :
  Transform.has_segment s seg -> Transform.contains s seg.
Proof.
  unfold Transform.has_segment.
  induction s as [|c s IH]; cbn [JsString.split_slash].
  - intros [<-|[]]. now exists "", "".
  - assert (Hlater : In seg (JsString.split_slash s) ->
                     Transform.contains (String c s) seg).
    { intros Hin. destruct (IH Hin) as (before & after & ->).
      now exists (String c before), after. }
    destruct (Ascii.eqb c "/").
    + intros [<-|Hin]; [now exists "", (String c s) | now apply Hlater].
    + destruct (JsString.split_slash s) as [|seg0 segs0] eqn:E.
      * intros [<-|[]]. now exists "", s.
      * intros [<-|Hin]; [|apply Hlater; now right].
        destruct (split_slash_head s seg0 segs0 E) as [after ->].
        now exists "", after.
Qed.

(** Every file of the component directory is handed to esbuild. *)
Lemma transform_component_files
    (esbuild_transform : string -> Transform.options ->
                         Transform.esbuild_result + string)
    (code id : string) :
  Transform.component_file id ->
  Transform.transform esbuild_transform code id =
    match esbuild_transform code
            (Transform.Options
               (if JsString.endsWith id ".tsx"
                then Transform.LoaderTsx else Transform.LoaderJsx)
               "automatic" "react") with
    | inl result =>
        Transform.Emit (Transform.res_code result) (Transform.res_map result)
    | inr err => Transform.Reject err
    end.
Proof.
  intros [Hseg Hext].
  apply (proj1 (transform_guest_sources_only esbuild_transform code id)).
  split; [now apply segment_occurs | exact Hext].
Qed.

(** C8.  [react-components] need not be a directory of the path for the
    hook to transform a file: it is enough that the string occurs in the
    path.  A [.jsx] file in the directory [my-react-components-old], and
    a file named [react-components.tsx] in [src], are no files of the
    component directory, and the hook hands both to esbuild instead of
    returning [null]. *)
Theorem transform_outside_component_directory
    (esbuild_transform : string -> Transform.options ->
                         Transform.esbuild_result + string)
    (code : string) :
  (~ Transform.component_file "/deck/my-react-components-old/Card.jsx" /\
   Transform.transform esbuild_transform code
     "/deck/my-react-components-old/Card.jsx"
   = match esbuild_transform code
             (Transform.Options Transform.LoaderJsx "automatic" "react") with
     | inl result =>
         Transform.Emit (Transform.res_code result) (Transform.res_map result)
     | inr err => Transform.Reject err
     end /\
   Transform.transform esbuild_transform code
     "/deck/my-react-components-old/Card.jsx" <> Transform.Skip) /\
  (~ Transform.component_file "/deck/src/react-components.tsx" /\
   Transform.transform esbuild_transform code
     "/deck/src/react-components.tsx"
   = match esbuild_transform code
             (Transform.Options Transform.LoaderTsx "automatic" "react") with
     | inl result =>
         Transform.Emit (Transform.res_code result) (Transform.res_map result)
     | inr err => Transform.Reject err
     end /\
   Transform.transform esbuild_transform code
     "/deck/src/react-components.tsx" <> Transform.Skip).
Proof.
  split; (split; [|split]).
  - intros [Hseg _]. unfold Transform.has_segment in Hseg.
    cbn [JsString.split_slash Ascii.eqb Bool.eqb In] in Hseg.
    repeat (destruct Hseg as [Hseg|Hseg]; [discriminate|]). exact Hseg.
  - reflexivity.
  - change (Transform.transform esbuild_transform code
              "/deck/my-react-components-old/Card.jsx")
      with (match esbuild_transform code
                    (Transform.Options Transform.LoaderJsx "automatic" "react")
            with
            | inl result =>
                Transform.Emit (Transform.res_code result)
                               (Transform.res_map result)
            | inr err => Transform.Reject err
            end).
    now destruct (esbuild_transform _ _).
  - intros [Hseg _]. unfold Transform.has_segment in Hseg.
    cbn [JsString.split_slash Ascii.eqb Bool.eqb In] in Hseg.
    repeat (destruct Hseg as [Hseg|Hseg]; [discriminate|]). exact Hseg.
  - reflexivity.
  - change (Transform.transform esbuild_transform code
              "/deck/src/react-components.tsx")
      with (match esbuild_transform code
                    (Transform.Options Transform.LoaderTsx "automatic" "react")
            with
            | inl result =>
                Transform.Emit (Transform.res_code result)
                               (Transform.res_map result)
            | inr err => Transform.Reject err
            end).
    now destruct (esbuild_transform _ _).
Qed.

(** ** The bridge *)

Section BridgeFacts.

Variable e : env.

Lemma loads_of_app (b : nat) (l1 l2 : list effect) :
  ReactVue.loads_of b (l1 ++ l2) =
  ReactVue.loads_of b l1 + ReactVue.loads_of b l2.
Proof. unfold ReactVue.loads_of. now rewrite List.filter_app, List.length_app. Qed.

Lemma guest_calls_app (b : nat) (l1 l2 : list effect) :
  guest_calls b (l1 ++ l2) = (guest_calls b l1 ++ guest_calls b l2)%list.
Proof. apply List.filter_app. Qed.

(** [resolve] changes no variable, loads nothing and never waits for a
    load. *)
Lemma renderReact_resolve_spec (b : nat) (br : bridge) :
  let o := ReactVue.renderReact_resolve e b br in
  ReactVue.o_bridge o = br /\
  (forall b', ReactVue.loads_of b' (ReactVue.o_effects o) = 0) /\
  (forall b', guest_calls b' (ReactVue.o_effects o) = []) /\
  ReactVue.o_next o <> Some AfterLoad /\
  ReactVue.o_roots o = 0.
Proof.
  unfold ReactVue.renderReact_resolve.
  destruct (negb (Reg.found _)); [|destruct (b_root br)];
    simpl; repeat split; intros; discriminate.
Qed.

(** What a call of [renderReact] does to the count of loads. *)
Lemma renderReact_spec (b : nat) (br : bridge) :
  let o := ReactVue.renderReact e b br in
  (forall b', b' <> b -> ReactVue.loads_of b' (ReactVue.o_effects o) = 0) /\
  ReactVue.loads_of b (ReactVue.o_effects o) <= 1 /\
  (forall r, b_registry br = Some r ->
             b_registry (ReactVue.o_bridge o) = Some r /\
             ReactVue.loads_of b (ReactVue.o_effects o) = 0 /\
             ReactVue.o_next o <> Some AfterLoad) /\
  (b_registry (ReactVue.o_bridge o) = None ->
   ReactVue.loads_of b (ReactVue.o_effects o) = 0 /\
   ReactVue.o_next o <> Some AfterLoad).
Proof.
  unfold ReactVue.renderReact.
  destruct (b_container br) as [el|]; simpl.
  2:{ repeat split; intros; try discriminate; try reflexivity;
      try assumption; unfold ReactVue.loads_of; simpl; lia. }
  destruct (b_registry br) as [r|] eqn:Hreg.
  - destruct (renderReact_resolve_spec b br) as (Hbr & Hl & _ & Hn & _).
    repeat split; intros; rewrite ?Hl, ?Hbr; try lia; try assumption;
      congruence.
  - unfold ReactVue.loadRegistry.
    destruct (env_glob e); simpl;
      (split; [intros b' Hb'; unfold ReactVue.loads_of; simpl;
               apply Nat.eqb_neq in Hb'; rewrite Nat.eqb_sym, Hb';
               reflexivity|]);
      (split; [unfold ReactVue.loads_of; simpl; rewrite Nat.eqb_refl;
               simpl; lia|]);
      (split; [intros r; discriminate | discriminate]).
Qed.

(** What a resumed activation does to it: nothing. *)
Lemma renderReact_resume_spec (b : nat) (br : bridge) (fresh : root_id) (at_ : pc) :
  let o := ReactVue.renderReact_resume e b br fresh at_ in
  b_registry (ReactVue.o_bridge o) = b_registry br /\
  (forall b', ReactVue.loads_of b' (ReactVue.o_effects o) = 0) /\
  ReactVue.o_next o <> Some AfterLoad.
Proof.
  destruct at_ as [|c|c]; simpl.
  - destruct (renderReact_resolve_spec b br) as (Hbr & Hl & _ & Hn & _).
    rewrite Hbr. auto.
  - destruct (negb (env_createRoot e)); [|destruct (b_container br)];
      simpl; repeat split; intros; discriminate.
  - destruct (b_root br); [destruct (negb (env_createElement e))|];
      simpl; repeat split; intros; discriminate.
Qed.

(** Writing back an outcome that respects the count keeps [load_inv]. *)
Lemma commit_load_inv (w : world) (b : nat) (br0 : bridge)
    (tasks : list (nat * pc)) (o : ReactVue.outcome) :
  load_inv w ->
  w_bridges w !! b = Some br0 ->
  (forall t, t ∈ tasks -> t ∈ w_tasks w) ->
  (forall b', b' <> b -> ReactVue.loads_of b' (ReactVue.o_effects o) = 0) ->
  ReactVue.loads_of b (ReactVue.o_effects o) <= 1 ->
  (forall r, b_registry br0 = Some r ->
             b_registry (ReactVue.o_bridge o) = Some r /\
             ReactVue.loads_of b (ReactVue.o_effects o) = 0) ->
  (b_registry (ReactVue.o_bridge o) = None ->
   ReactVue.loads_of b (ReactVue.o_effects o) = 0 /\
   ReactVue.o_next o <> Some AfterLoad) ->
  load_inv (ReactVue.commit w b tasks o).
Proof.
  intros (I1 & I2 & I3) Hb Htasks Hother Hle Hkeep Hnone.
  assert (Hlt : b < length (w_bridges w)) by (eapply lookup_lt_Some, Hb).
  unfold load_inv, ReactVue.commit. simpl. split; [|split].
  - intros b'. rewrite loads_of_app.
    destruct (Nat.eq_dec b' b) as [->|Hne].
    + destruct (b_registry br0) as [r|] eqn:Hreg.
      * destruct (Hkeep r eq_refl) as [_ ->]. specialize (I1 b). lia.
      * rewrite (I2 b br0 Hb Hreg). lia.
    + rewrite (Hother b' Hne). specialize (I1 b'). lia.
  - intros b' br'. rewrite loads_of_app.
    destruct (Nat.eq_dec b' b) as [->|Hne].
    + rewrite list_lookup_insert_eq by exact Hlt. intros [= <-] Hreg.
      destruct (Hnone Hreg) as [-> _].
      destruct (b_registry br0) as [r|] eqn:Hreg0.
      * destruct (Hkeep r eq_refl) as [Hr _]. congruence.
      * rewrite (I2 b br0 Hb Hreg0). reflexivity.
    + rewrite list_lookup_insert_ne by congruence. intros Hb' Hreg.
      rewrite (I2 b' br' Hb' Hreg), (Hother b' Hne). reflexivity.
  - intros b'. rewrite elem_of_app. intros [Hin|Hin].
    + apply Htasks, I3 in Hin as (br & r & Hbr & Hr).
      destruct (Nat.eq_dec b' b) as [->|Hne].
      * rewrite list_lookup_insert_eq by exact Hlt.
        assert (br = br0) by congruence. subst br.
        exists (ReactVue.o_bridge o), r. split; [reflexivity|].
        apply (Hkeep r Hr).
      * rewrite list_lookup_insert_ne by congruence. eauto.
    + destruct (ReactVue.o_next o) as [at_|] eqn:Hnext;
        [|now apply elem_of_nil in Hin].
      apply list_elem_of_singleton in Hin. injection Hin as -> <-.
      rewrite list_lookup_insert_eq by exact Hlt.
      destruct (b_registry (ReactVue.o_bridge o)) as [r|] eqn:Hreg.
      * eauto.
      * destruct (Hnone eq_refl) as [_ Hn]. congruence.
Qed.

Lemma load_inv_tasks (w : world) (tasks : list (nat * pc)) (next : root_id) :
  (forall t, t ∈ tasks -> t ∈ w_tasks w) ->
  load_inv w ->
  load_inv (World (w_bridges w) tasks (w_log w) next).
Proof.
  intros Htasks (I1 & I2 & I3). unfold load_inv. simpl.
  split; [exact I1|]. split; [exact I2|].
  intros b Hin. apply I3, Htasks, Hin.
Qed.

Lemma call_load_inv (w : world) (b : nat) (f : bridge -> bridge) :
  (forall br, b_registry (f br) = b_registry br) ->
  load_inv w -> load_inv (ReactVue.call e w b f).
Proof.
  intros Hf Hinv. unfold ReactVue.call.
  destruct (w_bridges w !! b) as [br|] eqn:Hb; [|exact Hinv].
  destruct (renderReact_spec b (f br)) as (Hother & Hle & Hkeep & Hnone).
  apply (commit_load_inv w b br); auto.
  intros r Hr. rewrite <- Hf in Hr. destruct (Hkeep r Hr) as (? & ? & _). auto.
Qed.

Lemma step_load_inv (w : world) (ev : event) :
  load_inv w -> load_inv (ReactVue.step e w ev).
Proof.
  intros Hinv. destruct ev as [b el|b attrs|b name|b|i]; simpl.
  - now apply call_load_inv.
  - now apply call_load_inv.
  - now apply call_load_inv.
  - destruct (w_bridges w !! b) as [br|] eqn:Hb; [|exact Hinv].
    apply (load_inv_tasks
             (ReactVue.commit w b (w_tasks w)
                (ReactVue.Outcome
                   (ReactVue.set_root (ReactVue.set_container br None) None)
                   (match b_root br with Some r => [EUnmount r] | None => [] end)
                   None 0))).
    + simpl. intros t Ht. apply elem_of_app. now left.
    + apply (commit_load_inv w b br); auto; simpl.
      * intros b' _. now destruct (b_root br).
      * destruct (b_root br); simpl; unfold ReactVue.loads_of; simpl; lia.
      * intros r Hr. split; [exact Hr|]. now destruct (b_root br).
      * intros _. split; [now destruct (b_root br)|discriminate].
  - destruct (w_tasks w !! i) as [[b at_]|] eqn:Hi; [|exact Hinv].
    destruct (w_bridges w !! b) as [br|] eqn:Hb; [|exact Hinv].
    destruct (renderReact_resume_spec b br (w_next_root w) at_) as (Hreg & Hl & Hn).
    apply (commit_load_inv w b br); auto.
    + intros t. apply list_elem_of_delete_inv.
    + rewrite Hl. lia.
    + intros r Hr. rewrite Hreg. auto.
Qed.

Lemma run_load_inv (evs : list event) :
  forall w : world, load_inv w -> load_inv (ReactVue.run e w evs).
Proof.
  induction evs as [|ev evs IH]; intros w Hinv; simpl; [exact Hinv|].
  apply IH, step_load_inv, Hinv.
Qed.

Lemma boot_load_inv (bridges : list bridge) : load_inv (ReactVue.boot bridges).
Proof.
  unfold load_inv, ReactVue.boot. simpl. repeat split.
  - intros b. unfold ReactVue.loads_of. simpl. lia.
  - intros b Hin. now apply elem_of_nil in Hin.
Qed.

End BridgeFacts.

Section BridgeRuns.

Variable e : env.

Lemma commit_log (w : world) (b : nat) (tasks : list (nat * pc))
    (o : ReactVue.outcome) :
  w_log (ReactVue.commit w b tasks o) = (w_log w ++ ReactVue.o_effects o)%list.
Proof. reflexivity. Qed.

(** A bridge that has its registry starts no load, whatever happens. *)
Lemma step_loads_same (w : world) (ev : event) (b : nat) (br : bridge)
    (r : registry) :
  w_bridges w !! b = Some br ->
  b_registry br = Some r ->
  ReactVue.loads_of b (w_log (ReactVue.step e w ev)) =
  ReactVue.loads_of b (w_log w).
Proof.
  intros Hb Hr.
  assert (Hcall : forall b' f,
             (forall x, b_registry (f x) = b_registry x) ->
             ReactVue.loads_of b (w_log (ReactVue.call e w b' f)) =
             ReactVue.loads_of b (w_log w)).
  { intros b' f Hf. unfold ReactVue.call.
    destruct (w_bridges w !! b') as [br'|] eqn:Hb'; [|reflexivity].
    rewrite commit_log, loads_of_app.
    destruct (renderReact_spec e b' (f br')) as (Hother & _ & Hkeep & _).
    destruct (Nat.eq_dec b b') as [<-|Hne].
    - assert (br' = br) by congruence. subst br'.
      rewrite <- Hf in Hr. destruct (Hkeep r Hr) as (_ & -> & _). lia.
    - rewrite (Hother b Hne). lia. }
  destruct ev as [b' el|b' attrs|b' name|b'|i]; simpl.
  - now apply Hcall.
  - now apply Hcall.
  - now apply Hcall.
  - destruct (w_bridges w !! b') as [br'|]; [|reflexivity]. simpl.
    rewrite loads_of_app.
    destruct (b_root br'); unfold ReactVue.loads_of at 2; simpl; lia.
  - destruct (w_tasks w !! i) as [[b' at_]|]; [|reflexivity].
    destruct (w_bridges w !! b') as [br'|]; [|reflexivity].
    rewrite commit_log, loads_of_app.
    destruct (renderReact_resume_spec e b' br' (w_next_root w) at_) as (_ & -> & _). lia.
Qed.

(** [renderReact] called on a bridge without container: nothing happens. *)
Lemma call_without_container (w : world) (b : nat) (br : bridge)
    (f : bridge -> bridge) :
  w_bridges w !! b = Some br ->
  b_container (f br) = None ->
  ReactVue.call e w b f =
  World (<[b := f br]> (w_bridges w)) (w_tasks w) (w_log w) (w_next_root w).
Proof.
  intros Hb Hc. unfold ReactVue.call, ReactVue.renderReact, ReactVue.commit.
  rewrite Hb, Hc. simpl. now rewrite !app_nil_r, Nat.add_0_r.
Qed.

Lemma torn_down_insert (w : world) (b : nat) (br' : bridge)
    (tasks : list (nat * pc)) (log : list effect) (next : root_id) :
  torn_down b w ->
  b_container br' = None -> b_root br' = None ->
  torn_down b (World (<[b := br']> (w_bridges w)) tasks log next).
Proof.
  intros (br & Hb & _ & _) Hc Hr. exists br'. simpl.
  split; [|now split].
  apply list_lookup_insert_eq. eapply lookup_lt_Some, Hb.
Qed.

Lemma torn_down_other (w : world) (b b' : nat) (br' : bridge)
    (tasks : list (nat * pc)) (log : list effect) (next : root_id) :
  torn_down b w -> b' <> b ->
  torn_down b (World (<[b' := br']> (w_bridges w)) tasks log next).
Proof.
  intros (br & Hb & Hc & Hr) Hne. exists br. simpl.
  now rewrite list_lookup_insert_ne.
Qed.

(** A late request on a torn-down bridge leaves log and tasks alone. *)
Lemma request_torn_down (w : world) (b : nat) (ev : event) :
  torn_down b w ->
  render_request b ev = true ->
  torn_down b (ReactVue.step e w ev) /\
  w_log (ReactVue.step e w ev) = w_log w /\
  w_tasks (ReactVue.step e w ev) = w_tasks w.
Proof.
  intros Htd Hreq. pose proof Htd as (br & Hb & Hc & Hr).
  destruct ev as [b' el|b' attrs|b' name|b'|i]; try discriminate;
    simpl in Hreq; apply Nat.eqb_eq in Hreq; subst b'; simpl;
    erewrite call_without_container by (try exact Hb; exact Hc);
    (split; [now apply torn_down_insert | now split]).
Qed.

Lemma requests_torn_down (late : list event) (b : nat) :
  forall w : world,
    torn_down b w ->
    forallb (render_request b) late = true ->
    w_log (ReactVue.run e w late) = w_log w /\
    w_tasks (ReactVue.run e w late) = w_tasks w.
Proof.
  induction late as [|ev late IH]; intros w Htd Hall; simpl; [now split|].
  simpl in Hall. apply andb_true_iff in Hall as [Hev Hlate].
  destruct (request_torn_down w b ev Htd Hev) as (Htd' & Hlog & Htasks).
  destruct (IH _ Htd' Hlate) as [-> ->]. now split.
Qed.

(** The effects of a call are never calls into React. *)
Lemma renderReact_no_guest_call (b b' : nat) (br : bridge) :
  guest_calls b (ReactVue.o_effects (ReactVue.renderReact e b' br)) = [].
Proof.
  unfold ReactVue.renderReact. destruct (b_container br); [|reflexivity].
  destruct (b_registry br).
  - apply renderReact_resolve_spec.
  - unfold ReactVue.loadRegistry. now destruct (env_glob e).
Qed.

(** Resumed in a torn-down bridge, an activation neither makes a root
    nor renders, and the bridge stays torn down. *)
Lemma renderReact_resume_torn_down (b : nat) (br : bridge) (fresh : root_id) (at_ : pc) :
  b_container br = None -> b_root br = None ->
  let o := ReactVue.renderReact_resume e b br fresh at_ in
  ReactVue.o_bridge o = br /\
  forall b', guest_calls b' (ReactVue.o_effects o) = [].
Proof.
  intros Hc Hr. destruct at_ as [|c|c]; simpl.
  - destruct (renderReact_resolve_spec e b br) as (Hbr & _ & Hg & _). now split.
  - rewrite Hc. now destruct (negb (env_createRoot e)).
  - now rewrite Hr.
Qed.

(** What another bridge does is no call of bridge [b]. *)
Lemma renderReact_resume_other (b b' : nat) (br : bridge) (fresh : root_id) (at_ : pc) :
  b' <> b ->
  guest_calls b (ReactVue.o_effects (ReactVue.renderReact_resume e b' br fresh at_)) = [].
Proof.
  intros Hne. apply Nat.eqb_neq in Hne.
  destruct at_ as [|c|c]; simpl.
  - apply renderReact_resolve_spec.
  - destruct (negb (env_createRoot e)); [reflexivity|].
    destruct (b_container br); [|reflexivity].
    unfold guest_calls. simpl. now rewrite Hne.
  - destruct (b_root br); [|reflexivity].
    destruct (negb (env_createElement e)); [reflexivity|].
    unfold guest_calls. simpl. now rewrite Hne.
Qed.

Lemma step_torn_down (w : world) (b : nat) (ev : event) :
  torn_down b w ->
  mounts b ev = false ->
  torn_down b (ReactVue.step e w ev) /\
  guest_calls b (w_log (ReactVue.step e w ev)) = guest_calls b (w_log w).
Proof.
  intros Htd Hev. pose proof Htd as (br & Hb & Hc & Hr).
  assert (Hcall : forall b' f,
             (b' = b -> b_container (f br) = None /\ b_root (f br) = None) ->
             torn_down b (ReactVue.call e w b' f) /\
             guest_calls b (w_log (ReactVue.call e w b' f)) =
             guest_calls b (w_log w)).
  { intros b' f Hf. destruct (Nat.eq_dec b' b) as [->|Hne].
    - destruct (Hf eq_refl) as [Hfc Hfr].
      rewrite (call_without_container w b br f Hb Hfc).
      split; [now apply torn_down_insert | reflexivity].
    - unfold ReactVue.call.
      destruct (w_bridges w !! b') as [br'|]; [|now split].
      split; [now apply torn_down_other|].
      rewrite commit_log, guest_calls_app, renderReact_no_guest_call.
      apply app_nil_r. }
  destruct ev as [b' el|b' attrs|b' name|b'|i]; simpl.
  - apply Hcall. intros ->. simpl in Hev. now rewrite Nat.eqb_refl in Hev.
  - apply Hcall. intros _. now split.
  - apply Hcall. intros _. now split.
  - destruct (w_bridges w !! b') as [br'|] eqn:Hb'; [|now split]. simpl.
    rewrite guest_calls_app.
    assert (Hnone : guest_calls b
                      match b_root br' with
                      | Some r => [EUnmount r]
                      | None => []
                      end = []) by now destruct (b_root br').
    rewrite Hnone, app_nil_r. split; [|reflexivity].
    destruct (Nat.eq_dec b' b) as [->|Hne].
    + now apply torn_down_insert.
    + now apply torn_down_other.
  - destruct (w_tasks w !! i) as [[b' at_]|]; [|now split].
    destruct (w_bridges w !! b') as [br'|] eqn:Hb'; [|now split].
    rewrite commit_log, guest_calls_app.
    destruct (Nat.eq_dec b' b) as [->|Hne].
    + assert (br' = br) by congruence. subst br'.
      destruct (renderReact_resume_torn_down b br (w_next_root w) at_ Hc Hr) as [Hbr Hg].
      rewrite Hg, app_nil_r. split; [|reflexivity].
      unfold ReactVue.commit. rewrite Hbr. now apply torn_down_insert.
    + rewrite (renderReact_resume_other b b' br' _ _ Hne), app_nil_r.
      split; [|reflexivity]. now apply torn_down_other.
Qed.

Lemma run_torn_down (evs : list event) (b : nat) :
  forall w : world,
    torn_down b w ->
    forallb (fun ev => negb (mounts b ev)) evs = true ->
    guest_calls b (w_log (ReactVue.run e w evs)) = guest_calls b (w_log w).
Proof.
  induction evs as [|ev evs IH]; intros w Htd Hall; simpl; [reflexivity|].
  simpl in Hall. apply andb_true_iff in Hall as [Hev Hevs].
  apply negb_true_iff in Hev.
  destruct (step_torn_down w b ev Htd Hev) as [Htd' Hg].
  now rewrite (IH _ Htd' Hevs).
Qed.

End BridgeRuns.

(** ** The bridge: loads, unknown names, destruction *)

(** C3, counterexample.  Loads are not shared between bridges: while the
    activation of the first bridge waits at [await loadRegistry()],
    mounting a second bridge starts a second load, and two activations
    wait for a load. *)
Lemma second_bridge_loads_again :
  let w1 := ReactVue.step scenario_env (ReactVue.boot two_bridges) (Mount 0 10) in
  let w2 := ReactVue.step scenario_env w1 (Mount 1 11) in
  w_tasks w1 = [(0, AfterLoad)] /\
  w_log w1 = [ELoad 0] /\
  w_log w2 = [ELoad 0; ELoad 1] /\
  w_tasks w2 = [(0, AfterLoad); (1, AfterLoad)].
Proof. repeat split. Qed.

(** C3, amended.  In every run, each bridge starts at most one load of the
    registry; and while an activation of a bridge waits for that load, no
    event whatever (a second mount, a change of attributes or of name)
    makes this bridge start another: [loadRegistry] has assigned
    [registry] before it returns. *)
Theorem one_load_per_bridge (e : env) (bridges : list bridge)
    (evs : list event) (b : nat) (ev : event) :
  let w := ReactVue.run e (ReactVue.boot bridges) evs in
  ReactVue.loads_of b (w_log w) <= 1 /\
  ((b, AfterLoad) ∈ w_tasks w ->
   ReactVue.loads_of b (w_log (ReactVue.step e w ev)) =
   ReactVue.loads_of b (w_log w)).
Proof.
  intros w.
  destruct (run_load_inv e evs _ (boot_load_inv bridges)) as (I1 & _ & I3).
  split; [apply I1|].
  intros Hin. destruct (I3 b Hin) as (br & r & Hb & Hr).
  now apply (step_loads_same e _ ev b br r).
Qed.

Lemma one_load_per_bridge_witness :
  let w := ReactVue.run scenario_env (ReactVue.boot two_bridges) [Mount 0 10] in
  (0, AfterLoad) ∈ w_tasks w /\
  ReactVue.loads_of 0 (w_log (ReactVue.step scenario_env w
                                (AttrsChanged 0 [("initial", VNum 1)]))) = 1.
Proof.
  intros w.
  assert (Hin : (0, AfterLoad) ∈ w_tasks w) by (apply list_elem_of_singleton; reflexivity).
  split; [exact Hin|].
  exact (eq_trans
           (proj2 (one_load_per_bridge scenario_env two_bridges [Mount 0 10] 0
                     (AttrsChanged 0 [("initial", VNum 1)])) Hin)
           eq_refl).
Defined.

(** In the other version of the file the guard [if (!registry)] does not
    see a load that is awaited: two requests before the import settles
    call [loadRegistry] twice, on one and the same bridge. *)
Lemma explicit_map_loads_twice :
  ExplicitMap.run (ExplicitMap.State None 0 0)
                  [ExplicitMap.Request; ExplicitMap.Request]
  = ExplicitMap.State None 2 2.
Proof. reflexivity. Qed.

(** C6.  A name that [Object.prototype] knows is not unknown to the
    lookup of line 49: with [Counter] and [Card] the only registered
    names, [is="constructor"] is looked up in the registry object, found
    on its prototype, and rendered: no warning, a root is made, [render]
    is called. *)
Theorem inherited_name_is_rendered :
  let w := ReactVue.run scenario_env
             (ReactVue.boot [ReactVue.fresh_bridge "constructor" []])
             [Mount 0 10; Resume 0; Resume 0; Resume 0] in
  (b_registry <$> w_bridges w !! 0)
    = Some (Some (Registry [("Counter", VObject 7); ("Card", VObject 8)] None)) /\
  w_log w = [ELoad 0; ECreateRoot 0 10 0;
             ERender 0 0 (Builtin "constructor") []] /\
  w_tasks w = [].
Proof. repeat split. Qed.

(** The same deck with a name that resolves to nothing: one warning that
    lists the registered names, no root; and when the name then changes
    to a registered one, the bridge makes its root and renders. *)
Lemma unknown_name_on_scenario :
  let w := ReactVue.run scenario_env
             (ReactVue.boot [ReactVue.fresh_bridge "Nope" []])
             [Mount 0 10; Resume 0] in
  let w' := ReactVue.run scenario_env w
              [NameChanged 0 "Card"; Resume 0; Resume 0] in
  w_log w = [ELoad 0;
             EConsoleWarn ("[slidev-addon-react] Component " ++ ReactVue.dquote
                           ++ "Nope" ++ ReactVue.dquote
                           ++ " not found. Available: Counter, Card")] /\
  w_tasks w = [] /\
  (b_root <$> w_bridges w !! 0) = Some None /\
  w_log w' = (w_log w ++ [ECreateRoot 0 10 0;
                          ERender 0 0 (Exported (VObject 8)) []])%list.
Proof. repeat split. Qed.

(** A name the registry object does not resolve, neither as an own nor
    as an inherited property: one warning that lists the registered
    names, no suspension, no root, no variable changed. *)
Lemma unresolved_name_warns (e : env) (b : nat) (br : bridge) (r : registry) :
  b_registry br = Some r ->
  Reg.found (Reg.get (env_heap e) r (b_is br)) = false ->
  ReactVue.renderReact_resolve e b br =
  ReactVue.Outcome br
    [EConsoleWarn ("[slidev-addon-react] Component " ++ ReactVue.dquote ++
                   b_is br ++ ReactVue.dquote ++ " not found. Available: " ++
                   JsString.join ", " (Reg.keys r))]
    None 0.
Proof.
  intros Hr Hfound. unfold ReactVue.renderReact_resolve, ReactVue.not_found_message.
  now rewrite Hr, Hfound.
Qed.

(** C7.  [Destroy] unmounts the root, if there is one, and clears the
    variable; render requests that arrive afterwards add nothing to the
    log (no render, no error) and suspend nothing; and as long as the host
    does not mount the node again, whatever happens afterwards, pending
    activations included, this bridge makes no root and asks for no
    render. *)
Theorem destroy_discards_requests (e : env) (w : world) (b : nat)
    (br : bridge) :
  w_bridges w !! b = Some br ->
  let w1 := ReactVue.step e w (Destroy b) in
  w_log w1 = (w_log w ++ match b_root br with
                         | Some r => [EUnmount r]
                         | None => []
                         end)%list /\
  (exists br1, w_bridges w1 !! b = Some br1 /\ b_root br1 = None) /\
  (forall late : list event,
      forallb (render_request b) late = true ->
      w_log (ReactVue.run e w1 late) = w_log w1 /\
      w_tasks (ReactVue.run e w1 late) = w_tasks w1) /\
  (forall evs : list event,
      forallb (fun ev => negb (mounts b ev)) evs = true ->
      guest_calls b (w_log (ReactVue.run e w1 evs)) = guest_calls b (w_log w1)).
Proof.
  intros Hb w1.
  assert (Hlt : b < length (w_bridges w)) by (eapply lookup_lt_Some, Hb).
  assert (Htd : torn_down b w1).
  { exists (ReactVue.set_root (ReactVue.set_container br None) None).
    unfold w1. simpl. rewrite Hb. simpl.
    split; [now apply list_lookup_insert_eq | now split]. }
  split; [unfold w1; simpl; now rewrite Hb|].
  split; [destruct Htd as (br1 & H1 & _ & H2); eauto|].
  split.
  - intros late Hlate. now apply (requests_torn_down e late b).
  - intros evs Hevs. now apply run_torn_down.
Qed.

Lemma destroy_discards_requests_witness :
  let w1 := ReactVue.step scenario_env counter_rendered (Destroy 0) in
  let late := [AttrsChanged 0 [("initial", VNum 5)]; NameChanged 0 "Card"] in
  w_log w1 = [ELoad 0; ECreateRoot 0 10 0;
              ERender 0 0 (Exported (VObject 7)) [("initial", VNum 0)];
              EUnmount 0] /\
  w_log (ReactVue.run scenario_env w1 late) = w_log w1 /\
  w_tasks (ReactVue.run scenario_env w1 late) = w_tasks w1.
Proof.
  intros w1 late.
  destruct (destroy_discards_requests scenario_env counter_rendered 0
              (Bridge "Counter" [("initial", VNum 0)] (Some 10) (Some 0)
                 (Some (Registry [("Counter", VObject 7); ("Card", VObject 8)]
                          None)))
              eq_refl)
    as (Hlog & _ & Hlate & _).
  split; [exact Hlog | exact (Hlate late eq_refl)].
Defined.

(** An activation that was suspended when its bridge was destroyed does
    not render either: resumed, it fails on [root.render], [root] being
    [null]. *)
Lemma pending_render_fails_after_destroy :
  w_log (ReactVue.run scenario_env
           (ReactVue.boot [ReactVue.fresh_bridge "Counter" []])
           [Mount 0 10; Resume 0; Resume 0; Destroy 0; Resume 0])
  = [ELoad 0; ECreateRoot 0 10 0; EUnmount 0;
     EThrow 0 "Cannot read properties of null (reading 'render')"].
Proof. reflexivity. Qed.

(** ** The transform hook on some paths *)

Lemma transform_examples
    (esbuild_transform : string -> Transform.options ->
                         Transform.esbuild_result + string)
    (code : string) :
  Transform.transform esbuild_transform code "/deck/src/App.vue"
    = Transform.Skip /\
  Transform.transform esbuild_transform code "/deck/react-components/util.ts"
    = Transform.Skip /\
  Transform.transform esbuild_transform code "/deck/components/Button.jsx"
    = Transform.Skip /\
  Transform.transform esbuild_transform code "/deck/react-components/Card.tsx"
    = match esbuild_transform code
              (Transform.Options Transform.LoaderTsx "automatic" "react") with
      | inl result =>
          Transform.Emit (Transform.res_code result) (Transform.res_map result)
      | inr err => Transform.Reject err
      end.
Proof. repeat split. Qed.

(** * Further properties *)

(** ** Loops that write [cleanProps[key]] *)

Section Loops.

(** A turn of the loop writes [g key] under [key], or nothing. *)
Variable step : bag -> string -> bag.
Variable g : string -> option value.
Hypothesis step_writes :
  forall (acc : bag) (key : string),
    step acc key = match g key with
                   | Some v => Js.set acc key v
                   | None => acc
                   end.

Lemma loop_lookup (k : string) :
  forall (ks : list string) (acc : bag),
    Js.lookup (fold_left step ks acc) k =
    if existsb (String.eqb k) ks
    then match g k with
         | Some v => Some v
         | None => Js.lookup acc k
         end
    else Js.lookup acc k.
Proof.
  induction ks as [|key ks IH]; intros acc; simpl; [reflexivity|].
  rewrite IH, step_writes.
  destruct (String.eqb k key) eqn:E; simpl.
  - apply String.eqb_eq in E. subst key.
    destruct (g k) as [v|]; [rewrite lookup_set, String.eqb_refl|];
      now destruct (existsb (String.eqb k) ks).
  - destruct (g key) as [v|]; [|reflexivity].
    rewrite lookup_set, (String.eqb_sym key k), E. reflexivity.
Qed.

Lemma set_fresh (o : bag) (k : string) (v : value) :
  ~ In k (Js.keys o) -> Js.set o k v = (o ++ [(k, v)])%list.
Proof.
  induction o as [|[k0 w] o IH]; simpl; [reflexivity|].
  intros Hn. destruct (String.eqb k0 k) eqn:E.
  - apply String.eqb_eq in E. tauto.
  - rewrite IH by tauto. reflexivity.
Qed.

Lemma loop_shape :
  forall (ks : list string) (acc : bag),
    NoDup ks ->
    (forall k, In k ks -> ~ In k (Js.keys acc)) ->
    fold_left step ks acc =
    (acc ++ omap (fun k => pair k <$> g k) ks)%list.
Proof.
  induction ks as [|key ks IH]; intros acc Hnd Hfresh; simpl.
  - now rewrite app_nil_r.
  - apply NoDup_cons in Hnd as [Hkey Hnd].
    rewrite step_writes. destruct (g key) as [v|]; simpl.
    + rewrite set_fresh by (apply Hfresh; now left).
      rewrite IH; [now rewrite <- app_assoc|exact Hnd|].
      intros k Hk. unfold Js.keys. rewrite map_app, in_app_iff. simpl.
      intros [Hin|[->|[]]].
      * apply (Hfresh k); [now right|exact Hin].
      * apply Hkey, list_elem_of_In, Hk.
    + apply IH; [exact Hnd|]. intros k Hk. apply Hfresh. now right.
Qed.

Lemma loop_keys_NoDup :
  forall (ks : list string) (acc : bag),
    NoDup (Js.keys acc) -> NoDup (Js.keys (fold_left step ks acc)).
Proof.
  assert (Hset : forall (o : bag) (k : string) (v : value),
             NoDup (Js.keys o) -> NoDup (Js.keys (Js.set o k v))).
  { induction o as [|[k0 w] o IHo]; intros k v Hnd; simpl.
    - apply NoDup_cons. split; [apply not_elem_of_nil|apply NoDup_nil_2].
    - destruct (String.eqb k0 k) eqn:E; simpl; [exact Hnd|].
      simpl in Hnd. apply NoDup_cons in Hnd as [Hk0 Hnd].
      apply NoDup_cons. split; [|now apply IHo].
      rewrite list_elem_of_In, keys_set. intros [->|Hin].
      + now rewrite String.eqb_refl in E.
      + apply Hk0, list_elem_of_In, Hin. }
  induction ks as [|key ks IH]; intros acc Hnd; simpl; [exact Hnd|].
  apply IH. rewrite step_writes. destruct (g key); [now apply Hset|exact Hnd].
Qed.

End Loops.

(** ** The sanitizer: shape, order, repetition *)

Section SanitizerShape.

Variable h : heap.

Lemma filterProps_step_writes (attrs acc : bag) (key : string) :
  filterProps_step h attrs acc key =
  match (if skipped_key key then None
         else if isVNode h (Js.get attrs key) then None
              else Some (unwrap h (Js.get attrs key))) with
  | Some v => Js.set acc key v
  | None => acc
  end.
Proof.
  unfold filterProps_step, unwrap.
  destruct (skipped_key key); [reflexivity|].
  now destruct (isVNode h (Js.get attrs key)).
Qed.

Lemma In_lookup (o : bag) (k : string) (v : value) :
  NoDup (Js.keys o) -> In (k, v) o -> Js.lookup o k = Some v.
Proof.
  induction o as [|[k0 w] o IH]; simpl; [tauto|].
  intros Hnd. apply NoDup_cons in Hnd as [Hk0 Hnd]. intros [[= -> ->]|Hin].
  - now rewrite String.eqb_refl.
  - destruct (String.eqb k0 k) eqn:E; [|now apply IH].
    apply String.eqb_eq in E. subst k0. exfalso. apply Hk0.
    apply list_elem_of_In. change k with (fst (k, v)). now apply in_map.
Qed.

Lemma lookup_In (o : bag) (k : string) (v : value) :
  Js.lookup o k = Some v -> In (k, v) o.
Proof.
  induction o as [|[k0 w] o IH]; simpl; [discriminate|].
  destruct (String.eqb k0 k) eqn:E.
  - apply String.eqb_eq in E. intros [= ->]. subst. now left.
  - intros Hl. right. now apply IH.
Qed.

Lemma omap_cons_list {A B : Type} (f : A -> option B) (x : A) (l : list A) :
  omap f (x :: l) = match f x with
                    | Some y => y :: omap f l
                    | None => omap f l
                    end.
Proof. reflexivity. Qed.

Lemma omap_kept (attrs : bag) :
  forall rest : bag,
    (forall k v, In (k, v) rest -> Js.get attrs k = v) ->
    omap (fun k => pair k <$>
                   (if skipped_key k then None
                    else if isVNode h (Js.get attrs k) then None
                         else Some (unwrap h (Js.get attrs k))))
         (Js.keys rest)
    = kept h rest.
Proof.
  induction rest as [|[k v] rest IH]; intros Hget; [reflexivity|].
  change (Js.keys ((k, v) :: rest)) with (k :: Js.keys rest).
  rewrite omap_cons_list, IH by (intros k' v' Hin; apply Hget; now right).
  rewrite (Hget k v) by now left.
  cbn [kept]. destruct (skipped_key k); [reflexivity|].
  now destruct (isVNode h v).
Qed.

Lemma filterProps_kept (attrs : bag) :
  NoDup (Js.keys attrs) -> filterProps h attrs = kept h attrs.
Proof.
  intros Hnd. unfold filterProps.
  rewrite (loop_shape _ _ (filterProps_step_writes attrs)).
  - simpl. apply omap_kept. intros k v Hin.
    now apply get_lookup, In_lookup.
  - exact Hnd.
  - intros k _ [].
Qed.

Lemma filterProps_NoDup (attrs : bag) :
  NoDup (Js.keys (filterProps h attrs)).
Proof.
  apply (loop_keys_NoDup _ _ (filterProps_step_writes attrs)).
  apply NoDup_nil_2.
Qed.

Lemma filterProps_keys_incl (attrs : bag) :
  incl (Js.keys (filterProps h attrs)) (Js.keys attrs).
Proof.
  intros k Hin. apply filterProps_keys in Hin as [v Hv].
  unfold sanitized in Hv. destruct (skipped_key k); [discriminate|].
  destruct (Js.lookup attrs k) as [v0|] eqn:E; [|discriminate].
  eapply lookup_Some_keys, E.
Qed.

Lemma kept_Permutation (a a' : bag) :
  Permutation a a' -> Permutation (kept h a) (kept h a').
Proof.
  induction 1 as [|[k v] a a' _ IH|[k1 v1] [k2 v2] a|a1 a2 a3 _ IH1 _ IH2];
    simpl.
  - constructor.
  - destruct (skipped_key k || isVNode h v); [exact IH|now constructor].
  - destruct (skipped_key k1 || isVNode h v1),
             (skipped_key k2 || isVNode h v2);
      try reflexivity. apply perm_swap.
  - now transitivity (kept h a2).
Qed.

Lemma kept_fixed (o : bag) :
  Forall (fun kv => skipped_key kv.1 = false /\ isVNode h kv.2 = false /\
                    unwrap h kv.2 = kv.2) o ->
  kept h o = o.
Proof.
  induction 1 as [|[k v] o (Hk & Hv & Hu) _ IH]; [reflexivity|].
  simpl in *. now rewrite Hk, Hv, Hu, IH.
Qed.

End SanitizerShape.

(** X1.  On a bag without repeated keys the sanitizer is a map over the
    entries: those whose key is skipped or whose value is a VNode are left
    out, the others follow in the order of the bag, each with its value
    unwrapped. *)
Theorem filterProps_is_kept (h : heap) (attrs : bag) :
  NoDup (Js.keys attrs) -> filterProps h attrs = kept h attrs.
Proof. apply filterProps_kept. Qed.

Lemma filterProps_is_kept_witness :
  NoDup (Js.keys scenario_attrs) /\
  filterProps scenario_heap scenario_attrs = kept scenario_heap scenario_attrs.
Proof.
  assert (Hnd : NoDup (Js.keys scenario_attrs))
    by (apply (bool_decide_unpack _); vm_compute; reflexivity).
  split; [exact Hnd | exact (filterProps_is_kept _ _ Hnd)].
Defined.

(** X2.  Whatever the bag, the output has no key twice, every key of the
    output is a key of the input, and the output is no longer than the
    input. *)
Theorem filterProps_keys_from_input (h : heap) (attrs : bag) :
  NoDup (Js.keys (filterProps h attrs)) /\
  incl (Js.keys (filterProps h attrs)) (Js.keys attrs) /\
  length (filterProps h attrs) <= length attrs.
Proof.
  pose proof (filterProps_NoDup h attrs) as Hnd.
  pose proof (filterProps_keys_incl h attrs) as Hincl.
  split; [exact Hnd|]. split; [exact Hincl|].
  apply NoDup_ListNoDup in Hnd.
  pose proof (List.NoDup_incl_length Hnd Hincl) as Hlen.
  unfold Js.keys in Hlen. now rewrite !List.length_map in Hlen.
Qed.

(** X3.  The order in which the keys of a bag are enumerated does not
    matter: two bags with the same entries in another order (and no key
    twice) are sanitized to the same entries. *)
Theorem filterProps_order_irrelevant (h : heap) (attrs attrs' : bag) :
  NoDup (Js.keys attrs) ->
  Permutation attrs attrs' ->
  Permutation (filterProps h attrs) (filterProps h attrs') /\
  forall key : string,
    Js.lookup (filterProps h attrs) key = Js.lookup (filterProps h attrs') key.
Proof.
  intros Hnd Hperm.
  assert (Hnd' : NoDup (Js.keys attrs')).
  { unfold Js.keys. rewrite <- Hperm. exact Hnd. }
  assert (Hout : Permutation (filterProps h attrs) (filterProps h attrs')).
  { rewrite (filterProps_kept h _ Hnd), (filterProps_kept h _ Hnd').
    now apply kept_Permutation. }
  split; [exact Hout|].
  intros key.
  destruct (Js.lookup (filterProps h attrs) key) as [v|] eqn:E.
  - symmetry. apply In_lookup; [apply filterProps_NoDup|].
    apply lookup_In in E. apply list_elem_of_In.
    rewrite <- Hout. now apply list_elem_of_In.
  - destruct (Js.lookup (filterProps h attrs') key) as [v'|] eqn:E';
      [|reflexivity].
    apply lookup_In, list_elem_of_In in E'. rewrite <- Hout in E'.
    apply list_elem_of_In, In_lookup in E'; [|apply filterProps_NoDup].
    congruence.
Qed.

Lemma filterProps_order_irrelevant_witness :
  let attrs := [("title", VStr "Hello"); ("config", VObject 2)] in
  let attrs' := [("config", VObject 2); ("title", VStr "Hello")] in
  NoDup (Js.keys attrs) /\ Permutation attrs attrs' /\
  Js.lookup (filterProps scenario_heap attrs) "config"
    = Js.lookup (filterProps scenario_heap attrs') "config".
Proof.
  intros attrs attrs'.
  assert (Hnd : NoDup (Js.keys attrs))
    by (apply (bool_decide_unpack _); vm_compute; reflexivity).
  assert (Hperm : Permutation attrs attrs') by apply perm_swap.
  split; [exact Hnd|]. split; [exact Hperm|].
  exact (proj2 (filterProps_order_irrelevant scenario_heap attrs attrs'
                  Hnd Hperm) "config").
Defined.

(** X4.  Sanitizing twice changes nothing when no value of the bag is a
    ref or reactive to Vue: the output of the sanitizer is then sanitized
    to itself. *)
Theorem filterProps_idempotent_on_plain (h : heap) (attrs : bag) :
  Forall (fun kv => Vue.isRef h kv.2 = false /\
                    Vue.isReactive h kv.2 = false) attrs ->
  filterProps h (filterProps h attrs) = filterProps h attrs.
Proof.
  intros Hplain.
  rewrite (filterProps_kept h (filterProps h attrs)) by apply filterProps_NoDup.
  apply kept_fixed, List.Forall_forall. intros [k v] Hin. simpl.
  apply In_lookup in Hin; [|apply filterProps_NoDup].
  rewrite filterProps_lookup in Hin. unfold sanitized in Hin.
  destruct (skipped_key k); [discriminate|].
  destruct (Js.lookup attrs k) as [v0|] eqn:E; [|discriminate].
  destruct (isVNode h v0) eqn:Hv; [discriminate|].
  assert (Hp : Vue.isRef h v0 = false /\ Vue.isReactive h v0 = false).
  { apply lookup_In in E.
    apply (proj1 (List.Forall_forall _ _) Hplain (k, v0) E). }
  destruct Hp as [Href Hre].
  rewrite (unwrap_untouched h v0 Href Hre) in Hin. injection Hin as <-.
  split; [reflexivity|]. split; [exact Hv|now apply unwrap_untouched].
Qed.

Lemma filterProps_idempotent_on_plain_witness :
  Forall (fun kv => Vue.isRef scenario_heap kv.2 = false /\
                    Vue.isReactive scenario_heap kv.2 = false)
         scenario_attrs /\
  filterProps scenario_heap (filterProps scenario_heap scenario_attrs)
    = filterProps scenario_heap scenario_attrs.
Proof.
  assert (Hplain : Forall (fun kv => Vue.isRef scenario_heap kv.2 = false /\
                                     Vue.isReactive scenario_heap kv.2 = false)
                          scenario_attrs)
    by (repeat constructor).
  split; [exact Hplain | exact (filterProps_idempotent_on_plain _ _ Hplain)].
Defined.

(** X5.  The VNode test comes before the unwrapping, on the value as the
    bag holds it: a VNode that sits in a ref (and is not reactive to Vue)
    is not left out, it is what the output holds, so that sanitizing the
    output once more would drop it. *)
Theorem filterProps_vnode_in_ref (h : heap) (attrs : bag) (key : string)
    (r n : loc) (cls : jsclass) (props : bag) (marker : value) :
  skipped_key key = false ->
  Js.lookup attrs key = Some (VObject r) ->
  h !! r = Some (CRef (VObject n)) ->
  h !! n = Some (CObject cls props) ->
  cls <> ClsFunction ->
  Js.lookup props "__v_isVNode" = Some marker ->
  Js.truthy marker = true ->
  Vue.isReactive h (VObject n) = false ->
  Js.lookup (filterProps h attrs) key = Some (VObject n) /\
  isVNode h (VObject n) = true /\
  Js.lookup (filterProps h (filterProps h attrs)) key = None.
Proof.
  intros Hkey Hattr Hr Hn Hcls Hmark Htruthy Hnot.
  assert (Hv : isVNode h (VObject n) = true).
  { rewrite (isVNode_object _ _ _ _ Hn). unfold Js.has, Js.get.
    rewrite Hmark. simpl. rewrite Htruthy.
    destruct cls; try reflexivity. now destruct Hcls. }
  assert (Hout : Js.lookup (filterProps h attrs) key = Some (VObject n)).
  { rewrite filterProps_lookup. unfold sanitized.
    rewrite Hkey, Hattr, (isVNode_ref _ _ _ Hr), (unwrap_ref _ _ _ Hr).
    now rewrite Hnot. }
  split; [exact Hout|]. split; [exact Hv|].
  rewrite filterProps_lookup. unfold sanitized. now rewrite Hkey, Hout, Hv.
Qed.

Lemma filterProps_vnode_in_ref_witness :
  Js.lookup (filterProps wrapped_heap [("slot", VObject 5)]) "slot"
    = Some (VObject 1) /\
  isVNode wrapped_heap (VObject 1) = true.
Proof.
  destruct (filterProps_vnode_in_ref wrapped_heap [("slot", VObject 5)] "slot"
              5 1 ClsPlain
              [("__v_isVNode", VBool true); ("type", VStr "div")] (VBool true))
    as (Hout & Hv & _); try reflexivity; try discriminate.
  now split.
Defined.

(** Through a proxy of an ordinary object that is no collection, a key
    that is neither a flag nor handed on as it is reads as the object has
    it, when what it has there is a primitive. *)
Lemma get_prop_proxy_VNode (h : heap) (p raw : loc) (kind : proxy_kind)
    (cls : jsclass) (props : bag) (v : value) :
  h !! p = Some (CProxy kind raw) ->
  h !! raw = Some (CObject cls props) ->
  Js.get props "__v_isVNode" = v ->
  (forall l, v <> VObject l) ->
  Js.get_prop h (VObject p) "__v_isVNode" = v.
Proof.
  intros Hp Hraw Hget Hprim. unfold Js.get_prop.
  destruct (fuel_pos _ _ _ Hp) as [k ->]. cbn [Js.get_upto]. rewrite Hp.
  cbn [String.eqb Ascii.eqb Bool.eqb].
  rewrite (get_upto_object _ _ _ _ _ _ Hraw), Hget.
  rewrite (get_upto_primitive _ _ _ _ Hprim).
  destruct (Js.collection_behind k h raw); [reflexivity|].
  unfold Js.untracked. cbn [String.eqb Ascii.eqb Bool.eqb orb].
  reflexivity.
Qed.

Lemma isReactive_upto_not_readonly (n : nat) (h : heap) (v : value) :
  Vue.isReadonly h v = false ->
  Vue.isReactive_upto n h v
  = Js.truthy v && Js.truthy (Js.get_prop h v "__v_isReactive").
Proof. intros Hro. destruct n; simpl; now rewrite Hro. Qed.

(** A readonly proxy of a plain object is not reactive. *)
Lemma isReactive_readonly_proxy (h : heap) (p raw : loc) :
  h !! p = Some (CProxy Readonly raw) ->
  is_plain h (VObject raw) = true ->
  Vue.isReactive h (VObject p) = false.
Proof.
  intros Hp Hplain. destruct (get_prop_flags _ _ _ _ Hp) as (_ & Hro & Hraw).
  unfold Vue.isReactive. destruct (size_pos _ _ _ Hp) as [k ->].
  simpl. unfold Vue.isReadonly at 1. rewrite Hro, Hraw. simpl.
  rewrite isReactive_upto_not_readonly by (now apply plain_not_readonly).
  destruct (plain_fields _ _ Hplain) as (cls & props & Hl & _ & _ & H3 & _).
  rewrite (get_prop_object _ _ _ _ _ Hl). now rewrite H3.
Qed.

(** X6.  Proxies: a [readonly] proxy of a plain object (one that carries
    neither the VNode marker nor a marker field of Vue's refs and
    proxies) is handed over as the proxy it is, not as its target; and a
    proxy, of either kind, whose target carries [__v_isVNode: true] is
    left out like the VNode itself. *)
Theorem filterProps_proxies (h : heap) (attrs : bag) :
  (forall (key : string) (p raw : loc) (cls : jsclass) (props : bag),
      skipped_key key = false ->
      Js.lookup attrs key = Some (VObject p) ->
      h !! p = Some (CProxy Readonly raw) ->
      h !! raw = Some (CObject cls props) ->
      unmarked props = true ->
      Js.lookup props "__v_isVNode" = None ->
      Js.lookup (filterProps h attrs) key = Some (VObject p)) /\
  (forall (key : string) (p raw : loc) (kind : proxy_kind) (cls : jsclass)
          (props : bag),
      Js.lookup attrs key = Some (VObject p) ->
      h !! p = Some (CProxy kind raw) ->
      h !! raw = Some (CObject cls props) ->
      Js.lookup props "__v_isVNode" = Some (VBool true) ->
      Js.lookup (filterProps h attrs) key = None).
Proof.
  split.
  - intros key p raw cls props Hkey Hattr Hp Hraw Hun Hmark.
    assert (Hplain : is_plain h (VObject raw) = true)
      by (unfold is_plain; now rewrite Hraw).
    rewrite filterProps_lookup. unfold sanitized. rewrite Hkey, Hattr.
    assert (Hv : isVNode h (VObject p) = false).
    { unfold isVNode, Js.has_prop.
      rewrite (visible_proxy _ _ _ _ _ _ Hp Hraw). unfold Js.has.
      rewrite Hmark. simpl. now rewrite andb_false_r. }
    rewrite Hv. apply f_equal, unwrap_untouched.
    + exact (isRef_proxy _ _ _ _ Hp Hplain).
    + exact (isReactive_readonly_proxy _ _ _ Hp Hplain).
  - intros key p raw kind cls props Hattr Hp Hraw Hmark.
    rewrite filterProps_lookup. unfold sanitized.
    destruct (skipped_key key); [reflexivity|]. rewrite Hattr.
    assert (Hv : isVNode h (VObject p) = true).
    { unfold isVNode, Js.has_prop.
      rewrite (visible_proxy _ _ _ _ _ _ Hp Hraw).
      rewrite (get_prop_proxy_VNode _ _ _ _ _ _ (VBool true) Hp Hraw);
        [|unfold Js.get; now rewrite Hmark|discriminate].
      unfold Js.has. rewrite Hmark. simpl. now rewrite Hp. }
    now rewrite Hv.
Qed.

Lemma filterProps_proxies_witness :
  let attrs := [("settings", VObject 6); ("node", VObject 7)] in
  Js.lookup (filterProps wrapped_heap attrs) "settings" = Some (VObject 6) /\
  Js.lookup (filterProps wrapped_heap attrs) "node" = None.
Proof.
  intros attrs.
  destruct (filterProps_proxies wrapped_heap attrs) as [Hreadonly Hmarked].
  split.
  - exact (Hreadonly "settings" 6 2 ClsPlain [("theme", VStr "dark")]
             eq_refl eq_refl eq_refl eq_refl eq_refl eq_refl).
  - exact (Hmarked "node" 7 1 Reactive ClsPlain
             [("__v_isVNode", VBool true); ("type", VStr "div")]
             eq_refl eq_refl eq_refl eq_refl).
Defined.

(** ** The sanitizer beside the other loops *)

Section OtherLoops.

Variable h : heap.

Lemma cleanProps_step_writes (attrs acc : bag) (key : string) :
  ReactVue.cleanProps_step attrs acc key =
  match (if skipped_key key then None else Some (Js.get attrs key)) with
  | Some v => Js.set acc key v
  | None => acc
  end.
Proof. unfold ReactVue.cleanProps_step. now destruct (skipped_key key). Qed.

Lemma filterPropsOld_step_writes (attrs acc : bag) (key : string) :
  PropFilteringTest.filterPropsOld_step h attrs acc key =
  match (if skipped_key key then None
         else if negb (Js.typeof_object h (Js.get attrs key)) ||
                 Js.value_eqb (Js.get attrs key) VNull
              then Some (Js.get attrs key) else None) with
  | Some v => Js.set acc key v
  | None => acc
  end.
Proof.
  unfold PropFilteringTest.filterPropsOld_step.
  destruct (skipped_key key); [reflexivity|].
  now destruct (negb (Js.typeof_object h (Js.get attrs key)) ||
                Js.value_eqb (Js.get attrs key) VNull).
Qed.

Lemma test_filterProps_step_writes (attrs acc : bag) (key : string) :
  PropFilteringTest.filterProps_step h attrs acc key =
  match (if skipped_key key then None
         else if isVNode h (Js.get attrs key) then None
              else Some (Js.get attrs key)) with
  | Some v => Js.set acc key v
  | None => acc
  end.
Proof.
  unfold PropFilteringTest.filterProps_step.
  destruct (skipped_key key); [reflexivity|].
  now destruct (isVNode h (Js.get attrs key)).
Qed.

Lemma existsb_keys (attrs : bag) (k : string) :
  existsb (String.eqb k) (Js.keys attrs) =
  match Js.lookup attrs k with Some _ => true | None => false end.
Proof.
  induction attrs as [|[k0 v] attrs IH]; simpl; [reflexivity|].
  rewrite (String.eqb_sym k k0). now destruct (String.eqb k0 k).
Qed.

Lemma cleanProps_lookup (attrs : bag) (k : string) :
  Js.lookup (ReactVue.cleanProps attrs) k =
  if skipped_key k then None else Js.lookup attrs k.
Proof.
  unfold ReactVue.cleanProps.
  rewrite (loop_lookup _ _ (cleanProps_step_writes attrs)), existsb_keys.
  unfold Js.get. simpl.
  destruct (Js.lookup attrs k); now destruct (skipped_key k).
Qed.

Lemma filterPropsOld_lookup (attrs : bag) (k : string) :
  Js.lookup (PropFilteringTest.filterPropsOld h attrs) k =
  if skipped_key k then None
  else match Js.lookup attrs k with
       | Some v =>
           if negb (Js.typeof_object h v) || Js.value_eqb v VNull
           then Some v else None
       | None => None
       end.
Proof.
  unfold PropFilteringTest.filterPropsOld.
  rewrite (loop_lookup _ _ (filterPropsOld_step_writes attrs)), existsb_keys.
  unfold Js.get. simpl.
  destruct (Js.lookup attrs k) as [v|]; simpl;
    destruct (skipped_key k); try reflexivity.
  now destruct (negb (Js.typeof_object h v) || Js.value_eqb v VNull).
Qed.

Lemma test_filterProps_lookup (attrs : bag) (k : string) :
  Js.lookup (PropFilteringTest.filterProps h attrs) k =
  if skipped_key k then None
  else match Js.lookup attrs k with
       | Some v => if isVNode h v then None else Some v
       | None => None
       end.
Proof.
  unfold PropFilteringTest.filterProps.
  rewrite (loop_lookup _ _ (test_filterProps_step_writes attrs)), existsb_keys.
  unfold Js.get. simpl.
  destruct (Js.lookup attrs k) as [v|]; simpl;
    destruct (skipped_key k); try reflexivity.
  now destruct (isVNode h v).
Qed.

(** A value that is not an object, or is [null], is no VNode. *)
Lemma primitive_not_VNode (v : value) :
  negb (Js.typeof_object h v) || Js.value_eqb v VNull = true ->
  isVNode h v = false.
Proof.
  intros Hprim.
  destruct v as [| | | | | | |l]; try reflexivity.
  simpl in Hprim. rewrite orb_false_r in Hprim.
  apply negb_true_iff in Hprim.
  unfold isVNode. simpl. now rewrite Hprim.
Qed.

Lemma fold_left_ext_in {A B : Type} (f f' : A -> B -> A) (l : list B) :
  (forall a b, In b l -> f a b = f' a b) ->
  forall a, fold_left f l a = fold_left f' l a.
Proof.
  induction l as [|b l IH]; intros Hext a; [reflexivity|]. simpl.
  rewrite (Hext a b) by now left.
  apply IH. intros a' b' Hin. apply Hext. now right.
Qed.

End OtherLoops.

(** X7.  Whatever key the loop of "before the fix" hands over (the old
    [React.vue], [filterPropsOld] of the tests), [filterProps] hands over
    too: the fix took no key away.  The value is the same when it is a
    primitive, and when it is a function that is neither a ref nor
    reactive to Vue; in general it is the value as lines 31-39 unwrap
    it. *)
Theorem filterProps_extends_old (h : heap) (attrs : bag) (key : string)
    (v : value) :
  Js.lookup (PropFilteringTest.filterPropsOld h attrs) key = Some v ->
  Js.lookup (filterProps h attrs) key = Some (unwrap h v) /\
  ((forall l, v <> VObject l) ->
   Js.lookup (filterProps h attrs) key = Some v) /\
  (Vue.isRef h v = false -> Vue.isReactive h v = false ->
   Js.lookup (filterProps h attrs) key = Some v) /\
  ReactVue.cleanProps_primitives h attrs
    = PropFilteringTest.filterPropsOld h attrs.
Proof.
  intros Hold.
  assert (Hnew : Js.lookup (filterProps h attrs) key = Some (unwrap h v)).
  { rewrite filterPropsOld_lookup in Hold.
    rewrite filterProps_lookup. unfold sanitized.
    destruct (skipped_key key); [discriminate|].
    destruct (Js.lookup attrs key) as [v0|]; [|discriminate].
    destruct (negb (Js.typeof_object h v0) || Js.value_eqb v0 VNull) eqn:Hprim;
      [|discriminate].
    injection Hold as ->.
    now rewrite (primitive_not_VNode h v Hprim). }
  split; [exact Hnew|]. split; [|split; [|reflexivity]].
  - intros Hprim. rewrite Hnew. apply f_equal, unwrap_untouched.
    + now apply isRef_primitive.
    + now apply isReactive_primitive.
  - intros Href Hre. rewrite Hnew. now rewrite unwrap_untouched.
Qed.

Lemma filterProps_extends_old_witness :
  Js.lookup (PropFilteringTest.filterPropsOld scenario_heap scenario_attrs)
            "count" = Some (VNum 42) /\
  Js.lookup (filterProps scenario_heap scenario_attrs) "count"
    = Some (VNum 42).
Proof.
  split; [reflexivity|].
  refine (proj1 (proj2 (filterProps_extends_old scenario_heap scenario_attrs
                          "count" (VNum 42) eq_refl)) _).
  discriminate.
Defined.

(** X8.  The loop that this [React.vue] runs before [root.render] only
    looks at keys: under a key that line 75 lets through React gets the
    value as the bag holds it, a VNode or a ref included, and the other
    keys are absent; on a bag without repeated keys the props are the bag
    without the skipped entries. *)
Theorem cleanProps_only_filters_keys (attrs : bag) :
  (forall key : string,
      Js.lookup (ReactVue.cleanProps attrs) key =
      if skipped_key key then None else Js.lookup attrs key) /\
  (NoDup (Js.keys attrs) -> ReactVue.cleanProps attrs = unskipped attrs).
Proof.
  split; [apply cleanProps_lookup|].
  intros Hnd. unfold ReactVue.cleanProps.
  rewrite (loop_shape _ _ (cleanProps_step_writes attrs));
    [|exact Hnd|intros k _ []].
  simpl.
  assert (Hrest : forall rest : bag,
             (forall k v, In (k, v) rest -> Js.get attrs k = v) ->
             omap (fun k => pair k <$>
                            (if skipped_key k then None
                             else Some (Js.get attrs k)))
                  (Js.keys rest)
             = unskipped rest).
  { induction rest as [|[k v] rest IH]; intros Hget; [reflexivity|].
    change (Js.keys ((k, v) :: rest)) with (k :: Js.keys rest).
    rewrite omap_cons_list, IH by (intros k' v' Hin; apply Hget; now right).
    rewrite (Hget k v) by now left.
    unfold unskipped. simpl. now destruct (skipped_key k). }
  apply Hrest. intros k v Hin. now apply get_lookup, In_lookup.
Qed.

Lemma cleanProps_only_filters_keys_witness :
  NoDup (Js.keys scenario_attrs) /\
  ReactVue.cleanProps scenario_attrs = unskipped scenario_attrs /\
  Js.lookup (ReactVue.cleanProps [("slot", VObject 5)]) "slot"
    = Some (VObject 5).
Proof.
  assert (Hnd : NoDup (Js.keys scenario_attrs))
    by (apply (bool_decide_unpack _); vm_compute; reflexivity).
  split; [exact Hnd|]. split.
  - exact (proj2 (cleanProps_only_filters_keys scenario_attrs) Hnd).
  - exact (proj1 (cleanProps_only_filters_keys [("slot", VObject 5)]) "slot").
Defined.

(** X9.  On a bag none of whose values is a VNode, a ref or reactive to
    Vue, the loop of [React.vue] and [filterProps] build the same props;
    [filterProps] differs from that loop only on such values. *)
Theorem cleanProps_agrees_with_filterProps (h : heap) (attrs : bag) :
  Forall (fun kv => isVNode h kv.2 = false /\
                    Vue.isRef h kv.2 = false /\
                    Vue.isReactive h kv.2 = false) attrs ->
  ReactVue.cleanProps attrs = filterProps h attrs.
Proof.
  intros Hplain. unfold ReactVue.cleanProps, filterProps.
  apply fold_left_ext_in. intros acc key Hkey.
  apply keys_lookup in Hkey as [v Hv].
  unfold ReactVue.cleanProps_step, filterProps_step.
  destruct (skipped_key key); [reflexivity|].
  rewrite (get_lookup _ _ _ Hv).
  apply lookup_In in Hv.
  destruct (proj1 (List.Forall_forall _ _) Hplain (key, v) Hv)
    as (Hvn & Href & Hre).
  simpl in Hvn, Href, Hre. now rewrite Hvn, Href, Hre.
Qed.

Lemma cleanProps_agrees_with_filterProps_witness :
  ReactVue.cleanProps scenario_attrs
    = filterProps scenario_heap scenario_attrs.
Proof.
  apply cleanProps_agrees_with_filterProps. repeat constructor.
Defined.

(** X10.  The [filterProps] that the prop-filtering test declares for
    itself leaves VNodes out and unwraps nothing: it builds what the real
    [filterProps] builds exactly on bags without ref and without reactive
    proxy at the top level; a ref it hands over as the ref. *)
Theorem test_copy_of_filterProps (h : heap) (attrs : bag) :
  (forall key : string,
      Js.lookup (PropFilteringTest.filterProps h attrs) key =
      if skipped_key key then None
      else match Js.lookup attrs key with
           | Some v => if isVNode h v then None else Some v
           | None => None
           end) /\
  (Forall (fun kv => Vue.isRef h kv.2 = false /\
                     Vue.isReactive h kv.2 = false) attrs ->
   PropFilteringTest.filterProps h attrs = filterProps h attrs).
Proof.
  split; [apply test_filterProps_lookup|].
  intros Hplain. unfold PropFilteringTest.filterProps, filterProps.
  apply fold_left_ext_in. intros acc key Hkey.
  apply keys_lookup in Hkey as [v Hv].
  unfold PropFilteringTest.filterProps_step, filterProps_step.
  destruct (skipped_key key); [reflexivity|].
  rewrite (get_lookup _ _ _ Hv).
  apply lookup_In in Hv.
  destruct (proj1 (List.Forall_forall _ _) Hplain (key, v) Hv) as [Hr Hx].
  simpl in Hr, Hx. rewrite Hr, Hx.
  now destruct (isVNode h v).
Qed.

Lemma test_copy_of_filterProps_witness :
  PropFilteringTest.filterProps scenario_heap scenario_attrs
    = filterProps scenario_heap scenario_attrs /\
  Js.lookup (PropFilteringTest.filterProps wrapped_heap [("slot", VObject 5)])
            "slot" = Some (VObject 5).
Proof.
  split.
  - apply (proj2 (test_copy_of_filterProps scenario_heap scenario_attrs)).
    repeat constructor.
  - exact (proj1 (test_copy_of_filterProps wrapped_heap [("slot", VObject 5)])
             "slot").
Defined.

(** ** The scan: which file wins a name *)

Section ScanFacts.

Variable ms : modules.

Lemma loadRegistry_step_lookup (reg : registry) (path name : string) :
  name <> "__proto__" ->
  Js.lookup (reg_own (loadRegistry_step ms reg path)) name =
  if registers ms name path
  then Some (Js.get (module_at ms path) "default")
  else Js.lookup (reg_own reg) name.
Proof.
  intros Hname. unfold loadRegistry_step, registers.
  destruct (String.eqb (component_name path) name) eqn:E; simpl.
  - apply String.eqb_eq in E. rewrite E.
    destruct (negb (String.eqb name "") &&
              Js.truthy (Js.get (module_at ms path) "default"));
      [|reflexivity].
    unfold Reg.set. apply String.eqb_neq in Hname. rewrite Hname. simpl.
    now rewrite lookup_set, String.eqb_refl.
  - destruct (negb (String.eqb (component_name path) "") &&
              Js.truthy (Js.get (module_at ms path) "default"));
      [|reflexivity].
    unfold Reg.set.
    destruct (String.eqb (component_name path) "__proto__").
    + now destruct (Js.get (module_at ms path) "default").
    + simpl. now rewrite lookup_set, E.
Qed.

Lemma scan_fold_lookup (name : string) :
  name <> "__proto__" ->
  forall (paths : list string) (reg : registry),
    Js.lookup (reg_own (fold_left (loadRegistry_step ms) paths reg)) name =
    match last (List.filter (registers ms name) paths) with
    | Some path => Some (Js.get (module_at ms path) "default")
    | None => Js.lookup (reg_own reg) name
    end.
Proof.
  intros Hname. induction paths as [|path paths IH]; intros reg; simpl;
    [reflexivity|].
  rewrite IH, (loadRegistry_step_lookup _ _ _ Hname).
  destruct (registers ms name path); [|reflexivity].
  rewrite last_cons.
  now destruct (last (List.filter (registers ms name) paths)).
Qed.

Lemma scan_fold_no_proto :
  forall (paths : list string) (reg : registry),
    Js.lookup (reg_own reg) "__proto__" = None ->
    Js.lookup (reg_own (fold_left (loadRegistry_step ms) paths reg))
              "__proto__" = None.
Proof.
  induction paths as [|path paths IH]; intros reg Hreg; simpl; [exact Hreg|].
  apply IH. unfold loadRegistry_step.
  destruct (negb (String.eqb (component_name path) "") &&
            Js.truthy (Js.get (module_at ms path) "default")); [|exact Hreg].
  unfold Reg.set.
  destruct (String.eqb (component_name path) "__proto__") eqn:E.
  - now destruct (Js.get (module_at ms path) "default").
  - simpl. now rewrite lookup_set, E.
Qed.

End ScanFacts.

(** X11.  The name of a component is the name of its file without the
    directories and without the extension [.jsx] or [.tsx]; only that
    last extension goes. *)
Theorem component_name_of_file (dir stem ext : string) :
  ext = ".jsx" \/ ext = ".tsx" ->
  JsString.includes (stem ++ ext) "/" = false ->
  component_name (dir ++ "/" ++ stem ++ ext) = stem.
Proof. apply component_name_file. Qed.

Lemma component_name_of_file_witness :
  component_name ("/react-components/ui" ++ "/" ++ "Card" ++ ".tsx") = "Card" /\
  component_name ("/react-components" ++ "/" ++ "Chart.config" ++ ".jsx")
    = "Chart.config".
Proof.
  split.
  - apply component_name_of_file; [now right | reflexivity].
  - apply component_name_of_file; [now left | reflexivity].
Defined.

(** X12.  After the scan a name other than [__proto__] is bound to the
    default export of the last scanned file that has this name and a
    truthy default export, and it is unbound when there is no such file;
    [__proto__] is never a key of the registry. *)
Theorem scan_last_write_wins (ms : modules) :
  (forall name : string,
      name <> "__proto__" ->
      Js.lookup (reg_own (scan ms)) name = winner ms name) /\
  Js.lookup (reg_own (scan ms)) "__proto__" = None.
Proof.
  split.
  - intros name Hname. unfold scan, winner.
    rewrite (scan_fold_lookup ms name Hname).
    now destruct (last (List.filter (registers ms name) (map fst ms))).
  - now apply scan_fold_no_proto.
Qed.

Lemma scan_last_write_wins_witness :
  let ms := [("/react-components/Counter.jsx", [("default", VObject 7)]);
             ("/react-components/ui/Counter.tsx", [("default", VObject 8)]);
             ("/react-components/old/Counter.jsx", [("helper", VObject 9)])] in
  Js.lookup (reg_own (scan ms)) "Counter" = Some (VObject 8).
Proof.
  intros ms.
  rewrite (proj1 (scan_last_write_wins ms) "Counter"); [reflexivity|].
  discriminate.
Defined.

(** X13.  Directories do not tell names apart: two files with the same
    name in different directories (or with the two extensions) claim the
    same name, and the one scanned later is the one registered. *)
Theorem same_file_name_collides (dir1 dir2 stem ext1 ext2 : string)
    (m1 m2 : bag) :
  ext1 = ".jsx" \/ ext1 = ".tsx" ->
  ext2 = ".jsx" \/ ext2 = ".tsx" ->
  JsString.includes (stem ++ ext1) "/" = false ->
  JsString.includes (stem ++ ext2) "/" = false ->
  stem <> "" -> stem <> "__proto__" ->
  dir1 ++ "/" ++ stem ++ ext1 <> dir2 ++ "/" ++ stem ++ ext2 ->
  Js.truthy (Js.get m1 "default") = true ->
  Js.truthy (Js.get m2 "default") = true ->
  reg_own (scan [(dir1 ++ "/" ++ stem ++ ext1, m1);
                 (dir2 ++ "/" ++ stem ++ ext2, m2)])
  = [(stem, Js.get m2 "default")].
Proof.
  intros He1 He2 Hf1 Hf2 Hstem Hproto Hpaths Hd1 Hd2.
  unfold scan. cbn [map fst fold_left]. unfold loadRegistry_step.
  cbn [module_at]. rewrite !String.eqb_refl.
  apply String.eqb_neq in Hpaths. rewrite Hpaths.
  rewrite (component_name_file dir1 stem ext1 He1 Hf1).
  rewrite (component_name_file dir2 stem ext2 He2 Hf2).
  apply String.eqb_neq in Hstem, Hproto.
  rewrite Hstem, Hd1, Hd2. cbn [negb andb].
  unfold Reg.set. rewrite Hproto. cbn [reg_own reg_proto Reg.empty Js.set].
  now rewrite String.eqb_refl.
Qed.

Lemma same_file_name_collides_witness :
  reg_own (scan [("/react-components" ++ "/" ++ "Counter" ++ ".jsx",
                  [("default", VObject 7)]);
                 ("/react-components/ui" ++ "/" ++ "Counter" ++ ".tsx",
                  [("default", VObject 8)])])
  = [("Counter", VObject 8)].
Proof.
  refine (same_file_name_collides "/react-components" "/react-components/ui"
            "Counter" ".jsx" ".tsx" [("default", VObject 7)]
            [("default", VObject 8)] _ _ eq_refl eq_refl _ _ _ eq_refl eq_refl);
    try (now left); try (now right); discriminate.
Defined.

(** ** The bridge: from mount to render *)

Section BridgePaths.

Variable e : env.

Lemma scan_truthy (ms : modules) (name : string) (v : value) :
  Js.lookup (reg_own (scan ms)) name = Some v -> Js.truthy v = true.
Proof. intros Hv. now destruct (scan_invariant ms name v Hv) as (_ & Ht & _). Qed.

Lemma get_registered (ms : modules) (name : string) (v : value) :
  Js.lookup (reg_own (scan ms)) name = Some v ->
  Reg.get (env_heap e) (scan ms) name = Exported v.
Proof. intros Hv. unfold Reg.get. now rewrite Hv. Qed.

End BridgePaths.

(** X14.  A bridge mounted on [el] with the name of a scanned component:
    the registry is loaded once, one root is made on [el], and the
    component registered under the name is rendered there with the props
    of the loop; nothing is logged to the console and no activation is
    left. *)
Theorem registered_name_is_rendered (e : env) (ms : modules) (name : string)
    (v : value) (attrs : bag) (el : handle) :
  env_glob e = Some ms ->
  env_createRoot e = true ->
  env_createElement e = true ->
  Js.lookup (reg_own (scan ms)) name = Some v ->
  let w := ReactVue.run e (ReactVue.boot [ReactVue.fresh_bridge name attrs])
             [Mount 0 el; Resume 0; Resume 0; Resume 0] in
  w_log w = [ELoad 0; ECreateRoot 0 el 0;
             ERender 0 0 (Exported v) (ReactVue.cleanProps attrs)] /\
  w_tasks w = [] /\
  w_bridges w = [Bridge name attrs (Some el) (Some 0) (Some (scan ms))].
Proof.
  intros Hglob Hroot Helem Hv.
  pose proof (scan_truthy ms name v Hv) as Ht.
  pose proof (get_registered e ms name v Hv) as Hget.
  cbn. unfold ReactVue.loadRegistry. rewrite Hglob. cbn.
  unfold ReactVue.renderReact_resolve. cbn. rewrite Hget. cbn. rewrite Ht.
  cbn. rewrite Hroot. cbn. rewrite Helem. cbn. repeat split.
Qed.

Lemma registered_name_is_rendered_witness :
  w_log (ReactVue.run scenario_env
           (ReactVue.boot [ReactVue.fresh_bridge "Card" [("title", VStr "Hi")]])
           [Mount 0 10; Resume 0; Resume 0; Resume 0])
  = [ELoad 0; ECreateRoot 0 10 0;
     ERender 0 0 (Exported (VObject 8)) [("title", VStr "Hi")]].
Proof.
  exact (proj1 (registered_name_is_rendered scenario_env
                  (default [] (env_glob scenario_env)) "Card" (VObject 8)
                  [("title", VStr "Hi")] 10
                  eq_refl eq_refl eq_refl eq_refl)).
Defined.

(** X15.  When the glob throws, [loadRegistry] catches: whatever the
    name, the error is logged once and the registry is the empty object.
    For a name that is no property of [Object.prototype] the mount then
    goes on to the warning with an empty list of names: no root is made,
    nothing is thrown, and the registry being set the load is not tried
    again.  (A name that [Object.prototype] knows resolves in the empty
    registry too.) *)
Theorem failed_load_gives_empty_registry (e : env) (name : string)
    (attrs : bag) (el : handle) :
  env_glob e = None ->
  (let w := ReactVue.run e (ReactVue.boot [ReactVue.fresh_bridge name attrs])
              [Mount 0 el] in
   w_log w = [ELoad 0;
              EConsoleError
                "[slidev-addon-react] Failed to load react-components:"] /\
   w_tasks w = [(0, AfterLoad)] /\
   w_bridges w = [Bridge name attrs (Some el) None (Some Reg.empty)]) /\
  (existsb (String.eqb name) Reg.object_prototype_names = false ->
   let w := ReactVue.run e (ReactVue.boot [ReactVue.fresh_bridge name attrs])
              [Mount 0 el; Resume 0] in
   w_log w = [ELoad 0;
              EConsoleError
                "[slidev-addon-react] Failed to load react-components:";
              EConsoleWarn ("[slidev-addon-react] Component " ++ ReactVue.dquote
                            ++ name ++ ReactVue.dquote
                            ++ " not found. Available: ")] /\
   w_tasks w = [] /\
   w_bridges w = [Bridge name attrs (Some el) None (Some Reg.empty)]).
Proof.
  intros Hglob. split.
  - cbn. unfold ReactVue.loadRegistry. rewrite Hglob. cbn. repeat split.
  - intros Hname.
    assert (Hget : Reg.get (env_heap e) Reg.empty name = Exported VUndefined)
      by (unfold Reg.get; cbn [Reg.empty reg_own reg_proto Js.lookup];
          now rewrite Hname).
    cbn. unfold ReactVue.loadRegistry. rewrite Hglob. cbn.
    unfold ReactVue.renderReact_resolve. cbn -[Reg.get]. rewrite Hget.
    repeat split.
Qed.

Lemma failed_load_gives_empty_registry_witness :
  let e := Env ∅ None true true in
  w_bridges (ReactVue.run e (ReactVue.boot [ReactVue.fresh_bridge "Counter" []])
               [Mount 0 10; Resume 0])
  = [Bridge "Counter" [] (Some 10) None (Some Reg.empty)].
Proof.
  intros e.
  exact (proj2 (proj2 (proj2 (failed_load_gives_empty_registry e "Counter" []
                                10 eq_refl) eq_refl))).
Defined.

(** X16.  When the module that [import('react-dom/client')] resolves to
    has no [createRoot], the render attempt ends with one error on the
    console: no root is made, nothing is rendered, nothing is thrown, and
    [root] stays [null]. *)
Theorem missing_createRoot_is_logged (e : env) (ms : modules) (name : string)
    (v : value) (attrs : bag) (el : handle) :
  env_glob e = Some ms ->
  env_createRoot e = false ->
  Js.lookup (reg_own (scan ms)) name = Some v ->
  let w := ReactVue.run e (ReactVue.boot [ReactVue.fresh_bridge name attrs])
             [Mount 0 el; Resume 0; Resume 0] in
  w_log w = [ELoad 0;
             EConsoleError "[slidev-addon-react] createRoot not found"] /\
  w_tasks w = [] /\
  w_bridges w = [Bridge name attrs (Some el) None (Some (scan ms))].
Proof.
  intros Hglob Hroot Hv.
  pose proof (scan_truthy ms name v Hv) as Ht.
  pose proof (get_registered e ms name v Hv) as Hget.
  cbn. unfold ReactVue.loadRegistry. rewrite Hglob. cbn.
  unfold ReactVue.renderReact_resolve. cbn. rewrite Hget. cbn. rewrite Ht.
  cbn. rewrite Hroot. cbn. repeat split.
Qed.

Lemma missing_createRoot_is_logged_witness :
  let e := Env ∅ (env_glob scenario_env) false true in
  w_log (ReactVue.run e (ReactVue.boot [ReactVue.fresh_bridge "Counter" []])
           [Mount 0 10; Resume 0; Resume 0])
  = [ELoad 0; EConsoleError "[slidev-addon-react] createRoot not found"].
Proof.
  intros e.
  exact (proj1 (missing_createRoot_is_logged e (default [] (env_glob e))
                  "Counter" (VObject 7) [] 10 eq_refl eq_refl eq_refl)).
Defined.

Section Warnings.

Variable e : env.
Variable ms : modules.
Variable el : handle.

(** Each change to a name that does not resolve is warned about. *)
Lemma warn_again (names : list string) :
  Forall (fun n => Reg.found (Reg.get (env_heap e) (scan ms) n) = false)
         names ->
  forall (name : string) (attrs : bag) (log : list effect),
    let w := ReactVue.run e
               (World [Bridge name attrs (Some el) None (Some (scan ms))]
                      [] log 0)
               (map (NameChanged 0) names) in
    w_log w =
      (log ++ map (fun n => EConsoleWarn
                              (ReactVue.not_found_message
                                 (Bridge n attrs (Some el) None
                                         (Some (scan ms)))))
                  names)%list /\
    w_tasks w = [] /\
    (b_root <$> w_bridges w !! 0) = Some None.
Proof.
  induction 1 as [|n names Hn _ IH]; intros name attrs log.
  - cbn. now rewrite app_nil_r.
  - cbn [map ReactVue.run fold_left].
    assert (Hstep : ReactVue.step e
                      (World [Bridge name attrs (Some el) None (Some (scan ms))]
                             [] log 0)
                      (NameChanged 0 n)
                    = World [Bridge n attrs (Some el) None (Some (scan ms))] []
                        (log ++ [EConsoleWarn
                                   (ReactVue.not_found_message
                                      (Bridge n attrs (Some el) None
                                              (Some (scan ms))))])
                        0).
    { cbn -[Reg.get Reg.found ReactVue.not_found_message].
      unfold ReactVue.renderReact_resolve.
      cbn -[Reg.get Reg.found ReactVue.not_found_message].
      rewrite Hn. reflexivity. }
    rewrite Hstep.
    destruct (IH n attrs
                (log ++ [EConsoleWarn
                           (ReactVue.not_found_message
                              (Bridge n attrs (Some el) None
                                      (Some (scan ms))))])%list)
      as (Hlog & Htasks & Hroot).
    split; [|now split].
    etransitivity; [exact Hlog|].
    now rewrite <- app_assoc.
Qed.

End Warnings.

(** X17.  A name that the registry does not resolve is warned about on
    every render request, not once: after the mount with such a name and
    [n] changes of the name to such names the console holds [n + 1]
    warnings, one for each requested name in the order of the requests,
    each listing the names [Object.keys(registry)] gives; the registry
    has been loaded once, and there is still no root and no
    activation. *)
Theorem unresolved_name_warns_each_time (e : env) (ms : modules)
    (name : string) (attrs : bag) (el : handle) (names : list string) :
  env_glob e = Some ms ->
  Forall (fun n => Reg.found (Reg.get (env_heap e) (scan ms) n) = false)
         (name :: names) ->
  let w := ReactVue.run e (ReactVue.boot [ReactVue.fresh_bridge name attrs])
             ([Mount 0 el; Resume 0] ++ map (NameChanged 0) names) in
  w_log w =
    ELoad 0 ::
    map (fun n => EConsoleWarn
                    ("[slidev-addon-react] Component " ++ ReactVue.dquote ++
                     n ++ ReactVue.dquote ++ " not found. Available: " ++
                     JsString.join ", " (Reg.keys (scan ms))))
        (name :: names) /\
  w_tasks w = [] /\
  (b_root <$> w_bridges w !! 0) = Some None.
Proof.
  intros Hglob Hun. inversion Hun as [|n ns Hname Hnames]; subst.
  unfold ReactVue.run. rewrite fold_left_app.
  assert (Hmount :
            fold_left (ReactVue.step e) [Mount 0 el; Resume 0]
              (ReactVue.boot [ReactVue.fresh_bridge name attrs])
            = World [Bridge name attrs (Some el) None (Some (scan ms))] []
                [ELoad 0;
                 EConsoleWarn
                   (ReactVue.not_found_message
                      (Bridge name attrs (Some el) None (Some (scan ms))))]
                0).
  { cbn -[Reg.get Reg.found ReactVue.not_found_message].
    unfold ReactVue.loadRegistry. rewrite Hglob.
    cbn -[Reg.get Reg.found ReactVue.not_found_message].
    unfold ReactVue.renderReact_resolve.
    cbn -[Reg.get Reg.found ReactVue.not_found_message].
    rewrite Hname. reflexivity. }
  rewrite Hmount.
  exact (warn_again e ms el names Hnames name attrs _).
Qed.

Lemma unresolved_name_warns_each_time_witness :
  let w := ReactVue.run scenario_env
             (ReactVue.boot [ReactVue.fresh_bridge "Nope" []])
             ([Mount 0 10; Resume 0]
              ++ map (NameChanged 0) ["Counters"; "card"]) in
  w_log w =
    [ELoad 0;
     EConsoleWarn ("[slidev-addon-react] Component " ++ ReactVue.dquote ++
                   "Nope" ++ ReactVue.dquote ++
                   " not found. Available: Counter, Card");
     EConsoleWarn ("[slidev-addon-react] Component " ++ ReactVue.dquote ++
                   "Counters" ++ ReactVue.dquote ++
                   " not found. Available: Counter, Card");
     EConsoleWarn ("[slidev-addon-react] Component " ++ ReactVue.dquote ++
                   "card" ++ ReactVue.dquote ++
                   " not found. Available: Counter, Card")] /\
  w_tasks w = [].
Proof.
  intros w.
  assert (Hun : Forall (fun n => Reg.found
                                   (Reg.get (env_heap scenario_env)
                                      (scan (default [] (env_glob scenario_env)))
                                      n) = false)
                       ["Nope"; "Counters"; "card"])
    by (repeat constructor).
  destruct (unresolved_name_warns_each_time scenario_env
              (default [] (env_glob scenario_env)) "Nope" [] 10
              ["Counters"; "card"] eq_refl Hun)
    as (Hlog & Htasks & _).
  split; [|exact Htasks].
  exact (eq_trans Hlog eq_refl).
Defined.

(** X18.  Once a bridge has its root, a change of the name renders the
    newly named component into that same root: no root is made, none is
    unmounted, and the props are those of the current attributes. *)
Theorem name_change_renders_in_place (e : env) (w : world) (b : nat)
    (br : bridge) (el : handle) (r : root_id) (reg : registry)
    (name' : string) :
  w_bridges w !! b = Some br ->
  b_container br = Some el ->
  b_root br = Some r ->
  b_registry br = Some reg ->
  Reg.found (Reg.get (env_heap e) reg name') = true ->
  env_createElement e = true ->
  let w' := ReactVue.run e w [NameChanged b name';
                              Resume (length (w_tasks w))] in
  w_log w' = (w_log w ++ [ERender b r (Reg.get (env_heap e) reg name')
                            (ReactVue.cleanProps (b_attrs br))])%list /\
  w_tasks w' = w_tasks w /\
  w_next_root w' = w_next_root w /\
  w_bridges w' !! b = Some (ReactVue.set_is br name').
Proof.
  intros Hb Hel Hr Hreg Hfound Helem.
  assert (Hlt : b < length (w_bridges w)) by (eapply lookup_lt_Some, Hb).
  destruct br as [is_ attrs c rt rg]. simpl in Hel, Hr, Hreg. subst c rt rg.
  assert (Hfirst :
            ReactVue.step e w (NameChanged b name')
            = World (<[b := Bridge name' attrs (Some el) (Some r) (Some reg)]>
                       (w_bridges w))
                    (w_tasks w ++ [(b, AfterImportReact
                                         (Reg.get (env_heap e) reg name'))])
                    (w_log w) (w_next_root w)).
  { cbn [ReactVue.step]. unfold ReactVue.call. rewrite Hb.
    unfold ReactVue.renderReact, ReactVue.set_is, ReactVue.renderReact_resolve.
    cbn [b_container b_registry b_is b_attrs b_root].
    rewrite Hfound. unfold ReactVue.commit. cbn.
    now rewrite app_nil_r, Nat.add_0_r. }
  cbn [ReactVue.run fold_left]. rewrite Hfirst.
  cbn [ReactVue.step w_tasks w_bridges w_next_root].
  rewrite list_lookup_middle by reflexivity.
  rewrite list_lookup_insert_eq by exact Hlt.
  cbn [ReactVue.renderReact_resume b_root]. rewrite Helem.
  unfold ReactVue.commit. cbn.
  rewrite delete_middle, !app_nil_r, !Nat.add_0_r, list_insert_insert_eq.
  repeat split. now apply list_lookup_insert_eq.
Qed.

Lemma name_change_renders_in_place_witness :
  let w' := ReactVue.run scenario_env counter_rendered
              [NameChanged 0 "Card"; Resume 0] in
  w_log w' = (w_log counter_rendered
              ++ [ERender 0 0 (Exported (VObject 8)) [("initial", VNum 0)]])%list.
Proof.
  exact (proj1 (name_change_renders_in_place scenario_env counter_rendered 0
                  (Bridge "Counter" [("initial", VNum 0)] (Some 10) (Some 0)
                     (Some (Registry [("Counter", VObject 7); ("Card", VObject 8)]
                              None)))
                  10 0 (Registry [("Counter", VObject 7); ("Card", VObject 8)] None)
                  "Card" eq_refl eq_refl eq_refl eq_refl eq_refl eq_refl)).
Defined.

(** X20.  The test [if (!root)] is made before the [await]: when a second
    render request arrives while the first waits for
    [import('react-dom/client')], both activations make a root on the
    same element; [root] keeps the second, and the first is never
    unmounted. *)
Theorem second_request_makes_second_root (e : env) (ms : modules)
    (name : string) (v : value) (attrs attrs' : bag) (el : handle) :
  env_glob e = Some ms ->
  env_createRoot e = true ->
  Js.lookup (reg_own (scan ms)) name = Some v ->
  let w := ReactVue.run e (ReactVue.boot [ReactVue.fresh_bridge name attrs])
             [Mount 0 el; Resume 0; AttrsChanged 0 attrs';
              Resume 0; Resume 0; Destroy 0] in
  w_log w = [ELoad 0; ECreateRoot 0 el 0; ECreateRoot 0 el 1; EUnmount 1].
Proof.
  intros Hglob Hroot Hv.
  pose proof (scan_truthy ms name v Hv) as Ht.
  pose proof (get_registered e ms name v Hv) as Hget.
  cbn. unfold ReactVue.loadRegistry. rewrite Hglob. cbn.
  repeat (unfold ReactVue.renderReact_resolve; cbn;
          rewrite ?Hget; cbn; rewrite ?Ht; cbn; rewrite ?Hroot; cbn).
  reflexivity.
Qed.

Lemma second_request_makes_second_root_witness :
  w_log (ReactVue.run scenario_env
           (ReactVue.boot [ReactVue.fresh_bridge "Counter" []])
           [Mount 0 10; Resume 0; AttrsChanged 0 [("initial", VNum 1)];
            Resume 0; Resume 0; Destroy 0])
  = [ELoad 0; ECreateRoot 0 10 0; ECreateRoot 0 10 1; EUnmount 1].
Proof.
  exact (second_request_makes_second_root scenario_env
           (default [] (env_glob scenario_env)) "Counter" (VObject 7) []
           [("initial", VNum 1)] 10 eq_refl eq_refl eq_refl).
Defined.

(** X21.  Destroying a bridge twice is destroying it once: the second
    [onUnmounted] finds [root] [null] and unmounts nothing. *)
Theorem destroy_twice (e : env) (w : world) (b : nat) :
  ReactVue.step e (ReactVue.step e w (Destroy b)) (Destroy b)
  = ReactVue.step e w (Destroy b).
Proof.
  cbn [ReactVue.step].
  destruct (w_bridges w !! b) as [br|] eqn:Hb.
  - assert (Hlt : b < length (w_bridges w)) by (eapply lookup_lt_Some, Hb).
    cbn [ReactVue.onUnmounted w_bridges w_tasks w_log w_next_root].
    rewrite list_lookup_insert_eq by exact Hlt.
    cbn [ReactVue.onUnmounted ReactVue.set_root ReactVue.set_container
         b_root b_is b_attrs b_container b_registry].
    now rewrite list_insert_insert_eq, app_nil_r.
  - now rewrite Hb.
Qed.

(** X22.  A bridge has its variables to itself: an event that acts on
    another bridge (a call, a destruction, or the resumption of an
    activation of another bridge) leaves the name, attributes, container,
    root and registry of this one as they were. *)
Theorem bridges_are_isolated (e : env) (w : world) (ev : event) (b : nat) :
  target w ev <> Some b ->
  w_bridges (ReactVue.step e w ev) !! b = w_bridges w !! b.
Proof.
  intros Hother.
  assert (Hcall : forall b' f,
             b' <> b ->
             w_bridges (ReactVue.call e w b' f) !! b = w_bridges w !! b).
  { intros b' f Hne. unfold ReactVue.call.
    destruct (w_bridges w !! b'); [|reflexivity].
    unfold ReactVue.commit. simpl. now apply list_lookup_insert_ne. }
  destruct ev as [b' el|b' attrs|b' name|b'|i]; simpl in Hother |- *;
    try (apply Hcall; congruence).
  - destruct (w_bridges w !! b'); [|reflexivity]. simpl.
    apply list_lookup_insert_ne. congruence.
  - destruct (w_tasks w !! i) as [[b' at_]|]; [|reflexivity].
    destruct (w_bridges w !! b'); [|reflexivity].
    unfold ReactVue.commit. simpl. apply list_lookup_insert_ne.
    simpl in Hother. congruence.
Qed.

Lemma bridges_are_isolated_witness :
  let w := ReactVue.boot two_bridges in
  target w (Mount 0 10) <> Some 1 /\
  w_bridges (ReactVue.step scenario_env w (Mount 0 10)) !! 1
    = w_bridges w !! 1.
Proof.
  intros w.
  assert (Hother : target w (Mount 0 10) <> Some 1) by discriminate.
  split; [exact Hother|].
  exact (bridges_are_isolated scenario_env w (Mount 0 10) 1 Hother).
Defined.

(** ** The bridge: roots in the log *)

Section RootsInTheLog.

Variable e : env.

Lemma created_before_app (l effs : list effect) (i i' b : nat) (r : root_id) :
  i <= i' ->
  created_before l i b r -> created_before (l ++ effs) i' b r.
Proof.
  intros Hi (j & el & Hj & Hl). exists j, el. split; [lia|].
  rewrite lookup_app_l by (eapply lookup_lt_Some, Hl). exact Hl.
Qed.

(** Appending effects that are about roots already made keeps the order. *)
Lemma roots_ordered_app (l effs : list effect) :
  roots_ordered l ->
  (forall ef, ef ∈ effs ->
              match ef with
              | ERender b r _ _ => created_before l (length l) b r
              | EUnmount r => exists b : nat, created_before l (length l) b r
              | _ => True
              end) ->
  roots_ordered (l ++ effs).
Proof.
  intros Hl Heffs i ef Hi.
  destruct (Nat.lt_ge_cases i (length l)) as [Hlt|Hge].
  - rewrite lookup_app_l in Hi by exact Hlt.
    specialize (Hl i ef Hi).
    destruct ef; try exact I.
    + apply (created_before_app l effs i); [lia|exact Hl].
    + destruct Hl as [b Hb]. exists b.
      apply (created_before_app l effs i); [lia|exact Hb].
  - rewrite lookup_app_r in Hi by exact Hge.
    assert (Hin : ef ∈ effs) by (eapply list_elem_of_lookup_2, Hi).
    specialize (Heffs ef Hin).
    destruct ef; try exact I.
    + apply (created_before_app l effs (length l)); [lia|exact Heffs].
    + destruct Heffs as [b Hb]. exists b.
      apply (created_before_app l effs (length l)); [lia|exact Hb].
Qed.

(** The order holds, and the root each bridge holds is in the log. *)
Lemma roots_step (w : world) (ev : event) :
  roots_ordered (w_log w) ->
  (forall b br r, w_bridges w !! b = Some br -> b_root br = Some r ->
                  created_before (w_log w) (length (w_log w)) b r) ->
  roots_ordered (w_log (ReactVue.step e w ev)) /\
  (forall b br r,
      w_bridges (ReactVue.step e w ev) !! b = Some br -> b_root br = Some r ->
      created_before (w_log (ReactVue.step e w ev))
                     (length (w_log (ReactVue.step e w ev))) b r).
Proof.
  intros Hord Hknown.
  (* what writing back an outcome needs *)
  assert (Hcommit : forall b0 br0 tasks o,
             w_bridges w !! b0 = Some br0 ->
             (forall ef, ef ∈ ReactVue.o_effects o ->
                         match ef with
                         | ERender b r _ _ =>
                             b = b0 /\ b_root br0 = Some r
                         | EUnmount r => b_root br0 = Some r
                         | _ => True
                         end) ->
             (forall r, b_root (ReactVue.o_bridge o) = Some r ->
                        b_root br0 = Some r \/
                        exists el, ReactVue.o_effects o = [ECreateRoot b0 el r]) ->
             roots_ordered (w_log (ReactVue.commit w b0 tasks o)) /\
             (forall b br r,
                 w_bridges (ReactVue.commit w b0 tasks o) !! b = Some br ->
                 b_root br = Some r ->
                 created_before (w_log (ReactVue.commit w b0 tasks o))
                   (length (w_log (ReactVue.commit w b0 tasks o))) b r)).
  { intros b0 br0 tasks o Hb0 Heffs Hroot.
    assert (Hlt : b0 < length (w_bridges w)) by (eapply lookup_lt_Some, Hb0).
    unfold ReactVue.commit. simpl. split.
    - apply roots_ordered_app; [exact Hord|].
      intros ef Hin. specialize (Heffs ef Hin).
      destruct ef; try exact I.
      + destruct Heffs as [-> Hr]. now apply (Hknown b0 br0).
      + exists b0. now apply (Hknown b0 br0).
    - intros b br r Hb Hr.
      destruct (Nat.eq_dec b b0) as [->|Hne].
      + rewrite list_lookup_insert_eq in Hb by exact Hlt.
        injection Hb as <-.
        destruct (Hroot r Hr) as [Hold|[el Hnew]].
        * apply (created_before_app _ _ (length (w_log w)));
            [rewrite length_app; lia|]. now apply (Hknown b0 br0).
        * rewrite Hnew. exists (length (w_log w)), el.
          split; [rewrite length_app; simpl; lia|].
          now rewrite lookup_app_r, Nat.sub_diag by lia.
      + rewrite list_lookup_insert_ne in Hb by congruence.
        apply (created_before_app _ _ (length (w_log w)));
          [rewrite length_app; lia|]. now apply (Hknown b br). }
  assert (Hcall : forall b0 f,
             (forall br, b_root (f br) = b_root br) ->
             roots_ordered (w_log (ReactVue.call e w b0 f)) /\
             (forall b br r,
                 w_bridges (ReactVue.call e w b0 f) !! b = Some br ->
                 b_root br = Some r ->
                 created_before (w_log (ReactVue.call e w b0 f))
                   (length (w_log (ReactVue.call e w b0 f))) b r)).
  { intros b0 f Hf. unfold ReactVue.call.
    destruct (w_bridges w !! b0) as [br0|] eqn:Hb0; [|now split].
    apply (Hcommit b0 br0); [exact Hb0| |].
    - intros ef Hin. unfold ReactVue.renderReact in Hin.
      destruct (b_container (f br0)); [|now apply elem_of_nil in Hin].
      destruct (b_registry (f br0)).
      + unfold ReactVue.renderReact_resolve in Hin.
        destruct (negb _) in Hin; [|destruct (b_root (f br0)) in Hin];
          simpl in Hin;
          try (now apply elem_of_nil in Hin).
        apply list_elem_of_singleton in Hin. now subst ef.
      + unfold ReactVue.loadRegistry in Hin.
        destruct (env_glob e); simpl in Hin;
          repeat (apply elem_of_cons in Hin as [->|Hin]; [exact I|]);
          now apply elem_of_nil in Hin.
    - intros r Hr. left. rewrite <- (Hf br0).
      unfold ReactVue.renderReact in Hr.
      destruct (b_container (f br0)); [|exact Hr].
      destruct (b_registry (f br0)) eqn:Hreg.
      + unfold ReactVue.renderReact_resolve in Hr.
        destruct (negb _) in Hr; [|destruct (b_root (f br0)) in Hr];
          exact Hr.
      + unfold ReactVue.loadRegistry in Hr.
        now destruct (env_glob e). }
  destruct ev as [b0 el|b0 attrs|b0 name|b0|i]; cbn [ReactVue.step].
  - now apply Hcall.
  - now apply Hcall.
  - now apply Hcall.
  - destruct (w_bridges w !! b0) as [br0|] eqn:Hb0; [|now split].
    destruct (Hcommit b0 br0 (w_tasks w)
                (ReactVue.Outcome
                   (ReactVue.set_root (ReactVue.set_container br0 None) None)
                   (match b_root br0 with Some r => [EUnmount r] | None => [] end)
                   None 0) Hb0) as [H1 H2].
    + simpl. intros ef Hin. destruct (b_root br0) as [r|];
        [|now apply elem_of_nil in Hin].
      apply list_elem_of_singleton in Hin. now subst ef.
    + simpl. discriminate.
    + split; [exact H1|exact H2].
  - destruct (w_tasks w !! i) as [[b0 at_]|]; [|now split].
    destruct (w_bridges w !! b0) as [br0|] eqn:Hb0; [|now split].
    apply (Hcommit b0 br0); [exact Hb0| |].
    + intros ef Hin. destruct at_ as [|c|c]; simpl in Hin.
      * unfold ReactVue.renderReact_resolve in Hin.
        destruct (negb _) in Hin; [|destruct (b_root br0) in Hin];
          simpl in Hin; try (now apply elem_of_nil in Hin).
        apply list_elem_of_singleton in Hin. now subst ef.
      * destruct (negb (env_createRoot e)) in Hin;
          [|destruct (b_container br0) in Hin]; simpl in Hin;
          apply list_elem_of_singleton in Hin; now subst ef.
      * destruct (b_root br0) as [r|] eqn:Hr;
          [destruct (negb (env_createElement e)) in Hin|]; simpl in Hin;
          apply list_elem_of_singleton in Hin; subst ef; try exact I.
        now split.
    + intros r Hr. destruct at_ as [|c|c];
        cbn [ReactVue.renderReact_resume] in Hr |- *.
      * left. unfold ReactVue.renderReact_resolve in Hr.
        destruct (negb _) in Hr; [|destruct (b_root br0) in Hr]; exact Hr.
      * destruct (negb (env_createRoot e)); [now left|].
        destruct (b_container br0) as [el|]; [|now left].
        simpl in Hr. injection Hr as <-. right. now exists el.
      * left. destruct (b_root br0) as [r0|] eqn:E;
          [destruct (negb (env_createElement e))|]; simpl in Hr; congruence.
Qed.

Lemma roots_run (evs : list event) :
  forall w : world,
    roots_ordered (w_log w) ->
    (forall b br r, w_bridges w !! b = Some br -> b_root br = Some r ->
                    created_before (w_log w) (length (w_log w)) b r) ->
    roots_ordered (w_log (ReactVue.run e w evs)).
Proof.
  induction evs as [|ev evs IH]; intros w Hord Hknown; simpl; [exact Hord|].
  destruct (roots_step w ev Hord Hknown) as [Hord' Hknown'].
  now apply IH.
Qed.

End RootsInTheLog.

(** X19.  Starting from bridges without root, in every run, whatever the
    interleaving: [render] is only ever called on a root that
    [createRoot] returned to this same bridge earlier, and a root is only
    unmounted after it was made. *)
Theorem renders_only_on_created_roots (e : env) (bridges : list bridge)
    (evs : list event) :
  Forall (fun br => b_root br = None) bridges ->
  roots_ordered (w_log (ReactVue.run e (ReactVue.boot bridges) evs)).
Proof.
  intros Hnone. apply roots_run.
  - intros i ef Hi. simpl in Hi. now rewrite lookup_nil in Hi.
  - intros b br r Hb Hr. simpl in Hb.
    apply list_elem_of_lookup_2, list_elem_of_In in Hb.
    pose proof (proj1 (List.Forall_forall _ _) Hnone br Hb) as Hbr.
    simpl in Hbr. congruence.
Qed.

Lemma renders_only_on_created_roots_witness :
  Forall (fun br => b_root br = None) two_bridges /\
  created_before
    (w_log (ReactVue.run scenario_env (ReactVue.boot two_bridges)
              [Mount 1 11; Resume 0; Resume 0; Resume 0]))
    2 1 0.
Proof.
  assert (Hnone : Forall (fun br => b_root br = None) two_bridges)
    by (repeat constructor).
  split; [exact Hnone|].
  exact (renders_only_on_created_roots scenario_env two_bridges
           [Mount 1 11; Resume 0; Resume 0; Resume 0] Hnone 2
           (ERender 1 0 (Exported (VObject 8)) [("title", VStr "Hello")])
           eq_refl).
Defined.

(** ** The bridge: rejections *)

Section Rejections.

Variable e : env.
Hypothesis createElement_there : env_createElement e = true.

Lemma rejections_app (l l' : list effect) :
  rejections (l ++ l') = (rejections l ++ rejections l')%list.
Proof. apply List.filter_app. Qed.

Lemma resolve_quiet (b : nat) (br : bridge) :
  ReactVue.o_bridge (ReactVue.renderReact_resolve e b br) = br /\
  rejections (ReactVue.o_effects (ReactVue.renderReact_resolve e b br)) = [] /\
  (forall at_,
      ReactVue.o_next (ReactVue.renderReact_resolve e b br) = Some at_ ->
      b_container br <> None -> resumable br at_).
Proof.
  unfold ReactVue.renderReact_resolve.
  destruct (negb _); [|destruct (b_root br) as [r|] eqn:Hroot]; simpl;
    (split; [reflexivity|]); (split; [reflexivity|]);
    intros at' Hat Hc; try discriminate;
    injection Hat as <-; split; try exact Hc; try exact I.
  rewrite Hroot. discriminate.
Qed.

Lemma renderReact_quiet (b : nat) (br : bridge) :
  b_container (ReactVue.o_bridge (ReactVue.renderReact e b br))
    = b_container br /\
  b_root (ReactVue.o_bridge (ReactVue.renderReact e b br)) = b_root br /\
  rejections (ReactVue.o_effects (ReactVue.renderReact e b br)) = [] /\
  (forall at_,
      ReactVue.o_next (ReactVue.renderReact e b br) = Some at_ ->
      resumable (ReactVue.o_bridge (ReactVue.renderReact e b br)) at_).
Proof.
  unfold ReactVue.renderReact.
  destruct (b_container br) as [el|] eqn:Hc.
  - destruct (b_registry br) as [r|].
    + destruct (resolve_quiet b br) as (-> & Hq & Hnext).
      split; [exact Hc|]. split; [reflexivity|]. split; [exact Hq|].
      intros at' Hat. apply Hnext; [exact Hat|]. rewrite Hc. discriminate.
    + unfold ReactVue.loadRegistry.
      destruct (env_glob e); simpl;
        (split; [exact Hc|]); (split; [reflexivity|]);
        (split; [reflexivity|]);
        intros at' Hat; injection Hat as <-; (split; [|exact I]);
        simpl; rewrite Hc; discriminate.
  - simpl. split; [exact Hc|]. split; [reflexivity|]. split; [reflexivity|].
    intros at' Hat. discriminate.
Qed.

Lemma resume_quiet (b : nat) (br : bridge) (fresh : root_id) (at_ : pc) :
  resumable br at_ ->
  b_container (ReactVue.o_bridge (ReactVue.renderReact_resume e b br fresh at_))
    = b_container br /\
  (b_root br <> None ->
   b_root (ReactVue.o_bridge (ReactVue.renderReact_resume e b br fresh at_))
     <> None) /\
  rejections (ReactVue.o_effects (ReactVue.renderReact_resume e b br fresh at_))
    = [] /\
  (forall at',
      ReactVue.o_next (ReactVue.renderReact_resume e b br fresh at_)
        = Some at' ->
      resumable (ReactVue.o_bridge
                   (ReactVue.renderReact_resume e b br fresh at_)) at').
Proof.
  intros [Hc Hr]. destruct at_ as [|c|c]; cbn [ReactVue.renderReact_resume].
  - destruct (resolve_quiet b br) as (-> & Hq & Hnext).
    split; [reflexivity|]. split; [intros H; exact H|]. split; [exact Hq|].
    intros at' Hat. now apply Hnext.
  - destruct (negb (env_createRoot e)).
    + simpl. split; [reflexivity|]. split; [intros H; exact H|].
      split; [reflexivity|]. intros at' Hat. discriminate.
    + destruct (b_container br) as [el|] eqn:Hel; [|now contradiction Hc].
      simpl. split; [exact Hel|]. split; [discriminate|].
      split; [reflexivity|].
      intros at' Hat. injection Hat as <-. split; simpl.
      * rewrite Hel. discriminate.
      * discriminate.
  - destruct (b_root br) as [r|] eqn:Hroot; [|now contradiction Hr].
    rewrite createElement_there. simpl.
    split; [reflexivity|]. split; [rewrite Hroot; discriminate|].
    split; [reflexivity|]. intros at' Hat. discriminate.
Qed.

(** Without unmounting, nothing is rejected and every suspended
    activation stays resumable. *)
Lemma quiet_step (w : world) (ev : event) :
  is_destroy ev = false ->
  rejections (w_log w) = [] ->
  tasks_resumable (w_bridges w) (w_tasks w) ->
  rejections (w_log (ReactVue.step e w ev)) = [] /\
  tasks_resumable (w_bridges (ReactVue.step e w ev))
                  (w_tasks (ReactVue.step e w ev)).
Proof.
  intros Hev Hlog Htasks.
  assert (Hcommit : forall b0 br0 tasks o,
             w_bridges w !! b0 = Some br0 ->
             tasks_resumable (w_bridges w) tasks ->
             rejections (ReactVue.o_effects o) = [] ->
             (b_container br0 <> None ->
              b_container (ReactVue.o_bridge o) <> None) ->
             (b_root br0 <> None -> b_root (ReactVue.o_bridge o) <> None) ->
             (forall at_, ReactVue.o_next o = Some at_ ->
                          resumable (ReactVue.o_bridge o) at_) ->
             rejections (w_log (ReactVue.commit w b0 tasks o)) = [] /\
             tasks_resumable (w_bridges (ReactVue.commit w b0 tasks o))
                             (w_tasks (ReactVue.commit w b0 tasks o))).
  { intros b0 br0 tasks o Hb0 Hold Heffs Hcont Hroot Hnext.
    assert (Hlt : b0 < length (w_bridges w)) by (eapply lookup_lt_Some, Hb0).
    unfold ReactVue.commit. simpl. split.
    - now rewrite rejections_app, Hlog, Heffs.
    - intros i b at_ br Hi Hb.
      apply lookup_app_Some in Hi as [Hi|[Hge Hi]].
      + destruct (Nat.eq_dec b b0) as [->|Hne].
        * rewrite list_lookup_insert_eq in Hb by exact Hlt.
          injection Hb as <-.
          destruct (Hold i b0 at_ br0 Hi Hb0) as [Hc Hr]. split.
          -- now apply Hcont.
          -- destruct at_; try exact I. now apply Hroot.
        * rewrite list_lookup_insert_ne in Hb by congruence.
          exact (Hold i b at_ br Hi Hb).
      + destruct (ReactVue.o_next o) as [at'|] eqn:Hat;
          [|now rewrite lookup_nil in Hi].
        apply list_lookup_singleton_Some in Hi as [_ Hi].
        injection Hi as <- <-.
        rewrite list_lookup_insert_eq in Hb by exact Hlt.
        injection Hb as <-. now apply Hnext. }
  assert (Hcall : forall b0 f,
             (forall br, b_container br <> None ->
                         b_container (f br) <> None) ->
             (forall br, b_root (f br) = b_root br) ->
             rejections (w_log (ReactVue.call e w b0 f)) = [] /\
             tasks_resumable (w_bridges (ReactVue.call e w b0 f))
                             (w_tasks (ReactVue.call e w b0 f))).
  { intros b0 f Hfc Hfr. unfold ReactVue.call.
    destruct (w_bridges w !! b0) as [br0|] eqn:Hb0; [|now split].
    destruct (renderReact_quiet b0 (f br0)) as (Hc & Hr & Hq & Hnext).
    apply (Hcommit b0 br0); try assumption.
    - rewrite Hc. apply Hfc.
    - now rewrite Hr, Hfr. }
  destruct ev as [b0 el|b0 attrs|b0 name|b0|i]; cbn [ReactVue.step].
  - apply Hcall; [discriminate|reflexivity].
  - apply Hcall; [intros br H; exact H|reflexivity].
  - apply Hcall; [intros br H; exact H|reflexivity].
  - discriminate.
  - destruct (w_tasks w !! i) as [[b0 at_]|] eqn:Hi; [|now split].
    destruct (w_bridges w !! b0) as [br0|] eqn:Hb0; [|now split].
    destruct (resume_quiet b0 br0 (w_next_root w) at_
                (Htasks i b0 at_ br0 Hi Hb0)) as (Hc & Hr & Hq & Hnext).
    apply (Hcommit b0 br0); try assumption.
    + intros j b at' br Hj Hb.
      destruct (Nat.lt_ge_cases j i) as [Hlt|Hge].
      * rewrite list_lookup_delete_lt in Hj by exact Hlt.
        exact (Htasks j b at' br Hj Hb).
      * rewrite list_lookup_delete_ge in Hj by exact Hge.
        exact (Htasks (S j) b at' br Hj Hb).
    + now rewrite Hc.
Qed.

Lemma quiet_run (evs : list event) :
  forall w : world,
    forallb (fun ev => negb (is_destroy ev)) evs = true ->
    rejections (w_log w) = [] ->
    tasks_resumable (w_bridges w) (w_tasks w) ->
    rejections (w_log (ReactVue.run e w evs)) = [].
Proof.
  induction evs as [|ev evs IH]; intros w Hevs Hlog Htasks; simpl;
    [exact Hlog|].
  simpl in Hevs. apply andb_true_iff in Hevs as [Hev Hevs].
  apply negb_true_iff in Hev.
  destruct (quiet_step w ev Hev Hlog Htasks) as [Hlog' Htasks'].
  now apply IH.
Qed.

End Rejections.

(** X23.  As long as no bridge is unmounted, and React has its
    [createElement], no activation of [renderReact] is rejected, whatever
    the bridges, the events and their interleaving: [createRoot] always
    gets a container and [render] is never read off a null root. *)
Theorem no_rejection_without_destroy (e : env) (bridges : list bridge)
    (evs : list event) :
  env_createElement e = true ->
  forallb (fun ev => negb (is_destroy ev)) evs = true ->
  rejections (w_log (ReactVue.run e (ReactVue.boot bridges) evs)) = [].
Proof.
  intros Hce Hevs. apply quiet_run; [exact Hce|exact Hevs|reflexivity|].
  intros i b at_ br Hi. simpl in Hi. now rewrite lookup_nil in Hi.
Qed.

Lemma no_rejection_without_destroy_witness :
  rejections
    (w_log (ReactVue.run scenario_env (ReactVue.boot two_bridges)
              [Mount 0 10; Mount 1 11; Resume 0; NameChanged 0 "Card";
               Resume 0; Resume 0; Resume 0; Resume 0;
               AttrsChanged 1 []; Resume 0; Resume 0])) = [] /\
  length
    (w_log (ReactVue.run scenario_env (ReactVue.boot two_bridges)
              [Mount 0 10; Mount 1 11; Resume 0; NameChanged 0 "Card";
               Resume 0; Resume 0; Resume 0; Resume 0;
               AttrsChanged 1 []; Resume 0; Resume 0])) = 7.
Proof.
  split; [|reflexivity].
  exact (no_rejection_without_destroy scenario_env two_bridges
           [Mount 0 10; Mount 1 11; Resume 0; NameChanged 0 "Card";
            Resume 0; Resume 0; Resume 0; Resume 0;
            AttrsChanged 1 []; Resume 0; Resume 0]
           eq_refl eq_refl).
Defined.

(** ** The transform hook: the loader *)

Lemma append_assoc' (s1 s2 s3 : string) :
  (s1 ++ s2) ++ s3 = s1 ++ (s2 ++ s3).
Proof.
  induction s1 as [|c s1 IH]; [reflexivity|].
  rewrite !append_cons. now rewrite IH.
Qed.

(** Two suffixes of one length, of the same string, are the same. *)
Lemma suffix_unique (s : string) :
  forall s' a b : string,
    String.length a = String.length b -> s ++ a = s' ++ b -> a = b.
Proof.
  induction s as [|c s IH]; intros [|c' s'] a b Hlen Heq.
  - exact Heq.
  - rewrite append_nil in Heq. subst a.
    rewrite append_cons in Hlen. simpl in Hlen.
    rewrite length_append in Hlen. lia.
  - rewrite append_nil in Heq. subst b.
    rewrite append_cons in Hlen. simpl in Hlen.
    rewrite length_append in Hlen. lia.
  - rewrite !append_cons in Heq. injection Heq as _ Heq.
    exact (IH s' a b Hlen Heq).
Qed.

(** X24.  Among the files of [react-components] the extension alone
    chooses the loader: a [.tsx] file is compiled as TSX and a [.jsx]
    file as JSX, both with the automatic runtime of [react]; what esbuild
    resolves to is what the hook returns, and when esbuild rejects, so
    does the hook. *)
Theorem transform_loader_by_extension
    (esbuild_transform : string -> Transform.options ->
                         Transform.esbuild_result + string)
    (code stem : string) :
  Transform.contains stem "react-components" ->
  Transform.transform esbuild_transform code (stem ++ ".tsx")
    = match esbuild_transform code
              (Transform.Options Transform.LoaderTsx "automatic" "react") with
      | inl result =>
          Transform.Emit (Transform.res_code result) (Transform.res_map result)
      | inr err => Transform.Reject err
      end /\
  Transform.transform esbuild_transform code (stem ++ ".jsx")
    = match esbuild_transform code
              (Transform.Options Transform.LoaderJsx "automatic" "react") with
      | inl result =>
          Transform.Emit (Transform.res_code result) (Transform.res_map result)
      | inr err => Transform.Reject err
      end.
Proof.
  intros (before & after & ->).
  assert (Hinc : forall ext,
             JsString.includes ((before ++ "react-components" ++ after) ++ ext)
                               "react-components" = true).
  { intros ext. apply includes_spec. exists before, (after ++ ext).
    now rewrite !append_assoc'. }
  assert (Htsx : JsString.endsWith
                   ((before ++ "react-components" ++ after) ++ ".tsx") ".tsx"
                 = true)
    by (apply endsWith_spec; now eexists).
  assert (Hjsx : JsString.endsWith
                   ((before ++ "react-components" ++ after) ++ ".jsx") ".tsx"
                 = false).
  { destruct (JsString.endsWith
                ((before ++ "react-components" ++ after) ++ ".jsx") ".tsx")
      eqn:E; [|reflexivity].
    apply endsWith_spec in E as [stem' E].
    apply suffix_unique in E; [discriminate|reflexivity]. }
  unfold Transform.transform.
  rewrite !Hinc, Htsx, Hjsx.
  assert (Ht : forall ext, ext = ".jsx" \/ ext = ".tsx" ->
             JsString.test_jtsx
               ((before ++ "react-components" ++ after) ++ ext) = true).
  { intros ext Hext. apply test_jtsx_spec.
    exists (before ++ "react-components" ++ after).
    destruct Hext as [->| ->]; [now left|now right]. }
  rewrite (Ht ".tsx"), (Ht ".jsx") by auto.
  split; reflexivity.
Qed.

Lemma transform_loader_by_extension_witness :
  Transform.contains "/deck/react-components/ui/Card" "react-components" /\
  Transform.transform
    (fun code o =>
       match Transform.opt_loader o with
       | Transform.LoaderTsx => inl (Transform.EsbuildResult code "tsx")
       | Transform.LoaderJsx => inr "Unexpected token"
       end)
    "export default 1" "/deck/react-components/ui/Card.jsx"
  = Transform.Reject "Unexpected token".
Proof.
  assert (Hc : Transform.contains "/deck/react-components/ui/Card"
                                  "react-components")
    by (exists "/deck/", "/ui/Card"; reflexivity).
  split; [exact Hc|].
  exact (proj2 (transform_loader_by_extension
                  (fun code o =>
                     match Transform.opt_loader o with
                     | Transform.LoaderTsx =>
                         inl (Transform.EsbuildResult code "tsx")
                     | Transform.LoaderJsx => inr "Unexpected token"
                     end)
                  "export default 1" "/deck/react-components/ui/Card" Hc)).
Defined.

(** ** The explicit map: loads *)

Lemma explicit_map_requests (n : nat) :
  forall s : ExplicitMap.state,
    ExplicitMap.em_registry s = None ->
    ExplicitMap.run s (replicate n ExplicitMap.Request)
    = ExplicitMap.State None (n + ExplicitMap.em_awaited s)
                        (n + ExplicitMap.em_started s).
Proof.
  induction n as [|n IH]; intros [reg awaited started] Hreg; simpl in Hreg;
    subst reg; [reflexivity|].
  change (ExplicitMap.run (ExplicitMap.State None awaited started)
            (replicate (S n) ExplicitMap.Request))
    with (ExplicitMap.run (ExplicitMap.State None (S awaited) (S started))
            (replicate n ExplicitMap.Request)).
  rewrite IH by reflexivity. simpl. f_equal; lia.
Qed.

Lemma explicit_map_assigned (evs : list ExplicitMap.event) :
  forall s : ExplicitMap.state,
    ExplicitMap.em_registry s <> None ->
    ExplicitMap.em_started (ExplicitMap.run s evs) = ExplicitMap.em_started s.
Proof.
  induction evs as [|ev evs IH]; intros [reg awaited started] Hreg;
    [reflexivity|].
  simpl in Hreg. destruct reg as [r|]; [|contradiction].
  unfold ExplicitMap.run in *. simpl.
  destruct ev as [|exports]; simpl.
  - now rewrite IH.
  - destruct awaited; now rewrite IH.
Qed.

(** X25.  In the version with the explicit map [loadRegistry] awaits its
    import before it assigns [registry]: every request made before the
    first import settles starts a load of its own, [n] requests [n] loads;
    once one import has settled, or failed, the variable is assigned and
    nothing that follows starts another load. *)
Theorem explicit_map_one_load_per_early_request
    (n : nat) (exports : option bag) (evs : list ExplicitMap.event) :
  0 < n ->
  ExplicitMap.em_started
    (ExplicitMap.run (ExplicitMap.State None 0 0)
                     (replicate n ExplicitMap.Request)) = n /\
  ExplicitMap.em_registry
    (ExplicitMap.run (ExplicitMap.State None 0 0)
                     (replicate n ExplicitMap.Request
                      ++ [ExplicitMap.Settle exports])%list)
    = Some (default [] exports) /\
  ExplicitMap.em_started
    (ExplicitMap.run (ExplicitMap.State None 0 0)
                     (replicate n ExplicitMap.Request
                      ++ ExplicitMap.Settle exports :: evs)%list) = n.
Proof.
  intros Hn.
  pose proof (explicit_map_requests n (ExplicitMap.State None 0 0) eq_refl)
    as Hrun.
  simpl in Hrun. rewrite !Nat.add_0_r in Hrun.
  unfold ExplicitMap.run in *. rewrite !fold_left_app, Hrun.
  destruct n as [|n]; [lia|]. simpl.
  split; [reflexivity|]. split; [reflexivity|].
  refine (explicit_map_assigned evs (ExplicitMap.State (Some _) _ _) _).
  discriminate.
Qed.

Lemma explicit_map_one_load_per_early_request_witness :
  ExplicitMap.em_started
    (ExplicitMap.run (ExplicitMap.State None 0 0)
       (replicate 3 ExplicitMap.Request
        ++ ExplicitMap.Settle (Some [("Counter", VObject 7)])
           :: [ExplicitMap.Request; ExplicitMap.Settle None;
               ExplicitMap.Request])%list) = 3.
Proof.
  exact (proj2 (proj2 (explicit_map_one_load_per_early_request 3
                         (Some [("Counter", VObject 7)])
                         [ExplicitMap.Request; ExplicitMap.Settle None;
                          ExplicitMap.Request]
                         ltac:(lia)))).
Defined.
